(** * Asset / Account contract model (daml/Asset.daml)

    A shallow embedding of the two Daml modules [Asset] and [Account]:
    the four templates, their signatories, observers, [ensure] clauses and
    contract keys, the eight choices they declare and the built-in
    [Archive] choice, over an explicit ledger (the active contract set)
    threaded through a small update monad.

    Ledger rules embedded here, as the Daml ledger applies them:
    - [create] evaluates the template's [ensure] clause, needs the
      authority of every signatory, and refuses a second active contract
      with the same key;
    - [lookupByKey] needs the authority of the key's maintainers;
    - [fetch] needs an active contract and the authority of a stakeholder;
    - [archive] needs the authority of every signatory;
    - a choice needs the authority of its controllers; its body runs with
      the authority of the contract's signatories and the controllers; a
      consuming choice archives its contract before the body runs;
    - a failed command commits nothing.

    [Decimal] is Daml's [Numeric 10]: a fixed-point number with ten
    decimal places and 38 significant digits, kept here as the integer
    number of 1e-10 units; arithmetic that leaves the range raises. *)

From Stdlib Require Import ZArith List String Bool Lia PeanoNat.
Import ListNotations.
Local Open Scope string_scope.
Local Open Scope list_scope.
Local Open Scope Z_scope.

(** ** Values *)

Definition Party := string.
Definition Text := string.
Definition ContractId := nat.

Definition Decimal := Z.
Definition decimal_scale : Z := 10 ^ 10.
Definition decimal_bound : Z := 10 ^ 38.

(** The literal [n.0]. *)
Definition dec (n : Z) : Decimal := n * decimal_scale.

Definition in_decimal_range (x : Z) : bool :=
  (- decimal_bound <? x) && (x <? decimal_bound).

Record AssetType := mkAssetType {
  issuer : Party;
  symbol : Text;
  fungible : bool;
  reference : option Text
}.

(** [deriving Eq] on [AssetType]: field-wise equality. *)
Definition option_Text_eqb (x y : option Text) : bool :=
  match x, y with
  | Some a, Some b => String.eqb a b
  | None, None => true
  | _, _ => false
  end.

Definition AssetType_eqb (x y : AssetType) : bool :=
  String.eqb (issuer x) (issuer y)
  && String.eqb (symbol x) (symbol y)
  && Bool.eqb (fungible x) (fungible y)
  && option_Text_eqb (reference x) (reference y).

(** ** Templates *)

(** template Asset *)
Record Asset := mkAsset {
  asset_type : AssetType;
  owner : Party;
  amount : Decimal
}.

(** template AssetTransfer; the source's field [amount] is
    [transfer_amount] here. *)
Record AssetTransfer := mkAssetTransfer {
  asset : Asset;
  recipient : Party;
  transfer_amount : Decimal
}.

(** template AssetHoldingAccount; the source's fields [asset_type] and
    [owner] are [account_asset_type] and [account_owner] here. *)
Record AssetHoldingAccount := mkAssetHoldingAccount {
  account_asset_type : AssetType;
  account_owner : Party;
  airdroppable : bool;
  resharable : bool
}.

(** template AssetHoldingAccountProposal; the source's field [recipient]
    is [proposal_recipient] here. *)
Record AssetHoldingAccountProposal := mkAssetHoldingAccountProposal {
  account : AssetHoldingAccount;
  proposal_recipient : Party
}.

Inductive Contract :=
| CAsset (a : Asset)
| CAssetTransfer (t : AssetTransfer)
| CAccount (acc : AssetHoldingAccount)
| CProposal (p : AssetHoldingAccountProposal).

Inductive TemplateId := TAsset | TAccount.

(** A contract key: both keyed templates use [(AssetType, Party)]. *)
Definition Key : Type := TemplateId * (AssetType * Party).

Definition TemplateId_eqb (x y : TemplateId) : bool :=
  match x, y with
  | TAsset, TAsset | TAccount, TAccount => true
  | _, _ => false
  end.

Definition Key_eqb (x y : Key) : bool :=
  TemplateId_eqb (fst x) (fst y)
  && AssetType_eqb (fst (snd x)) (fst (snd y))
  && String.eqb (snd (snd x)) (snd (snd y)).

(** signatory asset_type.issuer, owner *)
Definition signatory_Asset (a : Asset) : list Party :=
  [issuer (asset_type a); owner a].

Definition signatory (c : Contract) : list Party :=
  match c with
  | CAsset a => signatory_Asset a
  | CAssetTransfer t => signatory_Asset (asset t)
  | CAccount acc => [issuer (account_asset_type acc); account_owner acc]
  | CProposal p => [issuer (account_asset_type (account p))]
  end.

Definition observer (c : Contract) : list Party :=
  match c with
  | CAsset _ => []
  | CAssetTransfer t => [recipient t]
  | CAccount _ => []
  | CProposal p => [proposal_recipient p]
  end.

(** ensure (if asset_type.fungible then amount>0.0
            else (amount==1.0 || amount==0.0)) *)
Definition ensure_Asset (a : Asset) : bool :=
  if fungible (asset_type a) then 0 <? amount a
  else (amount a =? dec 1) || (amount a =? dec 0).

Definition ensure (c : Contract) : bool :=
  match c with
  | CAsset a => ensure_Asset a
  | _ => true
  end.

Definition key (c : Contract) : option Key :=
  match c with
  | CAsset a => Some (TAsset, (asset_type a, owner a))
  | CAccount acc => Some (TAccount, (account_asset_type acc, account_owner acc))
  | _ => None
  end.

(** Asset: maintainer key._2; AssetHoldingAccount: maintainer key._1.issuer *)
Definition maintainer (k : Key) : list Party :=
  match fst k with
  | TAsset => [snd (snd k)]
  | TAccount => [issuer (fst (snd k))]
  end.

(** ** The ledger and the update monad *)

Record Ledger := mkLedger {
  next_cid : ContractId;
  active : list (ContractId * Contract)
}.

Definition empty_ledger : Ledger := mkLedger 0%nat [].

Inductive Error :=
| AssertionFailed (msg : string)
| PreconditionFailed
| DuplicateKey
| ContractNotFound
| WronglyTypedContract
| AuthorizationFailed
| ArithmeticError.

Inductive Result (A : Type) :=
| Ok (a : A)
| Fail (e : Error).
Arguments Ok {A} a.
Arguments Fail {A} e.

(** An update runs with a set of authorizing parties over a ledger. *)
Definition Update (A : Type) : Type :=
  list Party -> Ledger -> Result (A * Ledger).

Definition ret {A} (a : A) : Update A := fun _ l => Ok (a, l).

Definition bind {A B} (m : Update A) (k : A -> Update B) : Update B :=
  fun auth l =>
    match m auth l with
    | Ok (a, l') => k a auth l'
    | Fail e => Fail e
    end.

Definition fail {A} (e : Error) : Update A := fun _ _ => Fail e.

Notation "x <- m ;; k" := (bind m (fun x => k))
  (at level 61, m at next level, right associativity).
Notation "m ;;; k" := (bind m (fun _ => k))
  (at level 61, right associativity).

Definition assertMsg (msg : string) (b : bool) : Update unit :=
  if b then ret tt else fail (AssertionFailed msg).

Definition fromSome {A} (o : option A) : Update A :=
  match o with
  | Some a => ret a
  | None => fail (AssertionFailed "fromSome: None")
  end.

Definition decimal (x : Z) : Update Decimal :=
  if in_decimal_range x then ret x else fail ArithmeticError.

Definition elem (p : Party) (ps : list Party) : bool :=
  existsb (String.eqb p) ps.

Definition subset (ps qs : list Party) : bool :=
  forallb (fun p => elem p qs) ps.

Fixpoint lookup_cid (cid : ContractId) (s : list (ContractId * Contract))
  : option Contract :=
  match s with
  | [] => None
  | (c, x) :: s' => if Nat.eqb c cid then Some x else lookup_cid cid s'
  end.

Fixpoint remove_cid (cid : ContractId) (s : list (ContractId * Contract))
  : list (ContractId * Contract) :=
  match s with
  | [] => []
  | (c, x) :: s' =>
      if Nat.eqb c cid then remove_cid cid s' else (c, x) :: remove_cid cid s'
  end.

Definition has_key (k : Key) (x : Contract) : bool :=
  match key x with
  | Some k' => Key_eqb k' k
  | None => false
  end.

Fixpoint lookup_key (k : Key) (s : list (ContractId * Contract))
  : option ContractId :=
  match s with
  | [] => None
  | (c, x) :: s' => if has_key k x then Some c else lookup_key k s'
  end.

Definition create (x : Contract) : Update ContractId :=
  fun auth l =>
    if negb (ensure x) then Fail PreconditionFailed
    else if negb (subset (signatory x) auth) then Fail AuthorizationFailed
    else
      match key x with
      | Some k =>
          match lookup_key k (active l) with
          | Some _ => Fail DuplicateKey
          | None =>
              Ok (next_cid l,
                  mkLedger (S (next_cid l)) (active l ++ [(next_cid l, x)]))
          end
      | None =>
          Ok (next_cid l,
              mkLedger (S (next_cid l)) (active l ++ [(next_cid l, x)]))
      end.

Definition lookupByKey (k : Key) : Update (option ContractId) :=
  fun auth l =>
    if subset (maintainer k) auth then Ok (lookup_key k (active l), l)
    else Fail AuthorizationFailed.

Definition fetch (cid : ContractId) : Update Contract :=
  fun auth l =>
    match lookup_cid cid (active l) with
    | None => Fail ContractNotFound
    | Some x =>
        if existsb (fun p => elem p auth) (signatory x ++ observer x)
        then Ok (x, l)
        else Fail AuthorizationFailed
    end.

Definition archive (cid : ContractId) : Update unit :=
  fun auth l =>
    match lookup_cid cid (active l) with
    | None => Fail ContractNotFound
    | Some x =>
        if subset (signatory x) auth
        then Ok (tt, mkLedger (next_cid l) (remove_cid cid (active l)))
        else Fail AuthorizationFailed
    end.

(** Exercising a choice on contract [cid]. *)
Definition exercise {T R} (as_T : Contract -> option T)
    (cid : ContractId) (controller : T -> list Party) (consuming : bool)
    (body : T -> Update R) : Update R :=
  fun auth l =>
    match lookup_cid cid (active l) with
    | None => Fail ContractNotFound
    | Some x =>
        match as_T x with
        | None => Fail WronglyTypedContract
        | Some this =>
            if subset (controller this) auth then
              body this (signatory x ++ controller this)
                (if consuming
                 then mkLedger (next_cid l) (remove_cid cid (active l))
                 else l)
            else Fail AuthorizationFailed
        end
    end.

Definition as_Asset (x : Contract) : option Asset :=
  match x with CAsset a => Some a | _ => None end.
Definition as_AssetTransfer (x : Contract) : option AssetTransfer :=
  match x with CAssetTransfer t => Some t | _ => None end.
Definition as_Account (x : Contract) : option AssetHoldingAccount :=
  match x with CAccount a => Some a | _ => None end.
Definition as_Proposal (x : Contract) : option AssetHoldingAccountProposal :=
  match x with CProposal p => Some p | _ => None end.

Definition fetch_Asset (cid : ContractId) : Update Asset :=
  x <- fetch cid ;;
  match as_Asset x with
  | Some a => ret a
  | None => fail WronglyTypedContract
  end.

Definition lookupByKey_Asset (k : AssetType * Party)
  : Update (option ContractId) :=
  lookupByKey (TAsset, k).

(** A command submitted by one party: all or nothing. *)
Definition submit {A} (p : Party) (u : Update A) (l : Ledger)
  : Result A * Ledger :=
  match u [p] l with
  | Ok (a, l') => (Ok a, l')
  | Fail e => (Fail e, l)
  end.

Definition exerciseByKey {R} (k : Key) (choice : ContractId -> Update R)
  : Update R :=
  fun auth l =>
    match lookup_key k (active l) with
    | Some cid => choice cid auth l
    | None => Fail ContractNotFound
    end.

(** ** Module Asset: the choices of AssetTransfer *)

(** choice Cancel_Transfer : ContractId Asset, controller asset.owner *)
Definition Cancel_Transfer (self : ContractId) : Update ContractId :=
  exercise as_AssetTransfer self (fun this => [owner (asset this)]) true
    (fun this =>
       assetCid <- lookupByKey_Asset
                     (asset_type (asset this), owner (asset this)) ;;
       previous_asset_amount <-
         (match assetCid with
          | Some cid =>
              a <- fetch_Asset cid ;;
              archive cid ;;;
              ret (amount a)
          | None => ret (dec 0)
          end) ;;
       new_amount <- decimal (transfer_amount this + previous_asset_amount) ;;
       create (CAsset (mkAsset (asset_type (asset this))
                               (owner (asset this))
                               new_amount))).

(** choice Reject_Transfer : ContractId AssetTransfer, controller recipient *)
Definition Reject_Transfer (self : ContractId) : Update ContractId :=
  exercise as_AssetTransfer self (fun this => [recipient this]) true
    (fun this =>
       create (CAssetTransfer
                 (mkAssetTransfer (asset this)
                                  (owner (asset this))
                                  (transfer_amount this)))).

Definition msg_accept_nonfungible : string :=
  "Cannot accept AssetTransfer. The recipient already owns this type of non-fungible asset".

(** choice Accept_Transfer : ContractId Asset, controller recipient *)
Definition Accept_Transfer (self : ContractId) : Update ContractId :=
  exercise as_AssetTransfer self (fun this => [recipient this]) true
    (fun this =>
       assetCid <- lookupByKey_Asset
                     (asset_type (asset this), recipient this) ;;
       previous_asset_amount <-
         (match assetCid with
          | Some cid =>
              a <- fetch_Asset cid ;;
              assertMsg msg_accept_nonfungible (fungible (asset_type a)) ;;;
              archive cid ;;;
              ret (amount a)
          | None => ret (dec 0)
          end) ;;
       new_amount <- decimal (transfer_amount this + previous_asset_amount) ;;
       create (CAsset (mkAsset (asset_type (asset this))
                               (recipient this)
                               new_amount))).

(** ** Module Account: the choices of AssetHoldingAccount and of
    AssetHoldingAccountProposal *)

(** nonconsuming choice Invite_New_Asset_Holder,
    controller (if resharable then owner else asset_type.issuer);
    the lookup and the assertion on the recipient's account are commented
    out in the source and so have no counterpart here. *)
Definition Invite_New_Asset_Holder (self : ContractId) (recipient : Party)
  : Update ContractId :=
  exercise as_Account self
    (fun this => [if resharable this then account_owner this
                  else issuer (account_asset_type this)])
    false
    (fun this =>
       create (CProposal (mkAssetHoldingAccountProposal this recipient))).

Definition msg_airdrop_not_accepted : string :=
  "Cannot create airdrop. The target account does not accept airdrops".
Definition msg_airdrop_amount : string :=
  "Cannot create airdrop. The amount of non fungible asset must be 1.0".
Definition msg_airdrop_occupied : string :=
  "Cannot create airdrop. An asset already exists in the account. A non fungible asset can be aidropped only into an empty account".

Definition isNone {A} (o : option A) : bool :=
  match o with None => true | Some _ => false end.
Definition isSome {A} (o : option A) : bool :=
  match o with None => false | Some _ => true end.

(** nonconsuming choice Airdrop, controller asset_type.issuer *)
Definition Airdrop (self : ContractId) (amount_arg : Decimal)
  : Update ContractId :=
  exercise as_Account self
    (fun this => [issuer (account_asset_type this)]) false
    (fun this =>
       assertMsg msg_airdrop_not_accepted
         (airdroppable this
          || String.eqb (issuer (account_asset_type this))
                        (account_owner this)) ;;;
       assertMsg msg_airdrop_amount
         (fungible (account_asset_type this) || (amount_arg =? dec 1)) ;;;
       assetCid <- lookupByKey_Asset
                     (account_asset_type this, account_owner this) ;;
       assertMsg msg_airdrop_occupied
         (fungible (account_asset_type this) || isNone assetCid) ;;;
       previous_asset_amount <-
         (match assetCid with
          | Some cid =>
              a <- fetch_Asset cid ;;
              archive cid ;;;
              ret (amount a)
          | None => ret (dec 0)
          end) ;;
       new_amount <- decimal (amount_arg + previous_asset_amount) ;;
       create (CAsset (mkAsset (account_asset_type this)
                               (account_owner this)
                               new_amount))).

Definition msg_not_enough_funds : string :=
  "Cannot create AssetTransfer. Not enough funds in the account".

(** nonconsuming choice Create_Transfer, controller owner *)
Definition Create_Transfer (self : ContractId) (amount_arg : Decimal)
    (recipient_arg : Party) : Update ContractId :=
  exercise as_Account self (fun this => [account_owner this]) false
    (fun this =>
       assetCid <- lookupByKey_Asset
                     (account_asset_type this, account_owner this) ;;
       assertMsg msg_not_enough_funds (isSome assetCid) ;;;
       cid <- fromSome assetCid ;;
       a <- fetch_Asset cid ;;
       assertMsg msg_not_enough_funds (amount_arg <=? amount a) ;;;
       archive cid ;;;
       remainder <- decimal (amount a - amount_arg) ;;
       create (CAsset (mkAsset (asset_type a) (owner a) remainder)) ;;;
       create (CAssetTransfer (mkAssetTransfer a recipient_arg amount_arg))).

(** choice AssetHoldingAccountProposal_Accept, controller recipient *)
Definition AssetHoldingAccountProposal_Accept (self : ContractId)
  : Update ContractId :=
  exercise as_Proposal self (fun this => [proposal_recipient this]) true
    (fun this =>
       create (CAccount
                 (mkAssetHoldingAccount
                    (account_asset_type (account this))
                    (proposal_recipient this)
                    (airdroppable (account this))
                    (resharable (account this))))).

(** choice AssetHoldingAccountProposal_Reject, controller recipient *)
Definition AssetHoldingAccountProposal_Reject (self : ContractId)
  : Update unit :=
  exercise as_Proposal self (fun this => [proposal_recipient this]) true
    (fun _ => ret tt).

(** ** Commands

    What a party can submit: a create, a choice exercised on a contract
    id, or ([exerciseByKeyCmd]) on the contract a key names.  Besides
    the eight choices the two modules declare, every template carries the
    built-in consuming choice [Archive], whose controllers are the
    signatories; the source exercises it as [archive cid]. *)
Inductive Command :=
| CreateCmd (x : Contract)
| ExeCancel_Transfer (cid : ContractId)
| ExeReject_Transfer (cid : ContractId)
| ExeAccept_Transfer (cid : ContractId)
| ExeInvite_New_Asset_Holder (cid : ContractId) (recipient_arg : Party)
| ExeAirdrop (cid : ContractId) (amount_arg : Decimal)
| ExeCreate_Transfer (cid : ContractId) (amount_arg : Decimal)
    (recipient_arg : Party)
| ExeProposal_Accept (cid : ContractId)
| ExeProposal_Reject (cid : ContractId)
| ExeArchive (cid : ContractId)
| ExeByKey (k : Key) (choice : ContractId -> Command).

Fixpoint run_command (cmd : Command) : Update unit :=
  match cmd with
  | CreateCmd x => create x ;;; ret tt
  | ExeCancel_Transfer cid => Cancel_Transfer cid ;;; ret tt
  | ExeReject_Transfer cid => Reject_Transfer cid ;;; ret tt
  | ExeAccept_Transfer cid => Accept_Transfer cid ;;; ret tt
  | ExeInvite_New_Asset_Holder cid r => Invite_New_Asset_Holder cid r ;;; ret tt
  | ExeAirdrop cid a => Airdrop cid a ;;; ret tt
  | ExeCreate_Transfer cid a r => Create_Transfer cid a r ;;; ret tt
  | ExeProposal_Accept cid => AssetHoldingAccountProposal_Accept cid ;;; ret tt
  | ExeProposal_Reject cid => AssetHoldingAccountProposal_Reject cid
  | ExeArchive cid => archive cid
  | ExeByKey k choice => exerciseByKey k (fun cid => run_command (choice cid))
  end.

Definition then_submit (p : Party) (cmd : Command) (l : Ledger) : Ledger :=
  snd (submit p (run_command cmd) l).

(** Ledgers reachable from the empty one by submitted commands. *)
Inductive reachable : Ledger -> Prop :=
| reach_empty : reachable empty_ledger
| reach_submit l p cmd : reachable l -> reachable (then_submit p cmd l).

(** ** The script [test] of module Account, up to Alice's transfer to Bob *)

Definition alice : Party := "Alice".
Definition bob : Party := "Bob".
Definition chris : Party := "Chris".
Definition dianne : Party := "Dianne".

Definition alice_tkn : AssetType := mkAssetType alice "ALC" true None.
Definition chris_nft : AssetType :=
  mkAssetType chris "NFT" false (Some "http://google.com").

Definition alice_account : AssetHoldingAccount :=
  mkAssetHoldingAccount alice_tkn alice false true.

(** Alice's account 0; her 10.0 ALC, created directly; then an airdrop of
    5.0 more, which leaves Asset 2 with 15.0. *)
Definition ledger_after_mint : Ledger :=
  then_submit alice
    (ExeByKey (TAccount, (alice_tkn, alice)) (fun c => ExeAirdrop c (dec 5)))
    (then_submit alice (CreateCmd (CAsset (mkAsset alice_tkn alice (dec 10))))
       (then_submit alice (CreateCmd (CAccount alice_account)) empty_ledger)).

(** Alice invites Bob (proposal 3), who accepts (account 4). *)
Definition ledger_with_bob : Ledger :=
  then_submit bob (ExeProposal_Accept 3%nat)
    (then_submit alice
       (ExeByKey (TAccount, (alice_tkn, alice))
          (fun c => ExeInvite_New_Asset_Holder c bob))
       ledger_after_mint).

(** Alice has transferred 5.0 of her 15.0 ALC to Bob, who has not yet
    answered: Alice's Asset 5 with 10.0, the transfer 6. *)
Definition ledger_with_transfer : Ledger :=
  then_submit alice
    (ExeByKey (TAccount, (alice_tkn, alice))
       (fun c => ExeCreate_Transfer c (dec 5) bob))
    ledger_with_bob.

(** Scenario 1 of the specification: the issuer's account 0 and a first
    airdrop of 10.0 into it (Asset 1). *)
Definition ledger_airdrop_10 : Ledger :=
  then_submit alice (ExeAirdrop 0%nat (dec 10))
    (then_submit alice (CreateCmd (CAccount alice_account)) empty_ledger).

(** The non-fungible part of the script: Chris's NFT account 0, one NFT
    airdropped into it (Asset 1), Dianne invited (proposal 2) and enrolled
    (account 3), one NFT airdropped into her account (Asset 4). *)
Definition chris_account : AssetHoldingAccount :=
  mkAssetHoldingAccount chris_nft chris true true.

Definition ledger_nft : Ledger :=
  then_submit chris (ExeAirdrop 3%nat (dec 1))
    (then_submit dianne (ExeProposal_Accept 2%nat)
       (then_submit chris (ExeInvite_New_Asset_Holder 0%nat dianne)
          (then_submit chris (ExeAirdrop 0%nat (dec 1))
             (then_submit chris (CreateCmd (CAccount chris_account))
                empty_ledger)))).

(** Chris has transferred his NFT to Dianne, who holds one already: his
    Asset 5 with 0.0, the transfer 6. *)
Definition ledger_nft_transfer : Ledger :=
  then_submit chris (ExeCreate_Transfer 0%nat (dec 1) dianne) ledger_nft.

(** Alice has transferred 0.0 ALC to Bob, who holds none: her Asset 5 with
    15.0, the transfer 6. *)
Definition ledger_with_zero_transfer : Ledger :=
  then_submit alice (ExeCreate_Transfer 0%nat (dec 0) bob) ledger_with_bob.

(** Bob has accepted the 5.0 ALC (his Asset 7), and Alice has sent him
    3.0 more from her 10.0: her Asset 8 with 7.0, the transfer 9. *)
Definition ledger_second_transfer : Ledger :=
  then_submit alice (ExeCreate_Transfer 0%nat (dec 3) bob)
    (then_submit bob (ExeAccept_Transfer 6%nat) ledger_with_transfer).

(** ** Observations on a ledger *)

(** The active Asset contracts at key [k], in ledger order. *)
Definition is_asset_at (k : AssetType * Party) (x : Contract) : list Asset :=
  match x with
  | CAsset a => if has_key (TAsset, k) x then [a] else []
  | _ => []
  end.

Definition assets_in (k : AssetType * Party) (s : list (ContractId * Contract))
  : list Asset :=
  flat_map (fun cx => is_asset_at k (snd cx)) s.

Definition assets_at (k : AssetType * Party) (l : Ledger) : list Asset :=
  assets_in k (active l).

(** All active Asset contracts. *)
Definition all_assets (l : Ledger) : list (ContractId * Asset) :=
  flat_map (fun cx => match snd cx with
                      | CAsset a => [(fst cx, a)]
                      | _ => []
                      end) (active l).

(** The position held at a key: the amount of its Asset, 0.0 if none. *)
Definition position (k : AssetType * Party) (l : Ledger) : Decimal :=
  match assets_at k l with
  | a :: _ => amount a
  | [] => dec 0
  end.

(** The keys of the active contracts, in ledger order. *)
Fixpoint keys (s : list (ContractId * Contract)) : list Key :=
  match s with
  | [] => []
  | (_, x) :: s' =>
      match key x with
      | Some k => k :: keys s'
      | None => keys s'
      end
  end.

(** Well-formed ledgers: contract ids are unique and below the next one,
    and no two active contracts share a key. *)
Record wf (l : Ledger) : Prop := mk_wf {
  wf_cids : NoDup (map fst (active l));
  wf_fresh : forall c x, In (c, x) (active l) -> (c < next_cid l)%nat;
  wf_keys : NoDup (keys (active l))
}.

(** Every active contract satisfies its template's [ensure] clause. *)
Definition ensured (l : Ledger) : Prop :=
  forall c x, In (c, x) (active l) -> ensure x = true.

(** A Decimal the ledger can hold as the amount of an Asset of type [ty]. *)
Definition valid_amount (ty : AssetType) (x : Z) : bool :=
  in_decimal_range x && ensure_Asset (mkAsset ty "" x).

(** [n] successive rejections, each exercised by the recipient named in
    the transfer that is current at that point. *)
Fixpoint reject_rounds (n : nat) (self : ContractId) (l : Ledger)
  : Result ContractId * Ledger :=
  match n with
  | O => (Ok self, l)
  | S n' =>
      match lookup_cid self (active l) with
      | Some (CAssetTransfer t) =>
          match submit (recipient t) (Reject_Transfer self) l with
          | (Ok cid, l') => reject_rounds n' cid l'
          | (Fail e, l') => (Fail e, l')
          end
      | _ => (Fail ContractNotFound, l)
      end
  end.

(** The rejected transfer's successor. *)
Definition reversed (t : AssetTransfer) : AssetTransfer :=
  mkAssetTransfer (asset t) (owner (asset t)) (transfer_amount t).

(** The ledger a committed rejection of transfer [self] leaves. *)
Definition after_reject (l : Ledger) (self : ContractId) (t : AssetTransfer)
  : Ledger :=
  mkLedger (S (next_cid l))
    (remove_cid self (active l)
     ++ [(next_cid l, CAssetTransfer (reversed t))]).

(** The controller of Invite_New_Asset_Holder. *)
Definition inviter (acc : AssetHoldingAccount) : Party :=
  if resharable acc then account_owner acc
  else issuer (account_asset_type acc).

(** The active AssetTransfer with contract id [cid], if any. *)
Definition transfer_at (cid : ContractId) (l : Ledger) : option AssetTransfer :=
  match lookup_cid cid (active l) with
  | Some x => as_AssetTransfer x
  | None => None
  end.

(** The errors an update can raise all satisfy [P]. *)
Definition raises_only (P : Error -> Prop) {A} (u : Update A) : Prop :=
  forall auth l e, u auth l = Fail e -> P e.

(** The ledger invariant, and the updates that keep it when they commit. *)
Definition inv (l : Ledger) : Prop := wf l /\ ensured l.

Definition preserves {A} (u : Update A) : Prop :=
  forall auth l a l', inv l -> u auth l = Ok (a, l') -> inv l'.

(** The first step of the script: Alice's own account, contract 0. *)
Definition ledger_alice_account : Ledger :=
  then_submit alice (CreateCmd (CAccount alice_account)) empty_ledger.

(** The BOB part of the script: Bob's own airdroppable account 0, Dianne
    invited (proposal 1) and enrolled (account 2). *)
Definition bob_tkn : AssetType := mkAssetType bob "BOB" true None.

Definition bob_account : AssetHoldingAccount :=
  mkAssetHoldingAccount bob_tkn bob true true.

Definition ledger_bob_dianne : Ledger :=
  then_submit dianne (ExeProposal_Accept 1%nat)
    (then_submit bob
       (ExeByKey (TAccount, (bob_tkn, bob))
          (fun c => ExeInvite_New_Asset_Holder c dianne))
       (then_submit bob (CreateCmd (CAccount bob_account)) empty_ledger)).

(** A script: commands submitted one after the other. *)
Fixpoint run_script (script : list (Party * Command)) (l : Ledger) : Ledger :=
  match script with
  | [] => l
  | (p, cmd) :: rest => run_script rest (then_submit p cmd l)
  end.

(** The commands that exercise a choice on contract [c], and those among
    them whose choice is consuming. *)
Definition exercises_on (c : ContractId) (cmd : Command) : Prop :=
  cmd = ExeCancel_Transfer c \/ cmd = ExeReject_Transfer c
  \/ cmd = ExeAccept_Transfer c
  \/ (exists r, cmd = ExeInvite_New_Asset_Holder c r)
  \/ (exists a, cmd = ExeAirdrop c a)
  \/ (exists a r, cmd = ExeCreate_Transfer c a r)
  \/ cmd = ExeProposal_Accept c \/ cmd = ExeProposal_Reject c
  \/ cmd = ExeArchive c.

Definition consumes (c : ContractId) (cmd : Command) : Prop :=
  cmd = ExeCancel_Transfer c \/ cmd = ExeReject_Transfer c
  \/ cmd = ExeAccept_Transfer c
  \/ cmd = ExeProposal_Accept c \/ cmd = ExeProposal_Reject c
  \/ cmd = ExeArchive c.

(** An update that never makes an inactive contract id active again. *)
Definition never_revives {A} (u : Update A) : Prop :=
  forall auth l a l',
    u auth l = Ok (a, l') ->
    (next_cid l <= next_cid l')%nat
    /\ forall c, (c < next_cid l)%nat ->
         lookup_cid c (active l) = None -> lookup_cid c (active l') = None.

(** Every account active in [l] is still active, unchanged, in [l']. *)
Definition accounts_kept (l l' : Ledger) : Prop :=
  forall c acc,
    lookup_cid c (active l) = Some (CAccount acc) ->
    lookup_cid c (active l') = Some (CAccount acc).

(** Alice has transferred 5.0 ALC to Chris, who has no account for this
    asset type: the transfer is contract 6. *)
Definition ledger_transfer_to_chris : Ledger :=
  then_submit alice (ExeCreate_Transfer 0%nat (dec 5) chris) ledger_with_bob.

(** What a contract adds to the supply of asset type [ty]: the amount of
    an Asset, the amount in flight of an AssetTransfer. *)
Definition value_of (ty : AssetType) (x : Contract) : Z :=
  match x with
  | CAsset a => if AssetType_eqb (asset_type a) ty then amount a else 0
  | CAssetTransfer t =>
      if AssetType_eqb (asset_type (asset t)) ty then transfer_amount t else 0
  | _ => 0
  end.

Fixpoint supply_in (ty : AssetType) (s : list (ContractId * Contract)) : Z :=
  match s with
  | [] => 0
  | (_, x) :: s' => value_of ty x + supply_in ty s'
  end.

Definition supply (ty : AssetType) (l : Ledger) : Z := supply_in ty (active l).


(** The commands that are a create or an exercise of one of the eight
    declared choices: everything but the built-in Archive. *)
Fixpoint declared (cmd : Command) : Prop :=
  match cmd with
  | ExeArchive _ => False
  | CreateCmd _
  | ExeCancel_Transfer _ | ExeReject_Transfer _ | ExeAccept_Transfer _
  | ExeInvite_New_Asset_Holder _ _ | ExeAirdrop _ _
  | ExeCreate_Transfer _ _ _
  | ExeProposal_Accept _ | ExeProposal_Reject _ => True
  | ExeByKey _ choice => forall cid, declared (choice cid)
  end.

(** * Properties *)

(** ** Equality tests *)

Lemma option_Text_eqb_eq x y : option_Text_eqb x y = true <-> x = y.
Proof.
  destruct x as [a|], y as [b|]; simpl; try (split; congruence).
  rewrite String.eqb_eq. split; congruence.
Qed.

Lemma AssetType_eqb_eq x y : AssetType_eqb x y = true <-> x = y.
Proof.
  unfold AssetType_eqb. rewrite !andb_true_iff, !String.eqb_eq,
    Bool.eqb_true_iff, option_Text_eqb_eq.
  destruct x, y; simpl. split.
  - intros [[[-> ->] ->] ->]. reflexivity.
  - intros H. injection H as -> -> -> ->. auto.
Qed.

Lemma Key_eqb_eq x y : Key_eqb x y = true <-> x = y.
Proof.
  unfold Key_eqb. rewrite !andb_true_iff, AssetType_eqb_eq, String.eqb_eq.
  destruct x as [tx [ax px]], y as [ty [ay py]]; simpl. split.
  - intros [[Ht ->] ->]. destruct tx, ty; simpl in Ht; congruence.
  - intros H. injection H as -> -> ->. destruct ty; auto.
Qed.

Lemma Key_eqb_refl k : Key_eqb k k = true.
Proof. apply Key_eqb_eq. reflexivity. Qed.

Lemma Key_eqb_neq x y : x <> y -> Key_eqb x y = false.
Proof.
  intros H. destruct (Key_eqb x y) eqn:E; [|reflexivity].
  apply Key_eqb_eq in E. contradiction.
Qed.

Lemma has_key_iff k x : has_key k x = true <-> key x = Some k.
Proof.
  unfold has_key. destruct (key x) as [k'|].
  - rewrite Key_eqb_eq. split; congruence.
  - split; congruence.
Qed.

(** ** The contract store *)

Section Store.
Implicit Types (s t : list (ContractId * Contract)) (c : ContractId)
  (x : Contract) (k : Key).

Lemma lookup_cid_In c x s : lookup_cid c s = Some x -> In (c, x) s.
Proof.
  induction s as [|[c0 x0] s IH]; simpl; [discriminate|].
  destruct (Nat.eqb_spec c0 c) as [->|Hne].
  - intros [= ->]. now left.
  - intros H. right. exact (IH H).
Qed.

Lemma lookup_cid_notin c s : ~ In c (map fst s) -> lookup_cid c s = None.
Proof.
  induction s as [|[c0 x0] s IH]; simpl; [reflexivity|].
  intros H. destruct (Nat.eqb_spec c0 c) as [->|Hne].
  - exfalso. apply H. now left.
  - apply IH. intros Hin. apply H. now right.
Qed.

Lemma In_lookup_cid c x s :
  NoDup (map fst s) -> In (c, x) s -> lookup_cid c s = Some x.
Proof.
  induction s as [|[c0 x0] s IH]; simpl; [contradiction|].
  intros Hnd [Heq|Hin].
  - injection Heq as -> ->. now rewrite Nat.eqb_refl.
  - inversion Hnd as [|? ? Hnotin Hnd']; subst.
    destruct (Nat.eqb_spec c0 c) as [->|Hne].
    + exfalso. apply Hnotin. apply (in_map fst) in Hin. exact Hin.
    + exact (IH Hnd' Hin).
Qed.

Lemma In_keys k s :
  In k (keys s) <-> exists c x, In (c, x) s /\ key x = Some k.
Proof.
  induction s as [|[c0 x0] s IH]; simpl.
  - split; [contradiction | intros (? & ? & [] & _)].
  - destruct (key x0) as [k0|] eqn:E; simpl; rewrite IH; split.
    + intros [->|(c & x & Hin & Hk)].
      * exists c0, x0. split; [now left | exact E].
      * exists c, x. split; [now right | exact Hk].
    + intros (c & x & [Heq|Hin] & Hk).
      * injection Heq as -> ->. left. congruence.
      * right. exists c, x. split; assumption.
    + intros (c & x & Hin & Hk). exists c, x. split; [now right | exact Hk].
    + intros (c & x & [Heq|Hin] & Hk).
      * injection Heq as -> ->. congruence.
      * exists c, x. split; assumption.
Qed.

Lemma lookup_key_In k c s :
  lookup_key k s = Some c -> exists x, In (c, x) s /\ key x = Some k.
Proof.
  induction s as [|[c0 x0] s IH]; simpl; [discriminate|].
  destruct (has_key k x0) eqn:E.
  - intros [= ->]. exists x0. split; [now left | now apply has_key_iff].
  - intros H. destruct (IH H) as (x & Hin & Hk).
    exists x. split; [now right | exact Hk].
Qed.

Lemma lookup_key_None k s : lookup_key k s = None <-> ~ In k (keys s).
Proof.
  induction s as [|[c0 x0] s IH]; simpl; [tauto|].
  unfold has_key. destruct (key x0) as [k0|]; [|exact IH].
  destruct (Key_eqb k0 k) eqn:E.
  - apply Key_eqb_eq in E. subst. simpl. split; [discriminate | tauto].
  - simpl. rewrite IH. split.
    + intros H [Heq|Hin]; [|tauto].
      subst. rewrite Key_eqb_refl in E. discriminate.
    + tauto.
Qed.

Lemma lookup_key_fetch k c s :
  NoDup (map fst s) -> lookup_key k s = Some c ->
  exists x, lookup_cid c s = Some x /\ key x = Some k.
Proof.
  intros Hnd H. destruct (lookup_key_In _ _ _ H) as (x & Hin & Hk).
  exists x. split; [now apply In_lookup_cid | exact Hk].
Qed.

Lemma In_remove_cid c c' x s :
  In (c', x) (remove_cid c s) <-> In (c', x) s /\ c' <> c.
Proof.
  induction s as [|[c0 x0] s IH]; simpl; [tauto|].
  destruct (Nat.eqb_spec c0 c) as [->|Hne]; simpl; rewrite IH.
  - split; [tauto|]. intros [[Heq|Hin] Hc]; [|tauto].
    injection Heq as -> ->. contradiction.
  - split; [|tauto]. intros [Heq|[Hin Hc]]; [|tauto].
    injection Heq as -> ->. split; [now left | exact Hne].
Qed.

Lemma remove_cid_notin c s : ~ In c (map fst s) -> remove_cid c s = s.
Proof.
  induction s as [|[c0 x0] s IH]; simpl; [reflexivity|].
  intros H. destruct (Nat.eqb_spec c0 c) as [->|Hne].
  - exfalso. apply H. now left.
  - f_equal. apply IH. intros Hin. apply H. now right.
Qed.

Lemma cids_remove_cid c c' s :
  In c' (map fst (remove_cid c s)) -> In c' (map fst s).
Proof.
  rewrite !in_map_iff. intros ([c1 x] & <- & Hin).
  apply In_remove_cid in Hin. exists (c1, x). tauto.
Qed.

Lemma NoDup_cids_remove c s :
  NoDup (map fst s) -> NoDup (map fst (remove_cid c s)).
Proof.
  induction s as [|[c0 x0] s IH]; simpl; [auto|].
  intros Hnd. inversion Hnd as [|? ? Hnotin Hnd']; subst.
  destruct (Nat.eqb c0 c); [auto|]. simpl. constructor; [|auto].
  intros Hin. apply Hnotin. exact (cids_remove_cid _ _ _ Hin).
Qed.

Lemma keys_remove_cid k c s : In k (keys (remove_cid c s)) -> In k (keys s).
Proof.
  rewrite !In_keys. intros (c' & x & Hin & Hk).
  apply In_remove_cid in Hin. exists c', x. tauto.
Qed.

Lemma NoDup_keys_remove c s : NoDup (keys s) -> NoDup (keys (remove_cid c s)).
Proof.
  induction s as [|[c0 x0] s IH]; simpl; [auto|].
  destruct (Nat.eqb c0 c); simpl; destruct (key x0) as [k0|]; auto;
    intros Hnd; inversion Hnd as [|? ? Hnotin Hnd']; subst; auto.
  constructor; [|auto].
  intros Hin. apply Hnotin. exact (keys_remove_cid _ _ _ Hin).
Qed.

Lemma lookup_key_remove_None k c s :
  lookup_key k s = None -> lookup_key k (remove_cid c s) = None.
Proof.
  rewrite !lookup_key_None. intros H Hin. apply H.
  exact (keys_remove_cid _ _ _ Hin).
Qed.

Lemma lookup_key_remove k c s :
  NoDup (keys s) -> lookup_key k s = Some c ->
  lookup_key k (remove_cid c s) = None.
Proof.
  induction s as [|[c0 x0] s IH]; simpl; [discriminate|].
  intros Hnd. destruct (has_key k x0) eqn:E.
  - intros [= ->]. rewrite Nat.eqb_refl.
    apply has_key_iff in E. rewrite E in Hnd.
    inversion Hnd as [|? ? Hnotin _]; subst.
    apply lookup_key_remove_None. now apply lookup_key_None.
  - intros H.
    assert (Hnd' : NoDup (keys s)).
    { destruct (key x0); [now inversion Hnd | exact Hnd]. }
    destruct (Nat.eqb c0 c); simpl; [|rewrite E]; exact (IH Hnd' H).
Qed.

Lemma lookup_cid_remove_same c s : lookup_cid c (remove_cid c s) = None.
Proof.
  induction s as [|[c0 x0] s IH]; simpl; [reflexivity|].
  destruct (Nat.eqb c0 c) eqn:E; [exact IH|]. simpl. now rewrite E.
Qed.

Lemma lookup_cid_remove_other c c' s :
  c' <> c -> lookup_cid c' (remove_cid c s) = lookup_cid c' s.
Proof.
  intros Hne. induction s as [|[c0 x0] s IH]; simpl; [reflexivity|].
  destruct (Nat.eqb_spec c0 c) as [->|Hc]; simpl.
  - destruct (Nat.eqb_spec c c'); [congruence | exact IH].
  - now rewrite IH.
Qed.

Lemma lookup_key_remove_other k c x s :
  NoDup (map fst s) -> lookup_cid c s = Some x -> key x <> Some k ->
  lookup_key k (remove_cid c s) = lookup_key k s.
Proof.
  induction s as [|[c0 x0] s IH]; simpl; [reflexivity|].
  intros Hnd. inversion Hnd as [|? ? Hnotin Hnd']; subst.
  destruct (Nat.eqb_spec c0 c) as [->|Hc]; simpl.
  - intros [= ->] Hk.
    replace (has_key k x) with false.
    + now rewrite remove_cid_notin.
    + symmetry. destruct (has_key k x) eqn:E; [|reflexivity].
      apply has_key_iff in E. contradiction.
  - intros H Hk. destruct (has_key k x0); [reflexivity | exact (IH Hnd' H Hk)].
Qed.

Lemma lookup_cid_app c s t :
  lookup_cid c (s ++ t) =
  match lookup_cid c s with Some x => Some x | None => lookup_cid c t end.
Proof.
  induction s as [|[c0 x0] s IH]; simpl; [reflexivity|].
  destruct (Nat.eqb c0 c); [reflexivity | exact IH].
Qed.

Lemma remove_cid_app c s t :
  remove_cid c (s ++ t) = remove_cid c s ++ remove_cid c t.
Proof.
  induction s as [|[c0 x0] s IH]; simpl; [reflexivity|].
  destruct (Nat.eqb c0 c); [exact IH | simpl; now rewrite IH].
Qed.

Lemma keys_app s t : keys (s ++ t) = keys s ++ keys t.
Proof.
  induction s as [|[c0 x0] s IH]; simpl; [reflexivity|].
  destruct (key x0); simpl; now rewrite IH.
Qed.
End Store.

(** ** Well-formedness is kept by archive and create *)

Lemma NoDup_snoc {A} (a : A) (s : list A) :
  NoDup s -> ~ In a s -> NoDup (s ++ [a]).
Proof.
  induction s as [|b s IH]; simpl; intros Hnd Hnotin.
  - constructor; [tauto | constructor].
  - inversion Hnd as [|? ? Hb Hnd']; subst. constructor.
    + intros Hin. apply in_app_or in Hin. destruct Hin as [Hin|[Heq|[]]].
      * contradiction.
      * subst. apply Hnotin. now left.
    + apply IH; [exact Hnd' | tauto].
Qed.

Lemma wf_fresh_cid l : wf l -> ~ In (next_cid l) (map fst (active l)).
Proof.
  intros [_ Hfresh _] Hin. apply in_map_iff in Hin.
  destruct Hin as ([c x] & Hc & Hin). simpl in Hc. subst.
  specialize (Hfresh _ _ Hin). lia.
Qed.

Lemma wf_remove l c :
  wf l -> wf (mkLedger (next_cid l) (remove_cid c (active l))).
Proof.
  intros [Hc Hf Hk]. constructor; simpl.
  - now apply NoDup_cids_remove.
  - intros c' x Hin. apply In_remove_cid in Hin. apply (Hf c' x). tauto.
  - now apply NoDup_keys_remove.
Qed.

Lemma wf_append l x :
  wf l ->
  match key x with
  | Some k => lookup_key k (active l) = None
  | None => True
  end ->
  wf (mkLedger (S (next_cid l)) (active l ++ [(next_cid l, x)])).
Proof.
  intros Hwf Hkey. pose proof (wf_fresh_cid l Hwf) as Hnew.
  destruct Hwf as [Hc Hf Hk]. constructor; simpl.
  - rewrite map_app. simpl. now apply NoDup_snoc.
  - intros c y Hin. apply in_app_or in Hin. destruct Hin as [Hin|[Heq|[]]].
    + specialize (Hf _ _ Hin). lia.
    + injection Heq as <- <-. lia.
  - rewrite keys_app. simpl. destruct (key x) as [k|].
    + apply NoDup_snoc; [exact Hk | now apply lookup_key_None].
    + now rewrite app_nil_r.
Qed.

Lemma remove_cid_split c x s :
  NoDup (map fst s) -> lookup_cid c s = Some x ->
  exists s1 s2, s = s1 ++ (c, x) :: s2 /\ remove_cid c s = s1 ++ s2.
Proof.
  induction s as [|[c0 x0] s IH]; simpl; [discriminate|].
  intros Hnd. inversion Hnd as [|? ? Hnotin Hnd']; subst.
  destruct (Nat.eqb_spec c0 c) as [->|Hne].
  - intros [= ->]. exists [], s. split; [reflexivity|].
    now rewrite remove_cid_notin.
  - intros H. destruct (IH Hnd' H) as (s1 & s2 & -> & Hr).
    exists ((c0, x0) :: s1), s2. split; [reflexivity|].
    simpl. now rewrite Hr.
Qed.

(** ** Tactics for running a choice *)

(** Rewrites [subset ps qs] to [true] for explicit lists of parties in
    which every member of [ps] occurs syntactically in [qs]. *)
Ltac authority :=
  unfold subset, elem; simpl forallb; simpl existsb;
  repeat (rewrite ?String.eqb_refl, ?orb_true_r, ?orb_true_l; simpl andb;
          simpl orb).

(** ** Invite_New_Asset_Holder *)

(** C9: on an active account, the invitation submitted by the choice's
    controller (the owner when resharable, otherwise the issuer) commits
    and adds exactly one AssetHoldingAccountProposal for the recipient,
    whatever else the ledger holds; any other party lacks the authority. *)
Theorem Invite_New_Asset_Holder_always_creates :
  forall l self acc r,
    lookup_cid self (active l) = Some (CAccount acc) ->
    submit (inviter acc) (Invite_New_Asset_Holder self r) l
    = (Ok (next_cid l),
       mkLedger (S (next_cid l))
         (active l ++
          [(next_cid l, CProposal (mkAssetHoldingAccountProposal acc r))]))
    /\ forall p, p <> inviter acc ->
         submit p (Invite_New_Asset_Holder self r) l
         = (Fail AuthorizationFailed, l).
Proof.
  intros l self acc r Hself. split.
  - unfold submit, Invite_New_Asset_Holder, exercise.
    rewrite Hself. simpl as_Account. cbv iota beta. fold (inviter acc).
    unfold create. simpl ensure. simpl key. simpl signatory.
    authority. reflexivity.
  - intros p Hp. unfold submit, Invite_New_Asset_Holder, exercise.
    rewrite Hself. simpl as_Account. cbv iota beta.
    fold (inviter acc). unfold subset, elem. simpl forallb. simpl existsb.
    apply String.eqb_neq in Hp. rewrite String.eqb_sym in Hp.
    rewrite Hp. reflexivity.
Qed.

Lemma Invite_New_Asset_Holder_always_creates_witness :
  lookup_key (TAccount, (alice_tkn, bob)) (active ledger_with_bob) = Some 4%nat
  /\ submit alice (Invite_New_Asset_Holder 0%nat bob) ledger_with_bob
     = (Ok 5%nat,
        mkLedger 6%nat
          (active ledger_with_bob ++
           [(5%nat,
             CProposal
               (mkAssetHoldingAccountProposal
                  (mkAssetHoldingAccount alice_tkn alice false true) bob))])).
Proof.
  split; [reflexivity|].
  exact (proj1 (Invite_New_Asset_Holder_always_creates
                  ledger_with_bob 0%nat
                  (mkAssetHoldingAccount alice_tkn alice false true) bob
                  eq_refl)).
Defined.

(** ** Reject_Transfer *)

Lemma Reject_Transfer_run l self t :
  lookup_cid self (active l) = Some (CAssetTransfer t) ->
  submit (recipient t) (Reject_Transfer self) l
  = (Ok (next_cid l),
     mkLedger (S (next_cid l))
       (remove_cid self (active l)
        ++ [(next_cid l, CAssetTransfer (reversed t))])).
Proof.
  intros Hself. unfold submit, Reject_Transfer, exercise.
  rewrite Hself. simpl as_AssetTransfer. cbv iota beta.
  unfold create. simpl ensure. simpl key. simpl signatory.
  unfold signatory_Asset. authority. reflexivity.
Qed.

Lemma Reject_Transfer_inv self auth l r l' :
  Reject_Transfer self auth l = Ok (r, l') ->
  exists t,
    lookup_cid self (active l) = Some (CAssetTransfer t)
    /\ r = next_cid l
    /\ l' = mkLedger (S (next_cid l))
              (remove_cid self (active l)
               ++ [(next_cid l, CAssetTransfer (reversed t))]).
Proof.
  unfold Reject_Transfer, exercise.
  destruct (lookup_cid self (active l)) as [x|]; [|discriminate].
  destruct x as [a|t|acc|p]; simpl as_AssetTransfer; cbv iota beta;
    try discriminate.
  destruct (subset [recipient t] auth); [|discriminate].
  unfold create. simpl ensure. simpl key. cbv iota beta. simpl negb.
  cbv iota. destruct (negb _); [discriminate|].
  simpl. intros [= <- <-]. exists t. auto.
Qed.

(** C5: on a well-formed ledger a submitted Reject_Transfer leaves the
    set of Asset contracts exactly as it was, whoever submits it and
    whether or not it commits; submitted by the transfer's recipient it
    commits, and its whole effect is to take the rejected AssetTransfer out
    of the active contracts and to add one new AssetTransfer. *)
Theorem Reject_Transfer_creates_no_Asset :
  forall l self,
    wf l ->
    (forall p,
       all_assets (snd (submit p (Reject_Transfer self) l)) = all_assets l)
    /\ (forall t,
          lookup_cid self (active l) = Some (CAssetTransfer t) ->
          exists s1 s2,
            active l = s1 ++ (self, CAssetTransfer t) :: s2
            /\ submit (recipient t) (Reject_Transfer self) l
               = (Ok (next_cid l),
                  mkLedger (S (next_cid l))
                    (s1 ++ s2
                     ++ [(next_cid l, CAssetTransfer (reversed t))]))).
Proof.
  intros l self Hwf. split.
  - intros p. unfold submit.
    destruct (Reject_Transfer self [p] l) as [[r l']|e] eqn:E;
      [|reflexivity].
    apply Reject_Transfer_inv in E. destruct E as (t & Hself & _ & ->).
    simpl snd.
    destruct (remove_cid_split _ _ _ (wf_cids _ Hwf) Hself)
      as (s1 & s2 & Hs & Hr).
    rewrite Hr. unfold all_assets at 2. rewrite Hs. simpl active.
    unfold all_assets. simpl active.
    rewrite !flat_map_app. simpl. now rewrite app_nil_r.
  - intros t Hself.
    destruct (remove_cid_split _ _ _ (wf_cids _ Hwf) Hself)
      as (s1 & s2 & Hs & Hr).
    exists s1, s2. split; [exact Hs|].
    rewrite (Reject_Transfer_run _ _ _ Hself), Hr, <- app_assoc.
    reflexivity.
Qed.

(** Concrete ledgers are well formed by inspection. *)
Ltac wf_by_computation :=
  constructor; cbv;
  [ repeat constructor; cbv; intuition discriminate
  | intros c x H;
    repeat (destruct H as [H|H]; [injection H as <- <-; lia|]);
    contradiction
  | repeat constructor; cbv; intuition discriminate ].

Lemma wf_ledger_with_transfer : wf ledger_with_transfer.
Proof. wf_by_computation. Qed.

Lemma wf_ledger_with_bob : wf ledger_with_bob.
Proof. wf_by_computation. Qed.

Lemma Reject_Transfer_creates_no_Asset_witness :
  all_assets (snd (submit bob (Reject_Transfer 6%nat) ledger_with_transfer))
  = [(5%nat, mkAsset alice_tkn alice (dec 10))].
Proof.
  rewrite (proj1 (Reject_Transfer_creates_no_Asset
                    ledger_with_transfer 6%nat wf_ledger_with_transfer) bob).
  reflexivity.
Defined.

Lemma reject_step l self t :
  wf l ->
  lookup_cid self (active l) = Some (CAssetTransfer t) ->
  wf (after_reject l self t)
  /\ lookup_cid (next_cid l) (active (after_reject l self t))
     = Some (CAssetTransfer (reversed t))
  /\ all_assets (after_reject l self t) = all_assets l
  /\ (forall c, (c < next_cid l)%nat ->
        c = self \/ lookup_cid c (active l) = None ->
        lookup_cid c (active (after_reject l self t)) = None).
Proof.
  intros Hwf Hself. pose proof (wf_fresh_cid _ Hwf) as Hnew.
  unfold after_reject. split; [|split; [|split]].
  - apply (wf_append (mkLedger (next_cid l) (remove_cid self (active l)))).
    + now apply wf_remove.
    + exact I.
  - simpl active. rewrite lookup_cid_app, lookup_cid_notin.
    + simpl. now rewrite Nat.eqb_refl.
    + intros Hin. apply Hnew. exact (cids_remove_cid _ _ _ Hin).
  - destruct (remove_cid_split _ _ _ (wf_cids _ Hwf) Hself)
      as (s1 & s2 & Hs & Hr).
    unfold all_assets. simpl active. rewrite Hr, Hs.
    rewrite !flat_map_app. simpl. now rewrite app_nil_r.
  - intros c Hc Hor. simpl active. rewrite lookup_cid_app.
    assert (Hrem : lookup_cid c (remove_cid self (active l)) = None).
    { destruct (Nat.eq_dec c self) as [->|Hne].
      - apply lookup_cid_remove_same.
      - rewrite lookup_cid_remove_other by exact Hne.
        destruct Hor; [contradiction | assumption]. }
    rewrite Hrem. simpl.
    destruct (Nat.eqb_spec (next_cid l) c); [lia | reflexivity].
Qed.

Lemma reject_rounds_S n self l t :
  lookup_cid self (active l) = Some (CAssetTransfer t) ->
  reject_rounds (S n) self l
  = reject_rounds n (next_cid l) (after_reject l self t).
Proof.
  intros Hself. simpl reject_rounds.
  now rewrite Hself, (Reject_Transfer_run _ _ _ Hself).
Qed.

(** C4 (as the code has it): on a well-formed ledger, any number [n+1] of
    successive rejections of an active AssetTransfer [t], each submitted by
    the recipient current at that point, commits; every round archives the
    transfer it rejects, and what is left is the starting ledger without
    the original transfer plus one new AssetTransfer with the asset snapshot
    and the amount of [t], whose recipient is [asset.owner] after the first
    rejection and after every later one. *)
Theorem reject_rounds_return_to_owner :
  forall n l self t,
    wf l ->
    lookup_cid self (active l) = Some (CAssetTransfer t) ->
    reject_rounds (S n) self l
    = (Ok (next_cid l + n)%nat,
       mkLedger (next_cid l + S n)%nat
         (remove_cid self (active l)
          ++ [((next_cid l + n)%nat,
               CAssetTransfer
                 (mkAssetTransfer (asset t) (owner (asset t))
                    (transfer_amount t)))])).
Proof.
  induction n as [|n IH]; intros l self t Hwf Hself;
    destruct (reject_step l self t Hwf Hself) as (Hwf1 & Hcid1 & _ & _);
    rewrite (reject_rounds_S _ _ _ _ Hself).
  - simpl reject_rounds. unfold after_reject, reversed.
    now rewrite Nat.add_0_r, Nat.add_1_r.
  - rewrite (IH _ _ _ Hwf1 Hcid1). unfold after_reject. simpl next_cid.
    simpl active. rewrite remove_cid_app.
    replace (remove_cid (next_cid l)
               [(next_cid l, CAssetTransfer (reversed t))])
      with (@nil (ContractId * Contract))
      by (simpl; now rewrite Nat.eqb_refl).
    rewrite app_nil_r, (remove_cid_notin (next_cid l)).
    + unfold reversed. simpl asset. simpl transfer_amount.
      now rewrite <- !plus_n_Sm.
    + intros Hin. apply (wf_fresh_cid _ Hwf).
      exact (cids_remove_cid _ _ _ Hin).
Qed.

Lemma reject_rounds_return_to_owner_witness :
  reject_rounds 3 6%nat ledger_with_transfer
  = (Ok 9%nat,
     mkLedger 10%nat
       (remove_cid 6%nat (active ledger_with_transfer)
        ++ [(9%nat,
             CAssetTransfer
               (mkAssetTransfer (mkAsset alice_tkn alice (dec 15)) alice
                  (dec 5)))])).
Proof.
  exact (reject_rounds_return_to_owner 2 ledger_with_transfer 6%nat
           (mkAssetTransfer (mkAsset alice_tkn alice (dec 15)) bob (dec 5))
           wf_ledger_with_transfer eq_refl).
Defined.

(** C4 as stated fails: Alice's transfer to Bob, rejected by Bob and then
    rejected again by the then recipient Alice, names Alice as recipient
    once more; the claim has Bob. *)
Lemma reject_rounds_do_not_alternate :
  transfer_at 6%nat ledger_with_transfer
  = Some (mkAssetTransfer (mkAsset alice_tkn alice (dec 15)) bob (dec 5))
  /\ fst (reject_rounds 1 6%nat ledger_with_transfer) = Ok 7%nat
  /\ option_map recipient
       (transfer_at 7%nat (snd (reject_rounds 1 6%nat ledger_with_transfer)))
     = Some alice
  /\ fst (reject_rounds 2 6%nat ledger_with_transfer) = Ok 8%nat
  /\ option_map recipient
       (transfer_at 8%nat (snd (reject_rounds 2 6%nat ledger_with_transfer)))
     = Some alice
  /\ option_map recipient
       (transfer_at 8%nat (snd (reject_rounds 2 6%nat ledger_with_transfer)))
     <> Some bob.
Proof.
  repeat split; try (vm_compute; reflexivity).
  vm_compute. discriminate.
Qed.

(** ** Which errors an update can raise *)

Section Raises.
Variable P : Error -> Prop.

Lemma raises_ret {A} (a : A) : raises_only P (ret a).
Proof. intros auth l e. discriminate. Qed.

Lemma raises_fail {A} e : P e -> raises_only P (@fail A e).
Proof. intros H auth l e' [= <-]. exact H. Qed.

Lemma raises_bind {A B} (m : Update A) (k : A -> Update B) :
  raises_only P m -> (forall a, raises_only P (k a)) -> raises_only P (bind m k).
Proof.
  intros Hm Hk auth l e. unfold bind.
  destruct (m auth l) as [[a l']|e'] eqn:E.
  - apply Hk.
  - intros [= <-]. exact (Hm _ _ _ E).
Qed.

Lemma raises_assertMsg msg b :
  (b = false -> P (AssertionFailed msg)) -> raises_only P (assertMsg msg b).
Proof.
  intros H. unfold assertMsg. destruct b.
  - apply raises_ret.
  - apply raises_fail. now apply H.
Qed.

Hypothesis P_precondition : P PreconditionFailed.
Hypothesis P_duplicate : P DuplicateKey.
Hypothesis P_not_found : P ContractNotFound.
Hypothesis P_wrong_type : P WronglyTypedContract.
Hypothesis P_authorization : P AuthorizationFailed.
Hypothesis P_arithmetic : P ArithmeticError.

Lemma raises_decimal x : raises_only P (decimal x).
Proof.
  unfold decimal. destruct (in_decimal_range x);
    [apply raises_ret | now apply raises_fail].
Qed.

Lemma raises_create x : raises_only P (create x).
Proof.
  intros auth l e. unfold create.
  destruct (negb (ensure x)); [now intros [= <-]|].
  destruct (negb (subset (signatory x) auth)); [now intros [= <-]|].
  destruct (key x) as [k|]; [|discriminate].
  destruct (lookup_key k (active l)); [now intros [= <-] | discriminate].
Qed.

Lemma raises_lookupByKey k : raises_only P (lookupByKey k).
Proof.
  intros auth l e. unfold lookupByKey.
  destruct (subset (maintainer k) auth); [discriminate | now intros [= <-]].
Qed.

Lemma raises_fetch cid : raises_only P (fetch cid).
Proof.
  intros auth l e. unfold fetch.
  destruct (lookup_cid cid (active l)) as [x|]; [|now intros [= <-]].
  destruct (existsb _ _); [discriminate | now intros [= <-]].
Qed.

Lemma raises_fetch_Asset cid : raises_only P (fetch_Asset cid).
Proof.
  unfold fetch_Asset. apply raises_bind; [apply raises_fetch|].
  intros x. destruct (as_Asset x);
    [apply raises_ret | now apply raises_fail].
Qed.

Lemma raises_archive cid : raises_only P (archive cid).
Proof.
  intros auth l e. unfold archive.
  destruct (lookup_cid cid (active l)) as [x|]; [|now intros [= <-]].
  destruct (subset _ _); [discriminate | now intros [= <-]].
Qed.
End Raises.

(** ** Airdrop *)

(** C7: submitted by the issuer on an active account, Airdrop fails with
    the assertion that the target account does not accept airdrops exactly
    when the account is not airdroppable and the issuer is not its owner; a
    self-mint therefore never fails this way; and after this failure the
    ledger is the one before the command. *)
Theorem Airdrop_not_accepted_iff :
  forall l self acc a,
    lookup_cid self (active l) = Some (CAccount acc) ->
    (fst (submit (issuer (account_asset_type acc)) (Airdrop self a) l)
     = Fail (AssertionFailed msg_airdrop_not_accepted)
     <-> airdroppable acc = false
         /\ issuer (account_asset_type acc) <> account_owner acc)
    /\ (fst (submit (issuer (account_asset_type acc)) (Airdrop self a) l)
        = Fail (AssertionFailed msg_airdrop_not_accepted) ->
        snd (submit (issuer (account_asset_type acc)) (Airdrop self a) l) = l).
Proof.
  intros l self acc a Hself. split.
  - unfold submit, Airdrop, exercise.
    rewrite Hself. simpl as_Account. cbv iota beta. authority.
    unfold bind at 1. unfold assertMsg at 1.
    assert (Hrest :
      forall (u : Update ContractId) auth l0,
        raises_only
          (fun e => e <> AssertionFailed msg_airdrop_not_accepted) u ->
        fst (match u auth l0 with
             | Ok (r, l') => (Ok r, l')
             | Fail e => (Fail e, l)
             end) <> Fail (AssertionFailed msg_airdrop_not_accepted)).
    { intros u auth l0 Hu. destruct (u auth l0) as [[r l']|e] eqn:E; simpl.
      - discriminate.
      - intros [= ->]. exact (Hu _ _ _ E eq_refl). }
    assert (Hbody :
      forall acc0 : AssetHoldingAccount,
        raises_only
          (fun e => e <> AssertionFailed msg_airdrop_not_accepted)
          (assertMsg msg_airdrop_amount
             (fungible (account_asset_type acc0) || (a =? dec 1)) ;;;
           assetCid <- lookupByKey_Asset
                         (account_asset_type acc0, account_owner acc0) ;;
           assertMsg msg_airdrop_occupied
             (fungible (account_asset_type acc0) || isNone assetCid) ;;;
           previous_asset_amount <-
             (match assetCid with
              | Some cid =>
                  a0 <- fetch_Asset cid ;;
                  archive cid ;;;
                  ret (amount a0)
              | None => ret (dec 0)
              end) ;;
           new_amount <- decimal (a + previous_asset_amount) ;;
           create (CAsset (mkAsset (account_asset_type acc0)
                                   (account_owner acc0)
                                   new_amount)))).
    { intros acc0.
      repeat first
        [ apply raises_create
        | apply raises_decimal
        | apply raises_lookupByKey
        | apply raises_fetch_Asset
        | apply raises_archive
        | apply raises_ret
        | apply raises_assertMsg; intros _
        | apply raises_bind; [|intros ?]
        | match goal with
          | |- raises_only _ (match ?o with _ => _ end) => destruct o
          end
        | discriminate
        | (intros [= H]; revert H; vm_compute; discriminate) ]. }
    destruct (airdroppable acc) eqn:Hair; simpl orb.
    + split; [|intros [? _]; discriminate].
      intros H. exfalso. revert H. apply Hrest, Hbody.
    + destruct (String.eqb_spec (issuer (account_asset_type acc))
                  (account_owner acc)) as [Heq|Hne].
      * split; [|intros [_ ?]; contradiction].
        intros H. exfalso. revert H. apply Hrest, Hbody.
      * simpl. split; auto.
  - unfold submit.
    destruct (Airdrop self a [issuer (account_asset_type acc)] l)
      as [[r l']|e]; simpl; [discriminate | reflexivity].
Qed.

Lemma Airdrop_not_accepted_iff_witness :
  fst (submit alice (Airdrop 4%nat (dec 5)) ledger_with_bob)
  = Fail (AssertionFailed msg_airdrop_not_accepted)
  /\ snd (submit alice (Airdrop 4%nat (dec 5)) ledger_with_bob)
     = ledger_with_bob.
Proof.
  destruct (Airdrop_not_accepted_iff ledger_with_bob 4%nat
              (mkAssetHoldingAccount alice_tkn bob false true) (dec 5)
              eq_refl) as [Hiff Hframe].
  assert (H : fst (submit alice (Airdrop 4%nat (dec 5)) ledger_with_bob)
              = Fail (AssertionFailed msg_airdrop_not_accepted)).
  { apply Hiff. split; [reflexivity | discriminate]. }
  split; [exact H | exact (Hframe H)].
Defined.

(** ** Running the primitives: what a committed step tells *)

Lemma bind_Ok {A B} (m : Update A) (k : A -> Update B) auth l b l'' :
  bind m k auth l = Ok (b, l'') ->
  exists a l', m auth l = Ok (a, l') /\ k a auth l' = Ok (b, l'').
Proof.
  unfold bind. destruct (m auth l) as [[a l']|e]; [|discriminate].
  intros H. exists a, l'. auto.
Qed.

Lemma assertMsg_Ok msg b auth l u l' :
  assertMsg msg b auth l = Ok (u, l') -> b = true /\ l' = l.
Proof. destruct b; simpl; [intros [= _ <-]; auto | discriminate]. Qed.

Lemma decimal_Ok x auth l y l' :
  decimal x auth l = Ok (y, l') ->
  in_decimal_range x = true /\ y = x /\ l' = l.
Proof.
  unfold decimal. destruct (in_decimal_range x); simpl;
    [intros [= <- <-]; auto | discriminate].
Qed.

Lemma lookupByKey_Ok k auth l o l' :
  lookupByKey k auth l = Ok (o, l') ->
  o = lookup_key k (active l) /\ l' = l.
Proof.
  unfold lookupByKey. destruct (subset _ _); [|discriminate].
  intros [= <- <-]. auto.
Qed.

Lemma fetch_Asset_Ok cid auth l a l' :
  fetch_Asset cid auth l = Ok (a, l') ->
  lookup_cid cid (active l) = Some (CAsset a) /\ l' = l.
Proof.
  unfold fetch_Asset, bind, fetch.
  destruct (lookup_cid cid (active l)) as [x|]; [|discriminate].
  destruct (existsb _ _); [|discriminate].
  destruct x; simpl; try discriminate. intros [= <- <-]. auto.
Qed.

Lemma archive_Ok cid auth l u l' :
  archive cid auth l = Ok (u, l') ->
  l' = mkLedger (next_cid l) (remove_cid cid (active l)).
Proof.
  unfold archive. destruct (lookup_cid cid (active l)); [|discriminate].
  destruct (subset _ _); [|discriminate]. intros [= H]. now subst.
Qed.

Lemma create_Ok x auth l r l' :
  create x auth l = Ok (r, l') ->
  ensure x = true
  /\ match key x with
     | Some k => lookup_key k (active l) = None
     | None => True
     end
  /\ r = next_cid l
  /\ l' = mkLedger (S (next_cid l)) (active l ++ [(next_cid l, x)]).
Proof.
  unfold create. destruct (ensure x); simpl; [|discriminate].
  destruct (negb _); [discriminate|].
  destruct (key x) as [k|].
  - destruct (lookup_key k (active l)); [discriminate|].
    intros [= <- <-]. auto.
  - intros [= <- <-]. auto.
Qed.

Lemma exercise_Ok {T R} (as_T : Contract -> option T) cid controller
    consuming (body : T -> Update R) auth l r l' :
  exercise as_T cid controller consuming body auth l = Ok (r, l') ->
  exists x this,
    lookup_cid cid (active l) = Some x
    /\ as_T x = Some this
    /\ body this (signatory x ++ controller this)
         (if consuming
          then mkLedger (next_cid l) (remove_cid cid (active l))
          else l) = Ok (r, l').
Proof.
  unfold exercise. destruct (lookup_cid cid (active l)) as [x|];
    [|discriminate].
  destruct (as_T x) as [this|] eqn:E; [|discriminate].
  destruct (subset _ _); [|discriminate].
  intros H. exists x, this. split; [reflexivity|]. split; [exact E|].
  exact H.
Qed.

(** Takes a committed run in hypothesis [H] apart, step by step. *)
Ltac invert_run H :=
  repeat match type of H with
         | bind _ _ _ _ = Ok _ =>
             let a := fresh "v" in
             let l := fresh "l" in
             let H1 := fresh "Hstep" in
             apply bind_Ok in H; destruct H as (a & l & H1 & H);
             first
               [ apply assertMsg_Ok in H1; destruct H1 as [H1 ->]
               | apply lookupByKey_Ok in H1; destruct H1 as [-> ->]
               | apply fetch_Asset_Ok in H1; destruct H1 as [H1 ->]
               | apply archive_Ok in H1; subst l
               | apply decimal_Ok in H1; destruct H1 as (H1 & -> & ->)
               | apply create_Ok in H1
               | idtac ]
         end.

(** ** Asset positions *)

Lemma key_CAsset x ty p :
  key x = Some (TAsset, (ty, p)) ->
  exists a, x = CAsset a /\ asset_type a = ty /\ owner a = p.
Proof.
  destruct x as [a| | |]; simpl; try discriminate.
  intros [= <- <-]. exists a. auto.
Qed.

Lemma assets_in_app k s t : assets_in k (s ++ t) = assets_in k s ++ assets_in k t.
Proof. apply flat_map_app. Qed.

Lemma assets_in_none k s :
  lookup_key (TAsset, k) s = None -> assets_in k s = [].
Proof.
  induction s as [|[c0 x0] s IH]; simpl; [reflexivity|].
  destruct (has_key (TAsset, k) x0) eqn:E; [discriminate|].
  intros H. rewrite (IH H), app_nil_r.
  destruct x0; simpl; try reflexivity. simpl in E.
  unfold has_key in E |- *. simpl in E |- *. now rewrite E.
Qed.

Lemma assets_in_some k cid s :
  NoDup (keys s) ->
  lookup_key (TAsset, k) s = Some cid ->
  exists a, In (cid, CAsset a) s
            /\ asset_type a = fst k /\ owner a = snd k
            /\ assets_in k s = [a].
Proof.
  destruct k as [ty p].
  induction s as [|[c0 x0] s IH]; simpl; [discriminate|].
  intros Hnd. destruct (has_key (TAsset, (ty, p)) x0) eqn:E.
  - intros [= ->]. pose proof E as Hk. apply has_key_iff in Hk.
    destruct (key_CAsset _ _ _ Hk) as (a & -> & Hty & Hp).
    exists a. split; [now left|]. split; [exact Hty|]. split; [exact Hp|].
    rewrite Hk in Hnd. inversion Hnd as [|? ? Hnotin _]; subst.
    rewrite assets_in_none by now apply lookup_key_None.
    unfold is_asset_at. now rewrite E.
  - intros H.
    assert (Hnd' : NoDup (keys s)).
    { destruct (key x0); [now inversion Hnd | exact Hnd]. }
    destruct (IH Hnd' H) as (a & Hin & Hty & Hp & Has).
    exists a. split; [now right|]. split; [exact Hty|]. split; [exact Hp|].
    rewrite Has. destruct x0; simpl; try reflexivity.
    unfold has_key in E |- *. simpl in E |- *. now rewrite E.
Qed.

Lemma assets_in_single k a n :
  asset_type a = fst k -> owner a = snd k ->
  assets_in k [(n, CAsset a)] = [a].
Proof.
  destruct k as [ty p]. simpl. intros <- <-.
  unfold has_key. simpl. now rewrite Key_eqb_refl.
Qed.

Lemma assets_in_other k a n :
  (asset_type a, owner a) <> k -> assets_in k [(n, CAsset a)] = [].
Proof.
  intros Hne. simpl. unfold has_key. simpl.
  rewrite Key_eqb_neq; [reflexivity|]. congruence.
Qed.

(** The position a well-formed ledger holds at a key. *)
Lemma position_cases l k :
  wf l ->
  (lookup_key (TAsset, k) (active l) = None
   /\ assets_at k l = [] /\ position k l = dec 0)
  \/ (exists cid a,
        lookup_key (TAsset, k) (active l) = Some cid
        /\ lookup_cid cid (active l) = Some (CAsset a)
        /\ asset_type a = fst k /\ owner a = snd k
        /\ assets_at k l = [a] /\ position k l = amount a).
Proof.
  intros [Hc _ Hk]. unfold position, assets_at.
  destruct (lookup_key (TAsset, k) (active l)) as [cid|] eqn:E.
  - right. destruct (assets_in_some _ _ _ Hk E) as (a & Hin & Hty & Hp & Has).
    exists cid, a. rewrite Has.
    split; [reflexivity|]. split; [now apply In_lookup_cid|]. auto.
  - left. rewrite (assets_in_none _ _ E). auto.
Qed.

(** Archiving the Asset at a key and creating its successor there leaves
    exactly the successor at that key. *)
Lemma assets_in_replace k cid s a n :
  NoDup (keys s) ->
  lookup_key (TAsset, k) s = Some cid ->
  asset_type a = fst k -> owner a = snd k ->
  assets_in k (remove_cid cid s ++ [(n, CAsset a)]) = [a].
Proof.
  intros Hnd Hk Hty Hp. rewrite assets_in_app.
  rewrite (assets_in_none k (remove_cid cid s))
    by now apply lookup_key_remove.
  now apply assets_in_single.
Qed.

Lemma assets_in_add k s a n :
  lookup_key (TAsset, k) s = None ->
  asset_type a = fst k -> owner a = snd k ->
  assets_in k (s ++ [(n, CAsset a)]) = [a].
Proof.
  intros Hk Hty Hp. rewrite assets_in_app, (assets_in_none _ _ Hk).
  now apply assets_in_single.
Qed.

(** ** Airdrop merges *)

Lemma Airdrop_Ok self a auth l r l' :
  Airdrop self a auth l = Ok (r, l') ->
  exists acc,
    lookup_cid self (active l) = Some (CAccount acc)
    /\ r = next_cid l
    /\ ((lookup_key (TAsset, (account_asset_type acc, account_owner acc))
           (active l) = None
         /\ l' = mkLedger (S (next_cid l))
                   (active l
                    ++ [(next_cid l,
                         CAsset (mkAsset (account_asset_type acc)
                                   (account_owner acc) (a + dec 0)))]))
        \/ (exists cid a0,
              lookup_key (TAsset, (account_asset_type acc, account_owner acc))
                (active l) = Some cid
              /\ lookup_cid cid (active l) = Some (CAsset a0)
              /\ l' = mkLedger (S (next_cid l))
                        (remove_cid cid (active l)
                         ++ [(next_cid l,
                              CAsset (mkAsset (account_asset_type acc)
                                        (account_owner acc)
                                        (a + amount a0)))]))).
Proof.
  intros H. unfold Airdrop in H. apply exercise_Ok in H.
  destruct H as (x & acc & Hself & Hx & H).
  destruct x; try discriminate. injection Hx as ->.
  exists acc. split; [exact Hself|].
  unfold lookupByKey_Asset in H. invert_run H.
  destruct (lookup_key _ (active l)) as [cid|] eqn:Hkey.
  - invert_run Hstep2. injection Hstep2 as <- <-.
    apply create_Ok in H. destruct H as (_ & _ & -> & ->).
    split; [reflexivity|]. right. exists cid, v3. auto.
  - injection Hstep2 as <- <-.
    apply create_Ok in H. destruct H as (_ & _ & -> & ->).
    split; [reflexivity|]. left. auto.
Qed.

Lemma submit_Ok {A} p (u : Update A) l r l' :
  submit p u l = (Ok r, l') -> u [p] l = Ok (r, l').
Proof.
  unfold submit. destruct (u [p] l) as [[a l0]|e]; [|discriminate].
  now intros [= -> ->].
Qed.

Lemma lookup_cid_replaced cid x l :
  wf l -> lookup_cid cid (active l) <> None ->
  lookup_cid cid (remove_cid cid (active l) ++ [(next_cid l, x)]) = None.
Proof.
  intros Hwf Hsome. rewrite lookup_cid_app, lookup_cid_remove_same. simpl.
  destruct (lookup_cid cid (active l)) as [y|] eqn:E; [|contradiction].
  apply lookup_cid_In in E. apply (wf_fresh _ Hwf) in E.
  destruct (Nat.eqb_spec (next_cid l) cid); [lia | reflexivity].
Qed.

(** C8: on a well-formed ledger, a committed Airdrop of amount [a] on an
    account of a fungible asset type leaves exactly one Asset at the
    account's key, with amount [a] plus the position held there before (the
    amount of the Asset at the key, 0.0 when there was none, so that the new
    amount is then [a]); the Asset that was at the key is no longer active. *)
Theorem Airdrop_merges_position :
  forall l self acc a p r l',
    wf l ->
    lookup_cid self (active l) = Some (CAccount acc) ->
    fungible (account_asset_type acc) = true ->
    submit p (Airdrop self a) l = (Ok r, l') ->
    assets_at (account_asset_type acc, account_owner acc) l'
    = [mkAsset (account_asset_type acc) (account_owner acc)
         (a + position (account_asset_type acc, account_owner acc) l)]
    /\ (forall cid,
          lookup_key (TAsset, (account_asset_type acc, account_owner acc))
            (active l) = Some cid ->
          lookup_cid cid (active l') = None)
    /\ (assets_at (account_asset_type acc, account_owner acc) l = [] ->
        assets_at (account_asset_type acc, account_owner acc) l'
        = [mkAsset (account_asset_type acc) (account_owner acc) a]).
Proof.
  intros l self acc a p r l' Hwf Hself _ Hrun.
  apply submit_Ok, Airdrop_Ok in Hrun.
  destruct Hrun as (acc' & Hself' & -> & Hcases).
  rewrite Hself in Hself'. injection Hself' as <-.
  set (k := (account_asset_type acc, account_owner acc)) in *.
  destruct (position_cases l k Hwf)
    as [(Hnone & Has & Hpos)|(cid & a0 & Hsome & Hcid & _ & _ & Has & Hpos)];
    destruct Hcases as [(Hk & ->)|(cid' & a0' & Hk & Hcid' & ->)];
    try congruence.
  - rewrite Hpos. unfold assets_at. simpl active.
    rewrite (assets_in_add k) by auto.
    split; [reflexivity|]. split; [intros cid; congruence|].
    intros _. change (dec 0) with 0. now rewrite Z.add_0_r.
  - rewrite Hsome in Hk. injection Hk as <-.
    rewrite Hcid in Hcid'. injection Hcid' as <-.
    rewrite Hpos. unfold assets_at. simpl active.
    rewrite (assets_in_replace k) by (auto; apply (wf_keys _ Hwf)).
    split; [reflexivity|]. split.
    + intros c Hc. rewrite Hsome in Hc. injection Hc as <-.
      apply lookup_cid_replaced; [exact Hwf | congruence].
    + unfold assets_at in Has. rewrite Has. discriminate.
Qed.

Lemma wf_ledger_airdrop_10 : wf ledger_airdrop_10.
Proof. wf_by_computation. Qed.

Lemma Airdrop_merges_position_witness :
  assets_at (alice_tkn, alice) ledger_airdrop_10
  = [mkAsset alice_tkn alice (dec 10)]
  /\ assets_at (alice_tkn, alice)
       (snd (submit alice (Airdrop 0%nat (dec 5)) ledger_airdrop_10))
     = [mkAsset alice_tkn alice (dec 15)].
Proof.
  split; [vm_compute; reflexivity|].
  assert (Hrun : submit alice (Airdrop 0%nat (dec 5)) ledger_airdrop_10
                 = (Ok 2%nat,
                    snd (submit alice (Airdrop 0%nat (dec 5))
                           ledger_airdrop_10)))
    by (vm_compute; reflexivity).
  destruct (Airdrop_merges_position ledger_airdrop_10 0%nat alice_account
              (dec 5) alice 2%nat _ wf_ledger_airdrop_10 eq_refl eq_refl Hrun)
    as [H _].
  refine (eq_trans H _). vm_compute. reflexivity.
Defined.

(** ** Invariants of every update *)

Lemma preserves_ret {A} (a : A) : preserves (ret a).
Proof. intros auth l a' l' Hinv [= _ <-]. exact Hinv. Qed.

Lemma preserves_fail {A} e : preserves (@fail A e).
Proof. intros auth l a l' _. discriminate. Qed.

Lemma preserves_bind {A B} (m : Update A) (k : A -> Update B) :
  preserves m -> (forall a, preserves (k a)) -> preserves (bind m k).
Proof.
  intros Hm Hk auth l b l'' Hinv H. apply bind_Ok in H.
  destruct H as (a & l' & H1 & H2).
  exact (Hk a _ _ _ _ (Hm _ _ _ _ Hinv H1) H2).
Qed.

Lemma preserves_assertMsg msg b : preserves (assertMsg msg b).
Proof.
  intros auth l u l' Hinv H. apply assertMsg_Ok in H.
  destruct H as [_ ->]. exact Hinv.
Qed.

Lemma preserves_fromSome {A} (o : option A) : preserves (fromSome o).
Proof. destruct o; [apply preserves_ret | apply preserves_fail]. Qed.

Lemma preserves_decimal x : preserves (decimal x).
Proof.
  intros auth l y l' Hinv H. apply decimal_Ok in H.
  destruct H as (_ & _ & ->). exact Hinv.
Qed.

Lemma preserves_lookupByKey k : preserves (lookupByKey k).
Proof.
  intros auth l o l' Hinv H. apply lookupByKey_Ok in H.
  destruct H as [_ ->]. exact Hinv.
Qed.

Lemma preserves_fetch_Asset cid : preserves (fetch_Asset cid).
Proof.
  intros auth l a l' Hinv H. apply fetch_Asset_Ok in H.
  destruct H as [_ ->]. exact Hinv.
Qed.

Lemma inv_remove l cid :
  inv l -> inv (mkLedger (next_cid l) (remove_cid cid (active l))).
Proof.
  intros [Hwf Hens]. split; [now apply wf_remove|].
  intros c x Hin. apply In_remove_cid in Hin. apply (Hens c x). tauto.
Qed.

Lemma preserves_archive cid : preserves (archive cid).
Proof.
  intros auth l u l' Hinv H. apply archive_Ok in H. subst.
  now apply inv_remove.
Qed.

Lemma preserves_create x : preserves (create x).
Proof.
  intros auth l r l' [Hwf Hens] H. apply create_Ok in H.
  destruct H as (Hx & Hk & _ & ->). split; [now apply wf_append|].
  intros c y Hin. simpl in Hin. apply in_app_or in Hin.
  destruct Hin as [Hin|[Heq|[]]]; [exact (Hens _ _ Hin)|].
  injection Heq as <- <-. exact Hx.
Qed.

Lemma preserves_exercise {T R} (as_T : Contract -> option T) cid controller
    consuming (body : T -> Update R) :
  (forall this, preserves (body this)) ->
  preserves (exercise as_T cid controller consuming body).
Proof.
  intros Hbody auth l r l' Hinv H. apply exercise_Ok in H.
  destruct H as (x & this & _ & _ & H).
  apply (Hbody this _ _ _ _) in H; [exact H|].
  destruct consuming; [now apply inv_remove | exact Hinv].
Qed.

Lemma preserves_exerciseByKey {R} k (choice : ContractId -> Update R) :
  (forall cid, preserves (choice cid)) -> preserves (exerciseByKey k choice).
Proof.
  intros Hc auth l r l' Hinv. unfold exerciseByKey.
  destruct (lookup_key k (active l)) as [cid|]; [|discriminate].
  now apply Hc.
Qed.

(** Structural proof that an update built from the primitives keeps the
    invariants. *)
Ltac preserves :=
  repeat first
    [ apply preserves_create
    | apply preserves_decimal
    | apply preserves_lookupByKey
    | apply preserves_fetch_Asset
    | apply preserves_archive
    | apply preserves_ret
    | apply preserves_fromSome
    | apply preserves_assertMsg
    | apply preserves_exercise; intros ?
    | apply preserves_bind; [|intros ?]
    | match goal with
      | |- preserves (match ?o with _ => _ end) => destruct o
      end ].

Lemma preserves_run_command cmd : preserves (run_command cmd).
Proof.
  induction cmd as [x|cid|cid|cid|cid r|cid a|cid a r|cid|cid|cid|k choice IH];
    simpl run_command.
  - preserves.
  - unfold Cancel_Transfer, lookupByKey_Asset. preserves.
  - unfold Reject_Transfer. preserves.
  - unfold Accept_Transfer, lookupByKey_Asset. preserves.
  - unfold Invite_New_Asset_Holder. preserves.
  - unfold Airdrop, lookupByKey_Asset. preserves.
  - unfold Create_Transfer, lookupByKey_Asset. preserves.
  - unfold AssetHoldingAccountProposal_Accept. preserves.
  - unfold AssetHoldingAccountProposal_Reject. preserves.
  - preserves.
  - apply preserves_exerciseByKey. exact IH.
Qed.

Lemma reachable_inv l : reachable l -> inv l.
Proof.
  induction 1 as [|l p cmd _ IH].
  - split.
    + constructor; simpl; [constructor | contradiction | constructor].
    + intros c x [].
  - unfold then_submit, submit.
    destruct (run_command cmd [p] l) as [[u l']|e] eqn:E; simpl; [|exact IH].
    exact (preserves_run_command cmd _ _ _ _ IH E).
Qed.

(** C1: in every ledger reachable by submitted commands (creates, the
    choices Airdrop, Create_Transfer, Cancel_Transfer, Accept_Transfer and
    the others, and the built-in Archive), each active Asset has amount > 0 when its type is
    fungible and amount 0.0 or 1.0 otherwise; a create commits only for a
    contract whose [ensure] clause holds, and the create of an Asset that
    violates the clause fails, whoever authorizes it and whatever the
    ledger. *)
Theorem fungibility_invariant :
  (forall l cid a,
     reachable l -> In (cid, CAsset a) (active l) ->
     if fungible (asset_type a) then 0 < amount a
     else amount a = dec 1 \/ amount a = dec 0)
  /\ (forall x auth l r l',
        create x auth l = Ok (r, l') -> ensure x = true)
  /\ (forall a auth l,
        ensure_Asset a = false ->
        create (CAsset a) auth l = Fail PreconditionFailed).
Proof.
  split; [|split].
  - intros l cid a Hreach Hin.
    destruct (reachable_inv l Hreach) as [_ Hens].
    specialize (Hens _ _ Hin). simpl in Hens. unfold ensure_Asset in Hens.
    destruct (fungible (asset_type a)).
    + now apply Z.ltb_lt.
    + apply orb_true_iff in Hens. rewrite !Z.eqb_eq in Hens. exact Hens.
  - intros x auth l r l' H. apply create_Ok in H. tauto.
  - intros a auth l H. unfold create. simpl ensure. now rewrite H.
Qed.

Lemma reachable_ledger_with_transfer : reachable ledger_with_transfer.
Proof.
  unfold ledger_with_transfer, ledger_with_bob, ledger_after_mint.
  repeat apply reach_submit. apply reach_empty.
Qed.

Lemma fungibility_invariant_witness :
  In (5%nat, CAsset (mkAsset alice_tkn alice (dec 10)))
    (active ledger_with_transfer)
  /\ 0 < dec 10.
Proof.
  assert (Hin : In (5%nat, CAsset (mkAsset alice_tkn alice (dec 10)))
                  (active ledger_with_transfer))
    by (vm_compute; tauto).
  split; [exact Hin|].
  exact (proj1 fungibility_invariant ledger_with_transfer 5%nat
           (mkAsset alice_tkn alice (dec 10))
           reachable_ledger_with_transfer Hin).
Defined.

(** ** Running the primitives forward *)

Lemma bind_lookupByKey {B} k (f : option ContractId -> Update B) auth l :
  subset (maintainer k) auth = true ->
  bind (lookupByKey k) f auth l = f (lookup_key k (active l)) auth l.
Proof. intros H. unfold bind, lookupByKey. now rewrite H. Qed.

Lemma bind_fetch_Asset {B} cid a (f : Asset -> Update B) auth l :
  lookup_cid cid (active l) = Some (CAsset a) ->
  existsb (fun p => elem p auth) (signatory_Asset a) = true ->
  bind (fetch_Asset cid) f auth l = f a auth l.
Proof.
  intros Hc Hs. unfold fetch_Asset, fetch, bind. rewrite Hc.
  simpl signatory. simpl observer. rewrite app_nil_r, Hs. reflexivity.
Qed.

Lemma bind_archive {B} cid x (f : unit -> Update B) auth l :
  lookup_cid cid (active l) = Some x ->
  subset (signatory x) auth = true ->
  bind (archive cid) f auth l
  = f tt auth (mkLedger (next_cid l) (remove_cid cid (active l))).
Proof. intros Hc Hs. unfold bind, archive. now rewrite Hc, Hs. Qed.

Lemma bind_decimal {B} x (f : Decimal -> Update B) auth l :
  bind (decimal x) f auth l
  = if in_decimal_range x then f x auth l else Fail ArithmeticError.
Proof. unfold bind, decimal. now destruct (in_decimal_range x). Qed.

Lemma create_run x auth l :
  subset (signatory x) auth = true ->
  match key x with
  | Some k => lookup_key k (active l) = None
  | None => True
  end ->
  create x auth l
  = if ensure x
    then Ok (next_cid l,
             mkLedger (S (next_cid l)) (active l ++ [(next_cid l, x)]))
    else Fail PreconditionFailed.
Proof.
  intros Hs Hk. unfold create. destruct (ensure x); simpl; [|reflexivity].
  rewrite Hs. simpl. destruct (key x); [now rewrite Hk | reflexivity].
Qed.

Lemma lookup_key_asset_fields l ty p cid a :
  wf l ->
  lookup_key (TAsset, (ty, p)) (active l) = Some cid ->
  lookup_cid cid (active l) = Some (CAsset a) ->
  asset_type a = ty /\ owner a = p.
Proof.
  intros Hwf Hk Hc.
  destruct (lookup_key_fetch _ _ _ (wf_cids _ Hwf) Hk) as (x & Hx & Hkey).
  rewrite Hc in Hx. injection Hx as <-. simpl in Hkey.
  injection Hkey as <- <-. auto.
Qed.

(** ** Create_Transfer *)

Lemma Create_Transfer_run l self acc cid a0 a r :
  wf l ->
  lookup_cid self (active l) = Some (CAccount acc) ->
  lookup_key (TAsset, (account_asset_type acc, account_owner acc)) (active l)
  = Some cid ->
  lookup_cid cid (active l) = Some (CAsset a0) ->
  Create_Transfer self a r [account_owner acc] l
  = if negb (a <=? amount a0)
    then Fail (AssertionFailed msg_not_enough_funds)
    else if negb (in_decimal_range (amount a0 - a))
    then Fail ArithmeticError
    else if negb (ensure_Asset
                    (mkAsset (asset_type a0) (owner a0) (amount a0 - a)))
    then Fail PreconditionFailed
    else Ok (S (next_cid l),
             mkLedger (S (S (next_cid l)))
               ((remove_cid cid (active l)
                 ++ [(next_cid l,
                      CAsset (mkAsset (asset_type a0) (owner a0)
                                (amount a0 - a)))])
                ++ [(S (next_cid l),
                     CAssetTransfer (mkAssetTransfer a0 r a))])).
Proof.
  intros Hwf Hself Hkey Hcid.
  destruct (lookup_key_asset_fields _ _ _ _ _ Hwf Hkey Hcid) as [Hty Hp].
  unfold Create_Transfer, exercise. rewrite Hself. simpl as_Account.
  cbv iota beta. authority. unfold lookupByKey_Asset.
  rewrite bind_lookupByKey by (simpl; authority; reflexivity).
  rewrite Hkey. simpl isSome. unfold assertMsg at 1.
  change (bind (ret tt) ?f ?au ?le) with (f tt au le). cbv beta.
  simpl fromSome. change (bind (ret cid) ?f ?au ?le) with (f cid au le).
  cbv beta.
  rewrite (bind_fetch_Asset cid a0)
    by (try exact Hcid; unfold signatory_Asset; rewrite Hty, Hp; simpl;
        authority; reflexivity).
  destruct (a <=? amount a0); simpl negb; cbv iota; [|reflexivity].
  unfold assertMsg.
  change (bind (ret tt) ?f ?au ?le) with (f tt au le). cbv beta.
  rewrite (bind_archive cid (CAsset a0))
    by (try exact Hcid; simpl; unfold signatory_Asset; rewrite Hty, Hp;
        authority; reflexivity).
  rewrite bind_decimal.
  destruct (in_decimal_range (amount a0 - a)); simpl negb; cbv iota;
    [|reflexivity].
  unfold bind at 1. rewrite create_run.
  - simpl ensure.
    destruct (ensure_Asset _); simpl negb; cbv iota; [|reflexivity].
    rewrite create_run.
    + reflexivity.
    + simpl. unfold signatory_Asset. rewrite Hty, Hp. authority.
      reflexivity.
    + exact I.
  - simpl. unfold signatory_Asset. simpl. rewrite Hty, Hp. authority.
    reflexivity.
  - simpl key. simpl active. rewrite Hty, Hp.
    apply lookup_key_remove; [apply (wf_keys _ Hwf) | exact Hkey].
Qed.

Lemma submit_run {A} p (u : Update A) l r l' :
  u [p] l = Ok (r, l') -> submit p u l = (Ok r, l').
Proof. intros H. unfold submit. now rewrite H. Qed.

Lemma submit_fail {A} p (u : Update A) l e :
  u [p] l = Fail e -> submit p u l = (Fail e, l).
Proof. intros H. unfold submit. now rewrite H. Qed.

Lemma assets_in_remove_other k c x s :
  NoDup (map fst s) -> lookup_cid c s = Some x ->
  key x <> Some (TAsset, k) ->
  assets_in k (remove_cid c s) = assets_in k s.
Proof.
  intros Hnd Hc Hk.
  destruct (remove_cid_split _ _ _ Hnd Hc) as (s1 & s2 & -> & ->).
  rewrite !assets_in_app. f_equal. simpl.
  replace (is_asset_at k x) with (@nil Asset); [reflexivity|].
  destruct x as [a| | |]; simpl; try reflexivity.
  destruct (has_key (TAsset, k) (CAsset a)) eqn:E; [|reflexivity].
  apply has_key_iff in E. contradiction.
Qed.

(** What a committed Create_Transfer leaves: the residual Asset alone at
    the sender's key, every other key as before, and the new transfer. *)
Lemma Create_Transfer_spec l self acc cid a0 a r :
  wf l ->
  lookup_cid self (active l) = Some (CAccount acc) ->
  lookup_key (TAsset, (account_asset_type acc, account_owner acc)) (active l)
  = Some cid ->
  lookup_cid cid (active l) = Some (CAsset a0) ->
  a <= amount a0 ->
  in_decimal_range (amount a0 - a) = true ->
  ensure_Asset (mkAsset (asset_type a0) (owner a0) (amount a0 - a)) = true ->
  exists l1,
    submit (account_owner acc) (Create_Transfer self a r) l
    = (Ok (S (next_cid l)), l1)
    /\ wf l1
    /\ next_cid l1 = S (S (next_cid l))
    /\ lookup_cid (S (next_cid l)) (active l1)
       = Some (CAssetTransfer (mkAssetTransfer a0 r a))
    /\ lookup_cid cid (active l1) = None
    /\ assets_at (account_asset_type acc, account_owner acc) l1
       = [mkAsset (account_asset_type acc) (account_owner acc)
            (amount a0 - a)]
    /\ (forall k, k <> (account_asset_type acc, account_owner acc) ->
          assets_at k l1 = assets_at k l).
Proof.
  intros Hwf Hself Hkey Hcid Hle Hrange Hens.
  destruct (lookup_key_asset_fields _ _ _ _ _ Hwf Hkey Hcid) as [Hty Hp].
  pose proof (Create_Transfer_run l self acc cid a0 a r Hwf Hself Hkey Hcid)
    as Hrun.
  apply Z.leb_le in Hle. rewrite Hle, Hrange, Hens in Hrun. simpl in Hrun.
  eexists. split; [apply submit_run; exact Hrun|].
  set (res := mkAsset (asset_type a0) (owner a0) (amount a0 - a)) in *.
  set (l0 := mkLedger (next_cid l) (remove_cid cid (active l))).
  assert (Hwf0 : wf l0) by now apply wf_remove.
  assert (Hk0 : lookup_key (TAsset, (account_asset_type acc,
                                     account_owner acc)) (active l0) = None).
  { apply lookup_key_remove; [apply (wf_keys _ Hwf) | exact Hkey]. }
  set (l1 := mkLedger (S (next_cid l)) (active l0 ++ [(next_cid l0, CAsset res)])).
  assert (Hwf1 : wf l1).
  { apply (wf_append l0); [exact Hwf0|]. simpl key. now rewrite Hty, Hp. }
  split.
  { apply (wf_append l1 (CAssetTransfer (mkAssetTransfer a0 r a)) Hwf1).
    exact I. }
  split; [reflexivity|]. simpl active.
  pose proof (wf_fresh_cid _ Hwf) as Hnew.
  assert (Hnew0 : lookup_cid (next_cid l) (remove_cid cid (active l)) = None).
  { apply lookup_cid_notin. intros Hin. apply Hnew.
    exact (cids_remove_cid _ _ _ Hin). }
  assert (Hlt : (cid < next_cid l)%nat).
  { apply lookup_cid_In in Hcid. exact (wf_fresh _ Hwf _ _ Hcid). }
  split.
  { rewrite !lookup_cid_app.
    rewrite (lookup_cid_notin (S (next_cid l)) (remove_cid cid (active l))).
    - simpl. destruct (Nat.eqb_spec (next_cid l) (S (next_cid l))); [lia|].
      now rewrite Nat.eqb_refl.
    - intros Hin. apply cids_remove_cid in Hin. apply in_map_iff in Hin.
      destruct Hin as ([c x] & Hc & Hin). simpl in Hc. subst c.
      apply (wf_fresh _ Hwf) in Hin. lia. }
  split.
  { rewrite !lookup_cid_app, lookup_cid_remove_same. cbn [lookup_cid].
    rewrite (proj2 (Nat.eqb_neq (next_cid l) cid)) by lia.
    now rewrite (proj2 (Nat.eqb_neq (S (next_cid l)) cid)) by lia. }
  split.
  - unfold assets_at. simpl active. rewrite assets_in_app.
    rewrite (assets_in_replace _ cid) by
      (auto; apply (wf_keys _ Hwf)).
    simpl. unfold res. now rewrite Hty, Hp.
  - intros k Hk. unfold assets_at. simpl active. rewrite !assets_in_app.
    rewrite (assets_in_remove_other k cid (CAsset a0) _
               (wf_cids _ Hwf) Hcid) by (simpl; congruence).
    rewrite assets_in_other by (unfold res; simpl; congruence).
    simpl. now rewrite !app_nil_r.
Qed.

(** ** Accept_Transfer *)

Lemma bind_bind {A B C} (m : Update A) (f : A -> Update B)
    (g : B -> Update C) auth l :
  bind (bind m f) g auth l = bind m (fun a => bind (f a) g) auth l.
Proof. unfold bind. destruct (m auth l) as [[a l']|e]; reflexivity. Qed.

Lemma Accept_Transfer_run_some l self t cid a0 :
  wf l ->
  lookup_cid self (active l) = Some (CAssetTransfer t) ->
  lookup_key (TAsset, (asset_type (asset t), recipient t)) (active l)
  = Some cid ->
  lookup_cid cid (active l) = Some (CAsset a0) ->
  Accept_Transfer self [recipient t] l
  = if negb (fungible (asset_type (asset t)))
    then Fail (AssertionFailed msg_accept_nonfungible)
    else if negb (in_decimal_range (transfer_amount t + amount a0))
    then Fail ArithmeticError
    else if negb (ensure_Asset
                    (mkAsset (asset_type (asset t)) (recipient t)
                       (transfer_amount t + amount a0)))
    then Fail PreconditionFailed
    else Ok (next_cid l,
             mkLedger (S (next_cid l))
               (remove_cid cid (remove_cid self (active l))
                ++ [(next_cid l,
                     CAsset (mkAsset (asset_type (asset t)) (recipient t)
                               (transfer_amount t + amount a0)))])).
Proof.
  intros Hwf Hself Hkey Hcid.
  destruct (lookup_key_asset_fields _ _ _ _ _ Hwf Hkey Hcid) as [Hty Hp].
  assert (Hne : cid <> self) by (intros ->; congruence).
  assert (Hkey1 :
    lookup_key (TAsset, (asset_type (asset t), recipient t))
      (remove_cid self (active l)) = Some cid).
  { rewrite (lookup_key_remove_other _ self (CAssetTransfer t) _
               (wf_cids _ Hwf) Hself) by discriminate.
    exact Hkey. }
  assert (Hcid1 : lookup_cid cid (remove_cid self (active l))
                  = Some (CAsset a0)).
  { now rewrite lookup_cid_remove_other. }
  unfold Accept_Transfer, exercise. rewrite Hself. simpl as_AssetTransfer.
  cbv iota beta. authority. simpl signatory. unfold signatory_Asset.
  unfold lookupByKey_Asset.
  rewrite bind_lookupByKey by (simpl; authority; reflexivity).
  simpl active. rewrite Hkey1. rewrite bind_bind.
  rewrite (bind_fetch_Asset cid a0)
    by (try exact Hcid1; unfold signatory_Asset; rewrite Hty; simpl;
        authority; reflexivity).
  rewrite Hty. rewrite bind_bind.
  destruct (fungible (asset_type (asset t))); simpl negb; cbv iota;
    [|reflexivity].
  unfold assertMsg.
  change (bind (ret tt) ?f ?au ?le) with (f tt au le). cbv beta.
  rewrite bind_bind.
  rewrite (bind_archive cid (CAsset a0))
    by (try exact Hcid1; simpl; unfold signatory_Asset; rewrite Hty, Hp;
        authority; reflexivity).
  change (bind (ret ?v) ?f ?au ?le) with (f v au le). cbv beta.
  rewrite bind_decimal.
  destruct (in_decimal_range _); simpl negb; cbv iota; [|reflexivity].
  rewrite create_run.
  - simpl ensure. destruct (ensure_Asset _); reflexivity.
  - simpl. unfold signatory_Asset. simpl. authority. reflexivity.
  - simpl key. simpl active.
    apply lookup_key_remove; [|exact Hkey1].
    apply NoDup_keys_remove, (wf_keys _ Hwf).
Qed.

Lemma Accept_Transfer_run_none l self t :
  wf l ->
  lookup_cid self (active l) = Some (CAssetTransfer t) ->
  lookup_key (TAsset, (asset_type (asset t), recipient t)) (active l)
  = None ->
  Accept_Transfer self [recipient t] l
  = if negb (in_decimal_range (transfer_amount t + dec 0))
    then Fail ArithmeticError
    else if negb (ensure_Asset
                    (mkAsset (asset_type (asset t)) (recipient t)
                       (transfer_amount t + dec 0)))
    then Fail PreconditionFailed
    else Ok (next_cid l,
             mkLedger (S (next_cid l))
               (remove_cid self (active l)
                ++ [(next_cid l,
                     CAsset (mkAsset (asset_type (asset t)) (recipient t)
                               (transfer_amount t + dec 0)))])).
Proof.
  intros Hwf Hself Hkey.
  assert (Hkey1 :
    lookup_key (TAsset, (asset_type (asset t), recipient t))
      (remove_cid self (active l)) = None)
    by now apply lookup_key_remove_None.
  unfold Accept_Transfer, exercise. rewrite Hself. simpl as_AssetTransfer.
  cbv iota beta. authority. simpl signatory. unfold signatory_Asset.
  unfold lookupByKey_Asset.
  rewrite bind_lookupByKey by (simpl; authority; reflexivity).
  simpl active. rewrite Hkey1.
  change (bind (ret ?v) ?f ?au ?le) with (f v au le). cbv beta.
  rewrite bind_decimal.
  destruct (in_decimal_range _); simpl negb; cbv iota; [|reflexivity].
  rewrite create_run.
  - simpl ensure. destruct (ensure_Asset _); reflexivity.
  - simpl. unfold signatory_Asset. simpl. authority. reflexivity.
  - simpl key. simpl active. exact Hkey1.
Qed.

(** What a committed Accept_Transfer leaves: the merged Asset alone at the
    recipient's key, every other key as before, the transfer and the
    recipient's previous Asset archived. *)
Lemma Accept_Transfer_spec l self t :
  wf l ->
  lookup_cid self (active l) = Some (CAssetTransfer t) ->
  fungible (asset_type (asset t)) = true
  \/ assets_at (asset_type (asset t), recipient t) l = [] ->
  in_decimal_range
    (transfer_amount t + position (asset_type (asset t), recipient t) l)
  = true ->
  ensure_Asset
    (mkAsset (asset_type (asset t)) (recipient t)
       (transfer_amount t + position (asset_type (asset t), recipient t) l))
  = true ->
  exists l',
    submit (recipient t) (Accept_Transfer self) l = (Ok (next_cid l), l')
    /\ wf l'
    /\ assets_at (asset_type (asset t), recipient t) l'
       = [mkAsset (asset_type (asset t)) (recipient t)
            (transfer_amount t
             + position (asset_type (asset t), recipient t) l)]
    /\ (forall k, k <> (asset_type (asset t), recipient t) ->
          assets_at k l' = assets_at k l)
    /\ lookup_cid self (active l') = None
    /\ (forall cid,
          lookup_key (TAsset, (asset_type (asset t), recipient t)) (active l)
          = Some cid ->
          lookup_cid cid (active l') = None).
Proof.
  intros Hwf Hself Hfun Hrange Hens.
  set (k := (asset_type (asset t), recipient t)) in *.
  pose proof (wf_fresh_cid _ Hwf) as Hnew.
  assert (Hself_lt : (self < next_cid l)%nat).
  { apply lookup_cid_In in Hself. exact (wf_fresh _ Hwf _ _ Hself). }
  set (l0 := mkLedger (next_cid l) (remove_cid self (active l))).
  assert (Hwf0 : wf l0) by now apply wf_remove.
  assert (Hframe0 : forall k', assets_in k' (remove_cid self (active l))
                               = assets_in k' (active l)).
  { intros k'. apply (assets_in_remove_other k' self (CAssetTransfer t));
      [apply (wf_cids _ Hwf) | exact Hself | discriminate]. }
  destruct (position_cases l k Hwf)
    as [(Hnone & Has & Hpos)|(cid & a0 & Hsome & Hcid & Hty & Hp & Has & Hpos)];
    rewrite Hpos in *.
  - pose proof (Accept_Transfer_run_none l self t Hwf Hself Hnone) as Hrun.
    rewrite Hrange, Hens in Hrun. simpl in Hrun.
    eexists. split; [apply submit_run; exact Hrun|].
    assert (Hnone0 : lookup_key (TAsset, k) (active l0) = None)
      by now apply lookup_key_remove_None.
    split; [apply (wf_append l0); [exact Hwf0 | exact Hnone0]|].
    split; [unfold assets_at; simpl active; now apply assets_in_add|].
    split; [|split].
    + intros k' Hk'. unfold assets_at. simpl active.
      rewrite assets_in_app, Hframe0.
      rewrite assets_in_other by (simpl; fold k; congruence).
      apply app_nil_r.
    + simpl active. rewrite lookup_cid_app, lookup_cid_remove_same.
      cbn [lookup_cid].
      now rewrite (proj2 (Nat.eqb_neq (next_cid l) self)) by lia.
    + intros cid Hc. congruence.
  - assert (Hfung : fungible (asset_type (asset t)) = true).
    { destruct Hfun as [H|H]; [exact H | congruence]. }
    assert (Hne : cid <> self) by (intros ->; congruence).
    assert (Hcid_lt : (cid < next_cid l)%nat).
    { apply lookup_cid_In in Hcid. exact (wf_fresh _ Hwf _ _ Hcid). }
    pose proof (Accept_Transfer_run_some l self t cid a0 Hwf Hself Hsome Hcid)
      as Hrun.
    rewrite Hfung, Hrange, Hens in Hrun. simpl in Hrun.
    eexists. split; [apply submit_run; exact Hrun|].
    assert (Hsome0 : lookup_key (TAsset, k) (active l0) = Some cid).
    { simpl. rewrite (lookup_key_remove_other _ self (CAssetTransfer t) _
                        (wf_cids _ Hwf) Hself) by discriminate.
      exact Hsome. }
    assert (Hcid0 : lookup_cid cid (active l0) = Some (CAsset a0)).
    { simpl. now rewrite lookup_cid_remove_other. }
    split.
    { apply (wf_append (mkLedger (next_cid l0) (remove_cid cid (active l0)))).
      - now apply wf_remove.
      - simpl key. simpl active.
        apply lookup_key_remove; [apply (wf_keys _ Hwf0) | exact Hsome0]. }
    split.
    { unfold assets_at. simpl active.
      apply (assets_in_replace k cid (active l0));
        [apply (wf_keys _ Hwf0) | exact Hsome0 | reflexivity | reflexivity]. }
    split; [|split].
    + intros k' Hk'. unfold assets_at. simpl active.
      rewrite assets_in_app.
      change (remove_cid self (active l)) with (active l0).
      rewrite (assets_in_remove_other k' cid (CAsset a0) _
                 (wf_cids _ Hwf0) Hcid0)
        by (unfold k in *; simpl in *; congruence).
      simpl active. rewrite Hframe0.
      rewrite assets_in_other by (simpl; fold k; congruence).
      apply app_nil_r.
    + simpl active. rewrite lookup_cid_app.
      rewrite lookup_cid_remove_other by auto.
      rewrite lookup_cid_remove_same. cbn [lookup_cid].
      now rewrite (proj2 (Nat.eqb_neq (next_cid l) self)) by lia.
    + intros c Hc. rewrite Hsome in Hc.
      injection Hc as <-. simpl active.
      rewrite lookup_cid_app, lookup_cid_remove_same. cbn [lookup_cid].
      now rewrite (proj2 (Nat.eqb_neq (next_cid l) cid)) by lia.
Qed.

Lemma valid_amount_range ty x :
  valid_amount ty x = true -> in_decimal_range x = true.
Proof. unfold valid_amount. intros H. now apply andb_true_iff in H. Qed.

Lemma valid_amount_ensure ty p x :
  valid_amount ty x = true -> ensure_Asset (mkAsset ty p x) = true.
Proof. unfold valid_amount. intros H. now apply andb_true_iff in H. Qed.

(** C6: on a well-formed ledger, Accept_Transfer submitted by the
    recipient of an active transfer fails with the assertion that the
    recipient already owns this type of non-fungible asset exactly when an
    active Asset exists at key (asset_type, recipient) and the asset type is
    not fungible; when it commits and an Asset [a0] was at that key, the
    type is fungible, [a0] and the transfer are no longer active, and the
    one Asset at the key is the recipient's, with the transferred amount
    plus the amount of [a0]; and it does commit in that way whenever an
    Asset [a0] is at the key, the type is fungible and the sum of the two
    amounts is an amount an Asset of the type may carry. *)
Theorem Accept_Transfer_duplicate_holding :
  forall l self t,
    wf l ->
    lookup_cid self (active l) = Some (CAssetTransfer t) ->
    (fst (submit (recipient t) (Accept_Transfer self) l)
     = Fail (AssertionFailed msg_accept_nonfungible)
     <-> assets_at (asset_type (asset t), recipient t) l <> []
         /\ fungible (asset_type (asset t)) = false)
    /\ (forall r l' a0,
          submit (recipient t) (Accept_Transfer self) l = (Ok r, l') ->
          assets_at (asset_type (asset t), recipient t) l = [a0] ->
          fungible (asset_type (asset t)) = true
          /\ assets_at (asset_type (asset t), recipient t) l'
             = [mkAsset (asset_type (asset t)) (recipient t)
                  (transfer_amount t + amount a0)]
          /\ lookup_cid r (active l')
             = Some (CAsset (mkAsset (asset_type (asset t)) (recipient t)
                               (transfer_amount t + amount a0)))
          /\ (forall cid,
                lookup_key (TAsset, (asset_type (asset t), recipient t))
                  (active l) = Some cid ->
                lookup_cid cid (active l') = None)
          /\ lookup_cid self (active l') = None)
    /\ (forall a0,
          assets_at (asset_type (asset t), recipient t) l = [a0] ->
          fungible (asset_type (asset t)) = true ->
          valid_amount (asset_type (asset t))
            (transfer_amount t + amount a0) = true ->
          exists l',
            submit (recipient t) (Accept_Transfer self) l
            = (Ok (next_cid l), l')
            /\ assets_at (asset_type (asset t), recipient t) l'
               = [mkAsset (asset_type (asset t)) (recipient t)
                    (transfer_amount t + amount a0)]
            /\ lookup_cid (next_cid l) (active l')
               = Some (CAsset (mkAsset (asset_type (asset t)) (recipient t)
                                 (transfer_amount t + amount a0)))
            /\ (forall cid,
                  lookup_key (TAsset, (asset_type (asset t), recipient t))
                    (active l) = Some cid ->
                  lookup_cid cid (active l') = None)
            /\ lookup_cid self (active l') = None).
Proof.
  intros l self t Hwf Hself.
  destruct (position_cases l (asset_type (asset t), recipient t) Hwf)
    as [(Hnone & Has & Hpos)|(cid & a & Hsome & Hcid & Hty & Hp & Has & Hpos)].
  - pose proof (Accept_Transfer_run_none l self t Hwf Hself Hnone) as Hrun.
    split; [|split].
    + unfold submit. rewrite Hrun, Has.
      destruct (in_decimal_range _); simpl;
        [destruct (ensure_Asset _); simpl|];
        (split; [discriminate | intros [H _]; now contradiction H]).
    + intros r l' a0 _ Ha0. congruence.
    + intros a0 Ha0. congruence.
  - pose proof (Accept_Transfer_run_some l self t cid a Hwf Hself Hsome Hcid)
      as Hrun.
    assert (Hmerge : forall r l',
      Accept_Transfer self [recipient t] l = Ok (r, l') ->
      r = next_cid l
      /\ fungible (asset_type (asset t)) = true
      /\ assets_at (asset_type (asset t), recipient t) l'
         = [mkAsset (asset_type (asset t)) (recipient t)
              (transfer_amount t + amount a)]
      /\ lookup_cid r (active l')
         = Some (CAsset (mkAsset (asset_type (asset t)) (recipient t)
                           (transfer_amount t + amount a)))
      /\ (forall cid,
            lookup_key (TAsset, (asset_type (asset t), recipient t))
              (active l) = Some cid ->
            lookup_cid cid (active l') = None)
      /\ lookup_cid self (active l') = None).
    { intros r l' Hok. rewrite Hok in Hrun.
      destruct (fungible (asset_type (asset t))) eqn:Hfung; simpl in Hrun;
        [|discriminate].
      destruct (in_decimal_range _) eqn:Hrange; simpl in Hrun; [|discriminate].
      destruct (ensure_Asset _) eqn:Hens; simpl in Hrun; [|discriminate].
      rewrite <- Hpos in Hrange, Hens.
      destruct (Accept_Transfer_spec l self t Hwf Hself (or_introl Hfung)
                  Hrange Hens)
        as (l'' & Hsub & _ & Hat & _ & Hgone & Hold).
      apply submit_Ok in Hsub. rewrite Hok in Hsub.
      injection Hsub as -> <-. rewrite Hpos in Hat.
      split; [reflexivity|]. split; [reflexivity|]. split; [exact Hat|].
      split; [|split; assumption].
      injection Hrun as ->. simpl active. rewrite lookup_cid_app.
      rewrite lookup_cid_notin.
      * cbn [lookup_cid]. now rewrite Nat.eqb_refl.
      * intros Hin. apply (wf_fresh_cid _ Hwf).
        exact (cids_remove_cid _ _ _ (cids_remove_cid _ _ _ Hin)). }
    split; [|split].
    + unfold submit. rewrite Hrun, Has.
      destruct (fungible (asset_type (asset t))); simpl.
      * destruct (in_decimal_range _); simpl;
          [destruct (ensure_Asset _); simpl|];
          (split; [discriminate | intros [_ H]; discriminate]).
      * split; [|reflexivity]. intros _. split; [discriminate | reflexivity].
    + intros r l' a0 Hok Ha0. rewrite Has in Ha0. injection Ha0 as <-.
      apply submit_Ok in Hok.
      destruct (Hmerge r l' Hok) as (_ & H). exact H.
    + intros a0 Ha0 Hfung Hv. rewrite Has in Ha0. injection Ha0 as <-.
      rewrite Hfung, (valid_amount_range _ _ Hv),
        (valid_amount_ensure _ (recipient t) _ Hv) in Hrun.
      simpl in Hrun.
      destruct (Hmerge _ _ Hrun) as (_ & _ & Hat & Hnew & Hold & Hgone).
      eexists. split; [apply submit_run; exact Hrun|].
      split; [exact Hat|]. split; [exact Hnew|]. split; assumption.
Qed.

Lemma wf_ledger_nft_transfer : wf ledger_nft_transfer.
Proof. wf_by_computation. Qed.

Lemma wf_ledger_second_transfer : wf ledger_second_transfer.
Proof. wf_by_computation. Qed.

Lemma Accept_Transfer_duplicate_holding_witness :
  (assets_at (chris_nft, dianne) ledger_nft_transfer
   = [mkAsset chris_nft dianne (dec 1)]
   /\ fst (submit dianne (Accept_Transfer 6%nat) ledger_nft_transfer)
      = Fail (AssertionFailed msg_accept_nonfungible))
  /\ (lookup_cid 7%nat (active ledger_second_transfer)
      = Some (CAsset (mkAsset alice_tkn bob (dec 5)))
      /\ assets_at (alice_tkn, bob) ledger_second_transfer
         = [mkAsset alice_tkn bob (dec 5)]
      /\ exists l',
           submit bob (Accept_Transfer 9%nat) ledger_second_transfer
           = (Ok 10%nat, l')
           /\ assets_at (alice_tkn, bob) l'
              = [mkAsset alice_tkn bob (dec 8)]
           /\ lookup_cid 10%nat (active l')
              = Some (CAsset (mkAsset alice_tkn bob (dec 8)))
           /\ lookup_cid 7%nat (active l') = None
           /\ lookup_cid 9%nat (active l') = None).
Proof.
  split.
  - split; [vm_compute; reflexivity|].
    apply (proj1 (Accept_Transfer_duplicate_holding ledger_nft_transfer 6%nat
                    (mkAssetTransfer (mkAsset chris_nft chris (dec 1)) dianne
                       (dec 1))
                    wf_ledger_nft_transfer eq_refl)).
    split; [vm_compute; discriminate | reflexivity].
  - split; [vm_compute; reflexivity|].
    split; [vm_compute; reflexivity|].
    assert (Hself : lookup_cid 9%nat (active ledger_second_transfer)
                    = Some (CAssetTransfer
                              (mkAssetTransfer
                                 (mkAsset alice_tkn alice (dec 10)) bob
                                 (dec 3))))
      by (vm_compute; reflexivity).
    destruct (Accept_Transfer_duplicate_holding ledger_second_transfer 9%nat
                _ wf_ledger_second_transfer Hself)
      as (_ & _ & Hcommit).
    destruct (Hcommit (mkAsset alice_tkn bob (dec 5)))
      as (l' & Hsub & Hat & Hnew & Hold & Hgone).
    + vm_compute. reflexivity.
    + reflexivity.
    + vm_compute. reflexivity.
    + exists l'. split; [exact Hsub|]. split; [exact Hat|].
      split; [exact Hnew|]. split; [|exact Hgone].
      apply Hold. vm_compute. reflexivity.
Defined.

(** ** Create_Transfer of the whole balance, and of a negative amount *)

(** C3 (what the code does instead): on a well-formed ledger,
    Create_Transfer of the whole amount of a fungible Asset, submitted by
    the account owner, attempts the residual create with amount 0.0; the
    [ensure] clause of Asset rejects it and nothing is committed. *)
Theorem Create_Transfer_whole_fungible_balance_fails :
  forall l self acc cid a0 r,
    wf l ->
    lookup_cid self (active l) = Some (CAccount acc) ->
    lookup_key (TAsset, (account_asset_type acc, account_owner acc))
      (active l) = Some cid ->
    lookup_cid cid (active l) = Some (CAsset a0) ->
    fungible (account_asset_type acc) = true ->
    submit (account_owner acc) (Create_Transfer self (amount a0) r) l
    = (Fail PreconditionFailed, l).
Proof.
  intros l self acc cid a0 r Hwf Hself Hkey Hcid Hfun.
  destruct (lookup_key_asset_fields _ _ _ _ _ Hwf Hkey Hcid) as [Hty _].
  apply submit_fail.
  rewrite (Create_Transfer_run l self acc cid a0 (amount a0) r
             Hwf Hself Hkey Hcid).
  rewrite Z.leb_refl, Z.sub_diag. simpl negb. cbv iota.
  change (in_decimal_range 0) with true. simpl negb. cbv iota.
  unfold ensure_Asset. simpl asset_type. simpl amount.
  now rewrite Hty, Hfun.
Qed.

Lemma Create_Transfer_whole_fungible_balance_fails_witness :
  assets_at (alice_tkn, alice) ledger_with_bob
  = [mkAsset alice_tkn alice (dec 15)]
  /\ submit alice (Create_Transfer 0%nat (dec 15) bob) ledger_with_bob
     = (Fail PreconditionFailed, ledger_with_bob).
Proof.
  split; [vm_compute; reflexivity|].
  exact (Create_Transfer_whole_fungible_balance_fails ledger_with_bob 0%nat
           alice_account 2%nat (mkAsset alice_tkn alice (dec 15)) bob
           wf_ledger_with_bob eq_refl eq_refl eq_refl eq_refl).
Defined.

(** C10 (as the code has it): in a reachable ledger, let an account's key
    hold an Asset of amount [b], and let [a < 0] with [b - a] still a
    Decimal. Then [a <= b], the one test Create_Transfer makes on the
    amount. Submitted by the account owner, Create_Transfer of [a] commits
    if the asset type is fungible, and also if it is not and [b - a] is
    1.0: it leaves at the sender's key one Asset with amount [b - a],
    strictly greater than [b], and creates an AssetTransfer that carries
    the negative amount. For a non-fungible type with [b - a] other than
    1.0 the residual create violates the [ensure] clause of Asset and
    nothing is committed. *)
Theorem Create_Transfer_negative_amount :
  forall l self acc cid a0 a r,
    reachable l ->
    lookup_cid self (active l) = Some (CAccount acc) ->
    lookup_key (TAsset, (account_asset_type acc, account_owner acc))
      (active l) = Some cid ->
    lookup_cid cid (active l) = Some (CAsset a0) ->
    a < 0 ->
    in_decimal_range (amount a0 - a) = true ->
    a <= amount a0
    /\ (fungible (account_asset_type acc) = true
        \/ amount a0 - a = dec 1 ->
        exists l1,
          submit (account_owner acc) (Create_Transfer self a r) l
          = (Ok (S (next_cid l)), l1)
          /\ assets_at (account_asset_type acc, account_owner acc) l1
             = [mkAsset (account_asset_type acc) (account_owner acc)
                  (amount a0 - a)]
          /\ amount a0 < amount a0 - a
          /\ transfer_at (S (next_cid l)) l1 = Some (mkAssetTransfer a0 r a)
          /\ lookup_cid cid (active l1) = None)
    /\ (fungible (account_asset_type acc) = false ->
        amount a0 - a <> dec 1 ->
        submit (account_owner acc) (Create_Transfer self a r) l
        = (Fail PreconditionFailed, l)).
Proof.
  intros l self acc cid a0 a r Hreach Hself Hkey Hcid Ha Hrange.
  destruct (reachable_inv l Hreach) as [Hwf Hens].
  destruct (lookup_key_asset_fields _ _ _ _ _ Hwf Hkey Hcid) as [Hty _].
  assert (Hpos : 0 <= amount a0).
  { apply lookup_cid_In in Hcid. specialize (Hens _ _ Hcid).
    simpl in Hens. unfold ensure_Asset in Hens.
    destruct (fungible (asset_type a0)).
    - apply Z.ltb_lt in Hens. lia.
    - apply orb_true_iff in Hens. rewrite !Z.eqb_eq in Hens.
      unfold dec in Hens. destruct Hens as [-> | ->]; vm_compute; discriminate. }
  split; [lia|]. split.
  - intros Hok.
    destruct (Create_Transfer_spec l self acc cid a0 a r Hwf Hself Hkey Hcid)
      as (l1 & Hsub & _ & _ & Ht & Hgone & Hat & _).
    + lia.
    + exact Hrange.
    + unfold ensure_Asset. cbn [asset_type amount]. rewrite Hty.
      destruct (fungible (account_asset_type acc)).
      * apply Z.ltb_lt. lia.
      * destruct Hok as [Hok|Hok]; [discriminate|].
        rewrite Hok. now rewrite Z.eqb_refl.
    + exists l1. split; [exact Hsub|]. split; [exact Hat|]. split; [lia|].
      split; [|exact Hgone]. unfold transfer_at. now rewrite Ht.
  - intros Hfun Hne. apply submit_fail.
    rewrite (Create_Transfer_run l self acc cid a0 a r Hwf Hself Hkey Hcid).
    rewrite (proj2 (Z.leb_le a (amount a0))) by lia.
    rewrite Hrange. cbn [negb]. unfold ensure_Asset. cbn [asset_type amount].
    rewrite Hty, Hfun.
    rewrite (proj2 (Z.eqb_neq (amount a0 - a) (dec 1))) by exact Hne.
    rewrite (proj2 (Z.eqb_neq (amount a0 - a) (dec 0)))
      by (change (dec 0) with 0; lia).
    reflexivity.
Qed.

Lemma reachable_ledger_with_bob : reachable ledger_with_bob.
Proof.
  unfold ledger_with_bob, ledger_after_mint.
  repeat apply reach_submit. apply reach_empty.
Qed.

Lemma reachable_ledger_nft : reachable ledger_nft.
Proof.
  unfold ledger_nft. repeat apply reach_submit. apply reach_empty.
Qed.

Lemma reachable_ledger_nft_transfer : reachable ledger_nft_transfer.
Proof. apply reach_submit. exact reachable_ledger_nft. Qed.

Lemma Create_Transfer_negative_amount_witness :
  (assets_at (alice_tkn, alice) ledger_with_bob
   = [mkAsset alice_tkn alice (dec 15)]
   /\ assets_at (alice_tkn, alice)
        (snd (submit alice (Create_Transfer 0%nat (dec (-5)) bob)
                ledger_with_bob))
      = [mkAsset alice_tkn alice (dec 20)]
   /\ dec 15 < dec 20)
  /\ (assets_at (chris_nft, chris) ledger_nft_transfer
      = [mkAsset chris_nft chris (dec 0)]
      /\ exists l1,
           submit chris (Create_Transfer 0%nat (dec (-1)) dianne)
             ledger_nft_transfer = (Ok 8%nat, l1)
           /\ assets_at (chris_nft, chris) l1
              = [mkAsset chris_nft chris (dec 1)]
           /\ transfer_at 8%nat l1
              = Some (mkAssetTransfer (mkAsset chris_nft chris (dec 0))
                        dianne (dec (-1))))
  /\ (assets_at (chris_nft, chris) ledger_nft
      = [mkAsset chris_nft chris (dec 1)]
      /\ submit chris (Create_Transfer 0%nat (dec (-1)) dianne) ledger_nft
         = (Fail PreconditionFailed, ledger_nft)).
Proof.
  split; [|split].
  - split; [vm_compute; reflexivity|].
    assert (Hself : lookup_cid 0%nat (active ledger_with_bob)
                    = Some (CAccount alice_account))
      by (vm_compute; reflexivity).
    destruct (Create_Transfer_negative_amount ledger_with_bob 0%nat
                alice_account 2%nat (mkAsset alice_tkn alice (dec 15))
                (dec (-5)) bob
                reachable_ledger_with_bob Hself)
      as (_ & Hcommit & _);
      [vm_compute; reflexivity | vm_compute; reflexivity | reflexivity
      | vm_compute; reflexivity |].
    destruct (Hcommit (or_introl eq_refl)) as (l1 & Hsub & Hat & Hlt & _).
    assert (E : snd (submit alice (Create_Transfer 0%nat (dec (-5)) bob)
                       ledger_with_bob) = l1)
      by exact (f_equal snd Hsub).
    rewrite E. split; [exact Hat | exact Hlt].
  - split; [vm_compute; reflexivity|].
    assert (Hself : lookup_cid 0%nat (active ledger_nft_transfer)
                    = Some (CAccount chris_account))
      by (vm_compute; reflexivity).
    destruct (Create_Transfer_negative_amount ledger_nft_transfer 0%nat
                chris_account 5%nat (mkAsset chris_nft chris (dec 0))
                (dec (-1)) dianne
                reachable_ledger_nft_transfer Hself)
      as (_ & Hcommit & _);
      [vm_compute; reflexivity | vm_compute; reflexivity | reflexivity
      | vm_compute; reflexivity |].
    destruct (Hcommit (or_intror eq_refl)) as (l1 & Hsub & Hat & _ & Ht & _).
    exists l1. split; [exact Hsub|]. split; [exact Hat | exact Ht].
  - split; [vm_compute; reflexivity|].
    assert (Hself : lookup_cid 0%nat (active ledger_nft)
                    = Some (CAccount chris_account))
      by (vm_compute; reflexivity).
    destruct (Create_Transfer_negative_amount ledger_nft 0%nat
                chris_account 1%nat (mkAsset chris_nft chris (dec 1))
                (dec (-1)) dianne
                reachable_ledger_nft Hself)
      as (_ & _ & Hfail);
      [vm_compute; reflexivity | vm_compute; reflexivity | reflexivity
      | vm_compute; reflexivity |].
    apply Hfail; [reflexivity | vm_compute; discriminate].
Defined.

(** C10 as stated fails for a non-fungible type: Chris holds one NFT;
    Create_Transfer of -1.0 passes the test [amount <= asset.amount], and the
    residual create with amount 2.0 is rejected by the [ensure] clause. *)
Lemma Create_Transfer_negative_nonfungible_fails :
  assets_at (chris_nft, chris) ledger_nft = [mkAsset chris_nft chris (dec 1)]
  /\ dec (-1) < 0
  /\ dec (-1) <= dec 1
  /\ submit chris (Create_Transfer 0%nat (dec (-1)) dianne) ledger_nft
     = (Fail PreconditionFailed, ledger_nft).
Proof.
  split; [vm_compute; reflexivity|].
  split; [reflexivity|].
  split; [discriminate|].
  vm_compute. reflexivity.
Qed.

(** ** Conservation: Create_Transfer followed by Accept_Transfer *)

(** C2 (as the code has it): on a well-formed ledger, let the sender's
    account key hold the Asset [a0] of amount [b], let [a <= b], let the
    recipient differ from the sender and hold the position [p] (0.0 if
    none), let [b - a] and [a + p] be amounts an Asset of this type may
    carry, and let the type be fungible unless the recipient holds no Asset
    of it. Then Create_Transfer by the sender and Accept_Transfer by the
    recipient both commit, the sender's key holds one Asset of amount
    [b - a], the recipient's key one Asset of amount [a + p], and the sum
    of the two positions is as before. *)
Theorem Create_Transfer_Accept_Transfer_conserves :
  forall l self acc a0 a r,
    wf l ->
    lookup_cid self (active l) = Some (CAccount acc) ->
    assets_at (account_asset_type acc, account_owner acc) l = [a0] ->
    a <= amount a0 ->
    r <> account_owner acc ->
    valid_amount (account_asset_type acc) (amount a0 - a) = true ->
    valid_amount (account_asset_type acc)
      (a + position (account_asset_type acc, r) l) = true ->
    fungible (account_asset_type acc) = true
    \/ assets_at (account_asset_type acc, r) l = [] ->
    exists tcid l1 rcid l2,
      submit (account_owner acc) (Create_Transfer self a r) l = (Ok tcid, l1)
      /\ submit r (Accept_Transfer tcid) l1 = (Ok rcid, l2)
      /\ assets_at (account_asset_type acc, account_owner acc) l2
         = [mkAsset (account_asset_type acc) (account_owner acc)
              (amount a0 - a)]
      /\ assets_at (account_asset_type acc, r) l2
         = [mkAsset (account_asset_type acc) r
              (a + position (account_asset_type acc, r) l)]
      /\ position (account_asset_type acc, account_owner acc) l2
         + position (account_asset_type acc, r) l2
         = position (account_asset_type acc, account_owner acc) l
           + position (account_asset_type acc, r) l.
Proof.
  intros l self acc a0 a r Hwf Hself Has Hle Hne Hres Hnew Hfun.
  set (ty := account_asset_type acc) in *.
  set (ow := account_owner acc) in *.
  destruct (position_cases l (ty, ow) Hwf)
    as [(_ & Has' & _)|(cid & a0' & Hkey & Hcid & Hty & Hp & Has' & Hpos)];
    rewrite Has in Has'; [discriminate|]. injection Has' as <-.
  simpl in Hty, Hp.
  destruct (Create_Transfer_spec l self acc cid a0 a r Hwf Hself Hkey Hcid Hle)
    as (l1 & Hsub1 & Hwf1 & Hnext1 & Ht & _ & Hat1 & Hframe1).
  { exact (valid_amount_range _ _ Hres). }
  { rewrite Hty. exact (valid_amount_ensure _ _ _ Hres). }
  fold ty ow in Hat1, Hframe1, Hsub1.
  assert (Hk : (ty, r) <> (ty, ow)) by congruence.
  assert (Hat_r : assets_at (ty, r) l1 = assets_at (ty, r) l)
    by exact (Hframe1 _ Hk).
  assert (Hpos_r : position (ty, r) l1 = position (ty, r) l).
  { unfold position. now rewrite Hat_r. }
  set (t := mkAssetTransfer a0 r a) in *.
  destruct (Accept_Transfer_spec l1 (S (next_cid l)) t Hwf1 Ht)
    as (l2 & Hsub2 & _ & Hat2 & Hframe2 & _ & _);
    simpl asset; simpl recipient; simpl transfer_amount;
    rewrite ?Hty, ?Hpos_r, ?Hat_r.
  { exact Hfun. }
  { exact (valid_amount_range _ _ Hnew). }
  { exact (valid_amount_ensure _ _ _ Hnew). }
  simpl asset in *. simpl recipient in *. simpl transfer_amount in *.
  rewrite Hty, Hpos_r in *.
  assert (Hat_ow : assets_at (ty, ow) l2 = assets_at (ty, ow) l1).
  { apply Hframe2. congruence. }
  exists (S (next_cid l)), l1, (next_cid l1), l2.
  split; [exact Hsub1|]. split; [exact Hsub2|].
  split; [now rewrite Hat_ow|]. split; [exact Hat2|].
  unfold position at 1 2 3. rewrite Hat_ow, Hat1, Hat2, Has. simpl amount.
  lia.
Qed.

Lemma Create_Transfer_Accept_Transfer_conserves_witness :
  assets_at (alice_tkn, alice) ledger_with_bob
  = [mkAsset alice_tkn alice (dec 15)]
  /\ assets_at (alice_tkn, bob) ledger_with_bob = []
  /\ exists l2,
       submit bob (Accept_Transfer 6%nat)
         (snd (submit alice (Create_Transfer 0%nat (dec 5) bob)
                 ledger_with_bob))
       = (Ok 7%nat, l2)
       /\ assets_at (alice_tkn, alice) l2 = [mkAsset alice_tkn alice (dec 10)]
       /\ assets_at (alice_tkn, bob) l2 = [mkAsset alice_tkn bob (dec 5)].
Proof.
  split; [vm_compute; reflexivity|]. split; [vm_compute; reflexivity|].
  assert (Hle : dec 5 <= dec 15) by (vm_compute; discriminate).
  assert (Hne : bob <> alice) by discriminate.
  destruct (Create_Transfer_Accept_Transfer_conserves ledger_with_bob 0%nat
              alice_account (mkAsset alice_tkn alice (dec 15)) (dec 5) bob
              wf_ledger_with_bob eq_refl eq_refl Hle Hne eq_refl eq_refl
              (or_introl eq_refl))
    as (tcid & l1 & rcid & l2 & H1 & H2 & Hs & Hr & _).
  assert (E1 : submit alice (Create_Transfer 0%nat (dec 5) bob) ledger_with_bob
               = (Ok 6%nat, ledger_with_transfer))
    by (vm_compute; reflexivity).
  pose proof (eq_trans (eq_sym E1) H1) as E.
  apply pair_equal_spec in E. destruct E as [Et El].
  injection Et as <-. subst l1.
  assert (E2 : fst (submit bob (Accept_Transfer 6%nat) ledger_with_transfer)
               = Ok 7%nat)
    by (vm_compute; reflexivity).
  rewrite H2 in E2. simpl in E2. injection E2 as ->.
  exists l2. rewrite E1. split; [exact H2|]. split; [exact Hs | exact Hr].
Defined.

(** C2 as stated fails without the provisos. Non-fungible: Chris and
    Dianne hold one NFT each; Chris's Create_Transfer of 1.0 <= 1.0 commits,
    and Dianne's Accept_Transfer is refused by the assertion on her existing
    holding, which stays at 1.0. Fungible: Alice's Create_Transfer of
    0.0 <= 15.0 to Bob, who holds nothing, commits, and Bob's Accept_Transfer
    is refused by the [ensure] clause (amount 0.0), leaving Bob no Asset. *)
Lemma Create_Transfer_Accept_Transfer_can_fail :
  (assets_at (chris_nft, chris) ledger_nft = [mkAsset chris_nft chris (dec 1)]
   /\ dec 1 <= dec 1
   /\ submit chris (Create_Transfer 0%nat (dec 1) dianne) ledger_nft
      = (Ok 6%nat, ledger_nft_transfer)
   /\ submit dianne (Accept_Transfer 6%nat) ledger_nft_transfer
      = (Fail (AssertionFailed msg_accept_nonfungible), ledger_nft_transfer)
   /\ assets_at (chris_nft, dianne) ledger_nft_transfer
      = [mkAsset chris_nft dianne (dec 1)])
  /\ (assets_at (alice_tkn, alice) ledger_with_bob
      = [mkAsset alice_tkn alice (dec 15)]
      /\ dec 0 <= dec 15
      /\ submit alice (Create_Transfer 0%nat (dec 0) bob) ledger_with_bob
         = (Ok 6%nat, ledger_with_zero_transfer)
      /\ submit bob (Accept_Transfer 6%nat) ledger_with_zero_transfer
         = (Fail PreconditionFailed, ledger_with_zero_transfer)
      /\ assets_at (alice_tkn, bob) ledger_with_zero_transfer = []).
Proof.
  repeat split; try discriminate; vm_compute; reflexivity.
Qed.

(** * Further properties of the two modules *)

(** ** Contract keys *)

Lemma keyed_contract_unique s c1 x1 c2 x2 k :
  NoDup (keys s) ->
  In (c1, x1) s -> In (c2, x2) s ->
  key x1 = Some k -> key x2 = Some k ->
  (c1, x1) = (c2, x2).
Proof.
  induction s as [|[c0 x0] s IH]; simpl; [contradiction|].
  intros Hnd H1 H2 Hk1 Hk2.
  assert (Hin : forall c x, In (c, x) s -> key x = Some k -> In k (keys s)).
  { intros c x Hc Hx. apply In_keys. exists c, x. auto. }
  destruct H1 as [E1|H1], H2 as [E2|H2].
  - congruence.
  - injection E1 as -> ->. rewrite Hk1 in Hnd.
    inversion Hnd as [|? ? Hnotin _]; subst.
    exfalso. apply Hnotin. exact (Hin _ _ H2 Hk2).
  - injection E2 as -> ->. rewrite Hk2 in Hnd.
    inversion Hnd as [|? ? Hnotin _]; subst.
    exfalso. apply Hnotin. exact (Hin _ _ H1 Hk1).
  - apply IH; auto. destruct (key x0); [now inversion Hnd | exact Hnd].
Qed.

(** X1: in every ledger reachable by submitted commands no two active
    contracts share a key: two active contracts of a keyed template (Asset,
    AssetHoldingAccount) with the same (asset type, owner) are one and the
    same contract; in particular at most one Asset is active per key. *)
Theorem reachable_keys_unique :
  forall l,
    reachable l ->
    (forall c1 x1 c2 x2 k,
       In (c1, x1) (active l) -> In (c2, x2) (active l) ->
       key x1 = Some k -> key x2 = Some k ->
       c1 = c2 /\ x1 = x2)
    /\ (forall k, (List.length (assets_at k l) <= 1)%nat).
Proof.
  intros l Hreach. destruct (reachable_inv l Hreach) as [Hwf _]. split.
  - intros c1 x1 c2 x2 k H1 H2 Hk1 Hk2.
    pose proof (keyed_contract_unique _ _ _ _ _ _ (wf_keys _ Hwf)
                  H1 H2 Hk1 Hk2) as E.
    injection E as -> ->. auto.
  - intros k.
    destruct (position_cases l k Hwf)
      as [(_ & Has & _)|(cid & a & _ & _ & _ & _ & Has & _)];
      rewrite Has; simpl; lia.
Qed.

Lemma reachable_keys_unique_witness :
  assets_at (alice_tkn, alice) ledger_with_transfer
  = [mkAsset alice_tkn alice (dec 10)]
  /\ (List.length (assets_at (alice_tkn, alice) ledger_with_transfer) <= 1)%nat.
Proof.
  split; [vm_compute; reflexivity|].
  exact (proj2 (reachable_keys_unique ledger_with_transfer
                  reachable_ledger_with_transfer) (alice_tkn, alice)).
Defined.

(** ** Creating an Asset or an account directly *)

Lemma subset_pair_single p q r :
  subset [p; q] [r] = true <-> p = r /\ q = r.
Proof.
  unfold subset, elem. simpl. rewrite !orb_false_r, andb_true_r.
  rewrite andb_true_iff, !String.eqb_eq. tauto.
Qed.

Lemma create_commits_iff x p l :
  (exists r l', submit p (create x) l = (Ok r, l'))
  <-> ensure x = true
      /\ subset (signatory x) [p] = true
      /\ match key x with
         | Some k => lookup_key k (active l) = None
         | None => True
         end.
Proof.
  split.
  - intros (r & l' & H). apply submit_Ok in H. pose proof H as H'.
    apply create_Ok in H. destruct H as (He & Hk & _ & _).
    split; [exact He|]. split; [|exact Hk].
    unfold create in H'. rewrite He in H'. simpl in H'.
    destruct (subset (signatory x) [p]); [reflexivity | discriminate].
  - intros (He & Hs & Hk). eexists. eexists. apply submit_run.
    rewrite (create_run _ _ _ Hs Hk), He. reflexivity.
Qed.

(** X2: an Asset created directly (createCmd) by one party commits exactly
    when that party is both the issuer and the owner, the amount satisfies
    the [ensure] clause and no Asset is active at the key: an issuer cannot
    on its own create an Asset owned by another party. *)
Theorem create_Asset_commits_iff :
  forall p a l,
    (exists r l', submit p (create (CAsset a)) l = (Ok r, l'))
    <-> ensure_Asset a = true
        /\ issuer (asset_type a) = p /\ owner a = p
        /\ lookup_key (TAsset, (asset_type a, owner a)) (active l) = None.
Proof.
  intros p a l. rewrite create_commits_iff. cbn [ensure key signatory].
  unfold signatory_Asset. rewrite subset_pair_single. tauto.
Qed.

(** X3: an AssetHoldingAccount created directly by one party commits
    exactly when that party is both the issuer and the owner and has no
    active account for the asset type; with such an account already active
    the issuer's second create fails as a duplicate key and commits
    nothing. *)
Theorem create_Account_commits_iff :
  forall p acc l,
    ((exists r l', submit p (create (CAccount acc)) l = (Ok r, l'))
     <-> issuer (account_asset_type acc) = p /\ account_owner acc = p
         /\ lookup_key (TAccount, (account_asset_type acc, account_owner acc))
              (active l) = None)
    /\ (issuer (account_asset_type acc) = p -> account_owner acc = p ->
        lookup_key (TAccount, (account_asset_type acc, account_owner acc))
          (active l) <> None ->
        submit p (create (CAccount acc)) l = (Fail DuplicateKey, l)).
Proof.
  intros p acc l. split.
  - rewrite create_commits_iff. cbn [ensure key signatory].
    rewrite subset_pair_single. intuition congruence.
  - intros Hi Ho Hk. apply submit_fail. unfold create.
    cbn [ensure key signatory negb].
    replace (subset _ _) with true
      by (symmetry; apply subset_pair_single; auto).
    cbn [negb].
    destruct (lookup_key _ (active l)); [reflexivity | contradiction].
Qed.

Lemma create_Account_commits_iff_witness :
  submit alice
    (create (CAccount (mkAssetHoldingAccount alice_tkn alice true true)))
    ledger_alice_account
  = (Fail DuplicateKey, ledger_alice_account).
Proof.
  apply (proj2 (create_Account_commits_iff alice
                  (mkAssetHoldingAccount alice_tkn alice true true)
                  ledger_alice_account)).
  - reflexivity.
  - reflexivity.
  - vm_compute. discriminate.
Defined.

(** ** Airdrop: when it commits and how it fails *)

Lemma Airdrop_run_some l self acc cid a0 a :
  wf l ->
  lookup_cid self (active l) = Some (CAccount acc) ->
  lookup_key (TAsset, (account_asset_type acc, account_owner acc)) (active l)
  = Some cid ->
  lookup_cid cid (active l) = Some (CAsset a0) ->
  Airdrop self a [issuer (account_asset_type acc)] l
  = if negb (airdroppable acc
             || String.eqb (issuer (account_asset_type acc))
                  (account_owner acc))
    then Fail (AssertionFailed msg_airdrop_not_accepted)
    else if negb (fungible (account_asset_type acc) || (a =? dec 1))
    then Fail (AssertionFailed msg_airdrop_amount)
    else if negb (fungible (account_asset_type acc))
    then Fail (AssertionFailed msg_airdrop_occupied)
    else if negb (in_decimal_range (a + amount a0))
    then Fail ArithmeticError
    else if negb (ensure_Asset
                    (mkAsset (account_asset_type acc) (account_owner acc)
                       (a + amount a0)))
    then Fail PreconditionFailed
    else Ok (next_cid l,
             mkLedger (S (next_cid l))
               (remove_cid cid (active l)
                ++ [(next_cid l,
                     CAsset (mkAsset (account_asset_type acc)
                               (account_owner acc) (a + amount a0)))])).
Proof.
  intros Hwf Hself Hkey Hcid.
  destruct (lookup_key_asset_fields _ _ _ _ _ Hwf Hkey Hcid) as [Hty Hp].
  unfold Airdrop, exercise. rewrite Hself. simpl as_Account.
  cbv iota beta. authority. simpl signatory.
  unfold assertMsg at 1. unfold bind at 1.
  destruct (airdroppable acc || _); cbn [negb]; [|reflexivity].
  unfold ret at 1. cbv iota beta.
  unfold assertMsg at 1. unfold bind at 1.
  destruct (fungible (account_asset_type acc) || (a =? _));
    cbn [negb]; [|reflexivity].
  unfold ret at 1. cbv iota beta. unfold lookupByKey_Asset.
  rewrite bind_lookupByKey by (simpl; authority; reflexivity).
  rewrite Hkey. simpl isNone. rewrite orb_false_r.
  unfold assertMsg at 1. unfold bind at 1.
  destruct (fungible (account_asset_type acc)); cbn [negb];
    [|reflexivity].
  unfold ret at 1. cbv iota beta. rewrite bind_bind.
  rewrite (bind_fetch_Asset cid a0)
    by (try exact Hcid; unfold signatory_Asset; rewrite Hty; simpl;
        authority; reflexivity).
  rewrite bind_bind.
  rewrite (bind_archive cid (CAsset a0))
    by (try exact Hcid; simpl; unfold signatory_Asset; rewrite Hty, Hp;
        authority; reflexivity).
  change (bind (ret ?v) ?f ?au ?le) with (f v au le). cbv beta.
  rewrite bind_decimal.
  destruct (in_decimal_range _); cbn [negb]; [|reflexivity].
  rewrite create_run.
  - simpl ensure. destruct (ensure_Asset _); reflexivity.
  - simpl. unfold signatory_Asset. simpl. authority. reflexivity.
  - simpl key. simpl active.
    apply lookup_key_remove; [apply (wf_keys _ Hwf) | exact Hkey].
Qed.

Lemma Airdrop_run_none l self acc a :
  lookup_cid self (active l) = Some (CAccount acc) ->
  lookup_key (TAsset, (account_asset_type acc, account_owner acc)) (active l)
  = None ->
  Airdrop self a [issuer (account_asset_type acc)] l
  = if negb (airdroppable acc
             || String.eqb (issuer (account_asset_type acc))
                  (account_owner acc))
    then Fail (AssertionFailed msg_airdrop_not_accepted)
    else if negb (fungible (account_asset_type acc) || (a =? dec 1))
    then Fail (AssertionFailed msg_airdrop_amount)
    else if negb (in_decimal_range (a + dec 0))
    then Fail ArithmeticError
    else if negb (ensure_Asset
                    (mkAsset (account_asset_type acc) (account_owner acc)
                       (a + dec 0)))
    then Fail PreconditionFailed
    else Ok (next_cid l,
             mkLedger (S (next_cid l))
               (active l
                ++ [(next_cid l,
                     CAsset (mkAsset (account_asset_type acc)
                               (account_owner acc) (a + dec 0)))])).
Proof.
  intros Hself Hkey.
  unfold Airdrop, exercise. rewrite Hself. simpl as_Account.
  cbv iota beta. authority. simpl signatory.
  unfold assertMsg at 1. unfold bind at 1.
  destruct (airdroppable acc || _); cbn [negb]; [|reflexivity].
  unfold ret at 1. cbv iota beta.
  unfold assertMsg at 1. unfold bind at 1.
  destruct (fungible (account_asset_type acc) || (a =? _));
    cbn [negb]; [|reflexivity].
  unfold ret at 1. cbv iota beta. unfold lookupByKey_Asset.
  rewrite bind_lookupByKey by (simpl; authority; reflexivity).
  rewrite Hkey. simpl isNone. rewrite orb_true_r.
  unfold assertMsg at 1.
  change (bind (ret ?v) ?f ?au ?le) with (f v au le). cbv beta.
  change (bind (ret ?v) ?f ?au ?le) with (f v au le). cbv beta.
  rewrite bind_decimal.
  destruct (in_decimal_range _); cbn [negb]; [|reflexivity].
  rewrite create_run.
  - simpl ensure. destruct (ensure_Asset _); reflexivity.
  - simpl. unfold signatory_Asset. simpl. authority. reflexivity.
  - simpl key. exact Hkey.
Qed.

Lemma valid_amount_intro ty p x :
  in_decimal_range x = true -> ensure_Asset (mkAsset ty p x) = true ->
  valid_amount ty x = true.
Proof. intros Hr He. unfold valid_amount. rewrite Hr. exact He. Qed.

Lemma airdrop_accepted_iff acc :
  airdroppable acc
  || String.eqb (issuer (account_asset_type acc)) (account_owner acc) = true
  <-> airdroppable acc = true
      \/ issuer (account_asset_type acc) = account_owner acc.
Proof. now rewrite orb_true_iff, String.eqb_eq. Qed.

(** X4: on a well-formed ledger, Airdrop of amount [a] submitted by the
    issuer on an active account commits exactly when the account is
    airdroppable or the issuer's own, the asset type is fungible or else
    [a] is 1.0 and the account holds no Asset, and [a] plus the position held
    is an amount an Asset of the type may carry. An issuer can thus put an
    Asset into another party's airdroppable account without that party
    submitting anything. *)
Theorem Airdrop_commits_iff :
  forall l self acc a,
    wf l ->
    lookup_cid self (active l) = Some (CAccount acc) ->
    (exists r l',
       submit (issuer (account_asset_type acc)) (Airdrop self a) l
       = (Ok r, l'))
    <-> (airdroppable acc = true
         \/ issuer (account_asset_type acc) = account_owner acc)
        /\ (fungible (account_asset_type acc) = true
            \/ (a = dec 1
                /\ assets_at (account_asset_type acc, account_owner acc) l
                   = []))
        /\ valid_amount (account_asset_type acc)
             (a + position (account_asset_type acc, account_owner acc) l)
           = true.
Proof.
  intros l self acc a Hwf Hself.
  rewrite <- airdrop_accepted_iff.
  destruct (position_cases l (account_asset_type acc, account_owner acc) Hwf)
    as [(Hnone & Has & Hpos)|(cid & a0 & Hsome & Hcid & _ & _ & Has & Hpos)];
    rewrite Has, Hpos.
  - pose proof (Airdrop_run_none l self acc a Hself Hnone) as Hrun. split.
    + intros (r & l' & H). apply submit_Ok in H. rewrite H in Hrun.
      destruct (airdroppable acc || _); cbn [negb] in Hrun; [|discriminate].
      destruct (fungible (account_asset_type acc) || (a =? dec 1)) eqn:Hc2;
        cbn [negb] in Hrun; [|discriminate].
      destruct (in_decimal_range _) eqn:Hr; cbn [negb] in Hrun;
        [|discriminate].
      destruct (ensure_Asset _) eqn:He; cbn [negb] in Hrun; [|discriminate].
      split; [reflexivity|]. split; [|exact (valid_amount_intro _ _ _ Hr He)].
      apply orb_true_iff in Hc2. rewrite Z.eqb_eq in Hc2. tauto.
    + intros (Hc1 & Hc2 & Hv). eexists. eexists. apply submit_run.
      rewrite Hrun, Hc1. cbn [negb].
      replace (fungible (account_asset_type acc) || (a =? dec 1)) with true.
      * cbn [negb]. rewrite (valid_amount_range _ _ Hv).
        rewrite (valid_amount_ensure _ _ _ Hv). reflexivity.
      * symmetry. apply orb_true_iff. rewrite Z.eqb_eq. tauto.
  - pose proof (Airdrop_run_some l self acc cid a0 a Hwf Hself Hsome Hcid)
      as Hrun. split.
    + intros (r & l' & H). apply submit_Ok in H. rewrite H in Hrun.
      destruct (airdroppable acc || _); cbn [negb] in Hrun; [|discriminate].
      destruct (fungible (account_asset_type acc) || (a =? dec 1));
        cbn [negb] in Hrun; [|discriminate].
      destruct (fungible (account_asset_type acc)); cbn [negb] in Hrun;
        [|discriminate].
      destruct (in_decimal_range _) eqn:Hr; cbn [negb] in Hrun;
        [|discriminate].
      destruct (ensure_Asset _) eqn:He; cbn [negb] in Hrun; [|discriminate].
      split; [reflexivity|]. split; [now left|].
      exact (valid_amount_intro _ _ _ Hr He).
    + intros (Hc1 & [Hfun|[_ Hempty]] & Hv); [|discriminate].
      eexists. eexists. apply submit_run.
      rewrite Hrun, Hc1, Hfun. cbn [negb orb].
      rewrite (valid_amount_range _ _ Hv).
      rewrite (valid_amount_ensure _ _ _ Hv). reflexivity.
Qed.

Lemma wf_ledger_bob_dianne : wf ledger_bob_dianne.
Proof. wf_by_computation. Qed.

Lemma wf_ledger_nft : wf ledger_nft.
Proof. wf_by_computation. Qed.

Lemma Airdrop_commits_iff_witness :
  assets_at (bob_tkn, dianne) ledger_bob_dianne = []
  /\ exists r l',
       submit bob (Airdrop 2%nat (dec 20)) ledger_bob_dianne = (Ok r, l').
Proof.
  split; [vm_compute; reflexivity|].
  apply (proj2 (Airdrop_commits_iff ledger_bob_dianne 2%nat
                  (mkAssetHoldingAccount bob_tkn dianne true true) (dec 20)
                  wf_ledger_bob_dianne eq_refl)).
  split; [left; reflexivity|]. split; [left; reflexivity|].
  vm_compute. reflexivity.
Defined.

(** X5: on a well-formed ledger, for an account of a non-fungible type
    that accepts the issuer's airdrop, any amount other than 1.0 is refused
    with the assertion on the amount; 1.0 into an account that already
    holds an Asset is refused with the assertion on the occupied account;
    1.0 into an empty account commits and leaves one Asset of amount 1.0.
    A refused airdrop commits nothing. *)
Theorem Airdrop_nonfungible :
  forall l self acc a,
    wf l ->
    lookup_cid self (active l) = Some (CAccount acc) ->
    fungible (account_asset_type acc) = false ->
    airdroppable acc = true
    \/ issuer (account_asset_type acc) = account_owner acc ->
    (a <> dec 1 ->
     submit (issuer (account_asset_type acc)) (Airdrop self a) l
     = (Fail (AssertionFailed msg_airdrop_amount), l))
    /\ (a = dec 1 ->
        assets_at (account_asset_type acc, account_owner acc) l <> [] ->
        submit (issuer (account_asset_type acc)) (Airdrop self a) l
        = (Fail (AssertionFailed msg_airdrop_occupied), l))
    /\ (a = dec 1 ->
        assets_at (account_asset_type acc, account_owner acc) l = [] ->
        exists l',
          submit (issuer (account_asset_type acc)) (Airdrop self a) l
          = (Ok (next_cid l), l')
          /\ assets_at (account_asset_type acc, account_owner acc) l'
             = [mkAsset (account_asset_type acc) (account_owner acc)
                  (dec 1)]).
Proof.
  intros l self acc a Hwf Hself Hfun Hc1.
  apply airdrop_accepted_iff in Hc1.
  destruct (position_cases l (account_asset_type acc, account_owner acc) Hwf)
    as [(Hnone & Has & Hpos)|(cid & a0 & Hsome & Hcid & _ & _ & Has & Hpos)];
    rewrite Has.
  - pose proof (Airdrop_run_none l self acc a Hself Hnone) as Hrun.
    rewrite Hc1, Hfun in Hrun. cbn [negb orb] in Hrun.
    split; [|split].
    + intros Ha. apply submit_fail. rewrite Hrun.
      now rewrite (proj2 (Z.eqb_neq a (dec 1)) Ha).
    + intros _ H. now contradiction H.
    + intros -> _. eexists. split.
      * apply submit_run. rewrite Hrun. vm_compute Z.eqb. cbn [negb].
        change (in_decimal_range (dec 1 + dec 0)) with true. cbn [negb].
        unfold ensure_Asset. cbn [asset_type amount]. rewrite Hfun.
        change (dec 1 + dec 0 =? dec 1) with true. reflexivity.
      * unfold assets_at. cbn [active].
        now rewrite (assets_in_add _ _ _ _ Hnone).
  - pose proof (Airdrop_run_some l self acc cid a0 a Hwf Hself Hsome Hcid)
      as Hrun.
    rewrite Hc1, Hfun in Hrun. cbn [negb orb] in Hrun.
    split; [|split].
    + intros Ha. apply submit_fail. rewrite Hrun.
      now rewrite (proj2 (Z.eqb_neq a (dec 1)) Ha).
    + intros -> _. apply submit_fail. rewrite Hrun. reflexivity.
    + intros _ H. discriminate.
Qed.

Lemma Airdrop_nonfungible_witness :
  submit chris (Airdrop 3%nat (dec 20)) ledger_nft
  = (Fail (AssertionFailed msg_airdrop_amount), ledger_nft)
  /\ submit chris (Airdrop 3%nat (dec 1)) ledger_nft
     = (Fail (AssertionFailed msg_airdrop_occupied), ledger_nft).
Proof.
  destruct (Airdrop_nonfungible ledger_nft 3%nat
              (mkAssetHoldingAccount chris_nft dianne true true) (dec 20)
              wf_ledger_nft eq_refl eq_refl (or_introl eq_refl))
    as (H20 & _ & _).
  destruct (Airdrop_nonfungible ledger_nft 3%nat
              (mkAssetHoldingAccount chris_nft dianne true true) (dec 1)
              wf_ledger_nft eq_refl eq_refl (or_introl eq_refl))
    as (_ & H1 & _).
  split.
  - apply H20. vm_compute. discriminate.
  - apply H1; [reflexivity | vm_compute; discriminate].
Defined.

(** ** Create_Transfer: when it commits and how it fails *)

Lemma Create_Transfer_run_none l self acc a r :
  lookup_cid self (active l) = Some (CAccount acc) ->
  lookup_key (TAsset, (account_asset_type acc, account_owner acc)) (active l)
  = None ->
  Create_Transfer self a r [account_owner acc] l
  = Fail (AssertionFailed msg_not_enough_funds).
Proof.
  intros Hself Hkey.
  unfold Create_Transfer, exercise. rewrite Hself. simpl as_Account.
  cbv iota beta. authority. unfold lookupByKey_Asset.
  rewrite bind_lookupByKey by (simpl; authority; reflexivity).
  rewrite Hkey. reflexivity.
Qed.

(** X6: on a well-formed ledger, Create_Transfer submitted by the owner of
    an active account fails with the assertion on the funds exactly when
    the account holds no Asset or the amount asked exceeds the amount
    held. *)
Theorem Create_Transfer_not_enough_funds_iff :
  forall l self acc a r,
    wf l ->
    lookup_cid self (active l) = Some (CAccount acc) ->
    fst (submit (account_owner acc) (Create_Transfer self a r) l)
    = Fail (AssertionFailed msg_not_enough_funds)
    <-> assets_at (account_asset_type acc, account_owner acc) l = []
        \/ position (account_asset_type acc, account_owner acc) l < a.
Proof.
  intros l self acc a r Hwf Hself. unfold submit.
  destruct (position_cases l (account_asset_type acc, account_owner acc) Hwf)
    as [(Hnone & Has & Hpos)|(cid & a0 & Hsome & Hcid & _ & _ & Has & Hpos)];
    rewrite Has, Hpos.
  - rewrite (Create_Transfer_run_none l self acc a r Hself Hnone). simpl.
    tauto.
  - rewrite (Create_Transfer_run l self acc cid a0 a r Hwf Hself Hsome Hcid).
    destruct (Z.leb_spec a (amount a0)) as [Hle|Hgt]; cbn [negb].
    + destruct (in_decimal_range _); cbn [negb];
        [destruct (ensure_Asset _); cbn [negb]|]; cbn [fst];
        (split; [discriminate | intros [H|H]; [discriminate | lia]]).
    + cbn [fst]. split; [right; exact Hgt | reflexivity].
Qed.

Lemma Create_Transfer_not_enough_funds_iff_witness :
  position (alice_tkn, alice) ledger_with_bob = dec 15
  /\ fst (submit alice (Create_Transfer 0%nat (dec 16) bob) ledger_with_bob)
     = Fail (AssertionFailed msg_not_enough_funds)
  /\ fst (submit bob (Create_Transfer 4%nat (dec 1) alice) ledger_with_bob)
     = Fail (AssertionFailed msg_not_enough_funds).
Proof.
  split; [vm_compute; reflexivity|]. split.
  - apply (proj2 (Create_Transfer_not_enough_funds_iff ledger_with_bob 0%nat
                    alice_account (dec 16) bob wf_ledger_with_bob eq_refl)).
    right. vm_compute. reflexivity.
  - apply (proj2 (Create_Transfer_not_enough_funds_iff ledger_with_bob 4%nat
                    (mkAssetHoldingAccount alice_tkn bob false true)
                    (dec 1) alice wf_ledger_with_bob eq_refl)).
    left. vm_compute. reflexivity.
Defined.

(** X7: on a well-formed ledger, Create_Transfer of amount [a] submitted
    by the owner of an active account commits exactly when the account
    holds an Asset [a0] with [a <= a0.amount] whose remainder is an amount an
    Asset of the type may carry. It then leaves the remainder as the one
    Asset at the sender's key, every other key as it was, and a new
    AssetTransfer that names the recipient, the amount [a] and, as its asset
    snapshot, the whole Asset [a0] the sender held before; the remainder
    plus [a] is the amount held before. *)
Theorem Create_Transfer_commits_iff :
  forall l self acc a r,
    wf l ->
    lookup_cid self (active l) = Some (CAccount acc) ->
    ((exists tcid l1,
        submit (account_owner acc) (Create_Transfer self a r) l
        = (Ok tcid, l1))
     <-> exists a0,
           assets_at (account_asset_type acc, account_owner acc) l = [a0]
           /\ a <= amount a0
           /\ valid_amount (account_asset_type acc) (amount a0 - a) = true)
    /\ (forall tcid l1 a0,
          submit (account_owner acc) (Create_Transfer self a r) l
          = (Ok tcid, l1) ->
          assets_at (account_asset_type acc, account_owner acc) l = [a0] ->
          transfer_at tcid l1 = Some (mkAssetTransfer a0 r a)
          /\ assets_at (account_asset_type acc, account_owner acc) l1
             = [mkAsset (account_asset_type acc) (account_owner acc)
                  (amount a0 - a)]
          /\ (forall k, k <> (account_asset_type acc, account_owner acc) ->
                assets_at k l1 = assets_at k l)
          /\ position (account_asset_type acc, account_owner acc) l1 + a
             = position (account_asset_type acc, account_owner acc) l).
Proof.
  intros l self acc a r Hwf Hself.
  destruct (position_cases l (account_asset_type acc, account_owner acc) Hwf)
    as [(Hnone & Has & Hpos)|(cid & a0 & Hsome & Hcid & Hty & Hp & Has & Hpos)].
  - pose proof (Create_Transfer_run_none l self acc a r Hself Hnone) as Hrun.
    split.
    + split.
      * intros (tcid & l1 & H). apply submit_Ok in H. congruence.
      * intros (a0 & H & _). congruence.
    + intros tcid l1 a0 H. apply submit_Ok in H. congruence.
  - pose proof (Create_Transfer_run l self acc cid a0 a r Hwf Hself Hsome Hcid)
      as Hrun.
    simpl in Hty, Hp.
    assert (Hcond :
      forall tcid l1,
        submit (account_owner acc) (Create_Transfer self a r) l
        = (Ok tcid, l1) ->
        a <= amount a0
        /\ in_decimal_range (amount a0 - a) = true
        /\ ensure_Asset (mkAsset (asset_type a0) (owner a0) (amount a0 - a))
           = true).
    { intros tcid l1 H. apply submit_Ok in H. rewrite H in Hrun.
      destruct (Z.leb_spec a (amount a0)); cbn [negb] in Hrun;
        [|discriminate].
      destruct (in_decimal_range _); cbn [negb] in Hrun; [|discriminate].
      destruct (ensure_Asset _); cbn [negb] in Hrun; [|discriminate].
      auto. }
    split.
    + split.
      * intros (tcid & l1 & H). destruct (Hcond _ _ H) as (Hle & Hr & He).
        exists a0. split; [exact Has|]. split; [exact Hle|].
        rewrite Hty in He. exact (valid_amount_intro _ _ _ Hr He).
      * intros (a0' & Has' & Hle & Hv). rewrite Has in Has'.
        injection Has' as <-.
        destruct (Create_Transfer_spec l self acc cid a0 a r
                    Hwf Hself Hsome Hcid Hle)
          as (l1 & Hsub & _).
        -- exact (valid_amount_range _ _ Hv).
        -- rewrite Hty. exact (valid_amount_ensure _ _ _ Hv).
        -- eexists. eexists. exact Hsub.
    + intros tcid l1 a0' H Has'. rewrite Has in Has'. injection Has' as <-.
      destruct (Hcond _ _ H) as (Hle & Hr & He).
      destruct (Create_Transfer_spec l self acc cid a0 a r
                  Hwf Hself Hsome Hcid Hle Hr He)
        as (l1' & Hsub & _ & _ & Ht & _ & Hat & Hframe).
      rewrite H in Hsub. apply pair_equal_spec in Hsub.
      destruct Hsub as [Hc <-]. injection Hc as ->.
      split; [unfold transfer_at; now rewrite Ht|].
      split; [exact Hat|]. split; [exact Hframe|].
      rewrite Hpos. unfold position. rewrite Hat. cbn [amount]. lia.
Qed.

Lemma Create_Transfer_commits_iff_witness :
  exists tcid l1,
    submit alice (Create_Transfer 0%nat (dec 5) bob) ledger_with_bob
    = (Ok tcid, l1).
Proof.
  apply (proj1 (Create_Transfer_commits_iff ledger_with_bob 0%nat
                  alice_account (dec 5) bob wf_ledger_with_bob eq_refl)).
  exists (mkAsset alice_tkn alice (dec 15)).
  split; [vm_compute; reflexivity|].
  split; [vm_compute; discriminate | vm_compute; reflexivity].
Defined.

(** ** Cancel_Transfer *)

Lemma Cancel_Transfer_run_some l self t cid a0 :
  wf l ->
  lookup_cid self (active l) = Some (CAssetTransfer t) ->
  lookup_key (TAsset, (asset_type (asset t), owner (asset t))) (active l)
  = Some cid ->
  lookup_cid cid (active l) = Some (CAsset a0) ->
  Cancel_Transfer self [owner (asset t)] l
  = if negb (in_decimal_range (transfer_amount t + amount a0))
    then Fail ArithmeticError
    else if negb (ensure_Asset
                    (mkAsset (asset_type (asset t)) (owner (asset t))
                       (transfer_amount t + amount a0)))
    then Fail PreconditionFailed
    else Ok (next_cid l,
             mkLedger (S (next_cid l))
               (remove_cid cid (remove_cid self (active l))
                ++ [(next_cid l,
                     CAsset (mkAsset (asset_type (asset t)) (owner (asset t))
                               (transfer_amount t + amount a0)))])).
Proof.
  intros Hwf Hself Hkey Hcid.
  destruct (lookup_key_asset_fields _ _ _ _ _ Hwf Hkey Hcid) as [Hty Hp].
  assert (Hne : cid <> self) by (intros ->; congruence).
  assert (Hkey1 :
    lookup_key (TAsset, (asset_type (asset t), owner (asset t)))
      (remove_cid self (active l)) = Some cid).
  { rewrite (lookup_key_remove_other _ self (CAssetTransfer t) _
               (wf_cids _ Hwf) Hself) by discriminate.
    exact Hkey. }
  assert (Hcid1 : lookup_cid cid (remove_cid self (active l))
                  = Some (CAsset a0)).
  { now rewrite lookup_cid_remove_other. }
  unfold Cancel_Transfer, exercise. rewrite Hself. simpl as_AssetTransfer.
  cbv iota beta. authority. simpl signatory. unfold signatory_Asset.
  unfold lookupByKey_Asset.
  rewrite bind_lookupByKey by (simpl; authority; reflexivity).
  simpl active. rewrite Hkey1. rewrite bind_bind.
  rewrite (bind_fetch_Asset cid a0)
    by (try exact Hcid1; unfold signatory_Asset; rewrite Hty; simpl;
        authority; reflexivity).
  rewrite bind_bind.
  rewrite (bind_archive cid (CAsset a0))
    by (try exact Hcid1; simpl; unfold signatory_Asset; rewrite Hty, Hp;
        authority; reflexivity).
  change (bind (ret ?v) ?f ?au ?le) with (f v au le). cbv beta.
  rewrite bind_decimal.
  destruct (in_decimal_range _); cbn [negb]; [|reflexivity].
  rewrite create_run.
  - simpl ensure. destruct (ensure_Asset _); reflexivity.
  - simpl. unfold signatory_Asset. simpl. authority. reflexivity.
  - simpl key. simpl active.
    apply lookup_key_remove; [|exact Hkey1].
    apply NoDup_keys_remove, (wf_keys _ Hwf).
Qed.

Lemma Cancel_Transfer_run_none l self t :
  wf l ->
  lookup_cid self (active l) = Some (CAssetTransfer t) ->
  lookup_key (TAsset, (asset_type (asset t), owner (asset t))) (active l)
  = None ->
  Cancel_Transfer self [owner (asset t)] l
  = if negb (in_decimal_range (transfer_amount t + dec 0))
    then Fail ArithmeticError
    else if negb (ensure_Asset
                    (mkAsset (asset_type (asset t)) (owner (asset t))
                       (transfer_amount t + dec 0)))
    then Fail PreconditionFailed
    else Ok (next_cid l,
             mkLedger (S (next_cid l))
               (remove_cid self (active l)
                ++ [(next_cid l,
                     CAsset (mkAsset (asset_type (asset t)) (owner (asset t))
                               (transfer_amount t + dec 0)))])).
Proof.
  intros Hwf Hself Hkey.
  assert (Hkey1 :
    lookup_key (TAsset, (asset_type (asset t), owner (asset t)))
      (remove_cid self (active l)) = None)
    by now apply lookup_key_remove_None.
  unfold Cancel_Transfer, exercise. rewrite Hself. simpl as_AssetTransfer.
  cbv iota beta. authority. simpl signatory. unfold signatory_Asset.
  unfold lookupByKey_Asset.
  rewrite bind_lookupByKey by (simpl; authority; reflexivity).
  simpl active. rewrite Hkey1.
  change (bind (ret ?v) ?f ?au ?le) with (f v au le). cbv beta.
  rewrite bind_decimal.
  destruct (in_decimal_range _); cbn [negb]; [|reflexivity].
  rewrite create_run.
  - simpl ensure. destruct (ensure_Asset _); reflexivity.
  - simpl. unfold signatory_Asset. simpl. authority. reflexivity.
  - simpl key. simpl active. exact Hkey1.
Qed.

(** What a committed Cancel_Transfer leaves. *)
Lemma Cancel_Transfer_spec l self t :
  wf l ->
  lookup_cid self (active l) = Some (CAssetTransfer t) ->
  valid_amount (asset_type (asset t))
    (transfer_amount t + position (asset_type (asset t), owner (asset t)) l)
  = true ->
  exists l',
    submit (owner (asset t)) (Cancel_Transfer self) l = (Ok (next_cid l), l')
    /\ wf l'
    /\ assets_at (asset_type (asset t), owner (asset t)) l'
       = [mkAsset (asset_type (asset t)) (owner (asset t))
            (transfer_amount t
             + position (asset_type (asset t), owner (asset t)) l)]
    /\ (forall k, k <> (asset_type (asset t), owner (asset t)) ->
          assets_at k l' = assets_at k l)
    /\ lookup_cid self (active l') = None
    /\ (forall cid,
          lookup_key (TAsset, (asset_type (asset t), owner (asset t)))
            (active l) = Some cid ->
          lookup_cid cid (active l') = None).
Proof.
  intros Hwf Hself Hv.
  pose proof (valid_amount_range _ _ Hv) as Hrange.
  pose proof (valid_amount_ensure _ (owner (asset t)) _ Hv) as Hens.
  clear Hv.
  set (k := (asset_type (asset t), owner (asset t))) in *.
  pose proof (wf_fresh_cid _ Hwf) as Hnew.
  assert (Hself_lt : (self < next_cid l)%nat).
  { apply lookup_cid_In in Hself. exact (wf_fresh _ Hwf _ _ Hself). }
  set (l0 := mkLedger (next_cid l) (remove_cid self (active l))).
  assert (Hwf0 : wf l0) by now apply wf_remove.
  assert (Hframe0 : forall k', assets_in k' (remove_cid self (active l))
                               = assets_in k' (active l)).
  { intros k'. apply (assets_in_remove_other k' self (CAssetTransfer t));
      [apply (wf_cids _ Hwf) | exact Hself | discriminate]. }
  destruct (position_cases l k Hwf)
    as [(Hnone & Has & Hpos)|(cid & a0 & Hsome & Hcid & Hty & Hp & Has & Hpos)];
    rewrite Hpos in *.
  - pose proof (Cancel_Transfer_run_none l self t Hwf Hself Hnone) as Hrun.
    rewrite Hrange, Hens in Hrun. simpl in Hrun.
    eexists. split; [apply submit_run; exact Hrun|].
    assert (Hnone0 : lookup_key (TAsset, k) (active l0) = None)
      by now apply lookup_key_remove_None.
    split; [apply (wf_append l0); [exact Hwf0 | exact Hnone0]|].
    split; [unfold assets_at; simpl active; now apply assets_in_add|].
    split; [|split].
    + intros k' Hk'. unfold assets_at. simpl active.
      rewrite assets_in_app, Hframe0.
      rewrite assets_in_other by (simpl; fold k; congruence).
      apply app_nil_r.
    + simpl active. rewrite lookup_cid_app, lookup_cid_remove_same.
      cbn [lookup_cid].
      now rewrite (proj2 (Nat.eqb_neq (next_cid l) self)) by lia.
    + intros cid Hc. congruence.
  - assert (Hne : cid <> self) by (intros ->; congruence).
    assert (Hcid_lt : (cid < next_cid l)%nat).
    { apply lookup_cid_In in Hcid. exact (wf_fresh _ Hwf _ _ Hcid). }
    pose proof (Cancel_Transfer_run_some l self t cid a0 Hwf Hself Hsome Hcid)
      as Hrun.
    rewrite Hrange, Hens in Hrun. simpl in Hrun.
    eexists. split; [apply submit_run; exact Hrun|].
    assert (Hsome0 : lookup_key (TAsset, k) (active l0) = Some cid).
    { simpl. rewrite (lookup_key_remove_other _ self (CAssetTransfer t) _
                        (wf_cids _ Hwf) Hself) by discriminate.
      exact Hsome. }
    assert (Hcid0 : lookup_cid cid (active l0) = Some (CAsset a0)).
    { simpl. now rewrite lookup_cid_remove_other. }
    split.
    { apply (wf_append (mkLedger (next_cid l0) (remove_cid cid (active l0)))).
      - now apply wf_remove.
      - simpl key. simpl active.
        apply lookup_key_remove; [apply (wf_keys _ Hwf0) | exact Hsome0]. }
    split.
    { unfold assets_at. simpl active.
      apply (assets_in_replace k cid (active l0));
        [apply (wf_keys _ Hwf0) | exact Hsome0 | reflexivity | reflexivity]. }
    split; [|split].
    + intros k' Hk'. unfold assets_at. simpl active.
      rewrite assets_in_app.
      change (remove_cid self (active l)) with (active l0).
      rewrite (assets_in_remove_other k' cid (CAsset a0) _
                 (wf_cids _ Hwf0) Hcid0)
        by (unfold k in *; simpl in *; congruence).
      simpl active. rewrite Hframe0.
      rewrite assets_in_other by (simpl; fold k; congruence).
      apply app_nil_r.
    + simpl active. rewrite lookup_cid_app.
      rewrite lookup_cid_remove_other by auto.
      rewrite lookup_cid_remove_same. cbn [lookup_cid].
      now rewrite (proj2 (Nat.eqb_neq (next_cid l) self)) by lia.
    + intros c Hc. rewrite Hsome in Hc.
      injection Hc as <-. simpl active.
      rewrite lookup_cid_app, lookup_cid_remove_same. cbn [lookup_cid].
      now rewrite (proj2 (Nat.eqb_neq (next_cid l) cid)) by lia.
Qed.

(** X8: on a well-formed ledger, Cancel_Transfer submitted by the owner
    named in the asset snapshot of an active transfer commits exactly when
    the transferred amount plus the position the owner holds is an amount an
    Asset of the type may carry; the asset type need not be fungible. It
    then leaves one Asset at the owner's key, with that sum as amount, every
    other key as it was, and the transfer is no longer active. *)
Theorem Cancel_Transfer_commits_iff :
  forall l self t,
    wf l ->
    lookup_cid self (active l) = Some (CAssetTransfer t) ->
    ((exists r l',
        submit (owner (asset t)) (Cancel_Transfer self) l = (Ok r, l'))
     <-> valid_amount (asset_type (asset t))
           (transfer_amount t
            + position (asset_type (asset t), owner (asset t)) l) = true)
    /\ (forall r l',
          submit (owner (asset t)) (Cancel_Transfer self) l = (Ok r, l') ->
          assets_at (asset_type (asset t), owner (asset t)) l'
          = [mkAsset (asset_type (asset t)) (owner (asset t))
               (transfer_amount t
                + position (asset_type (asset t), owner (asset t)) l)]
          /\ (forall k, k <> (asset_type (asset t), owner (asset t)) ->
                assets_at k l' = assets_at k l)
          /\ transfer_at self l' = None).
Proof.
  intros l self t Hwf Hself.
  assert (Hvalid :
    forall r l',
      submit (owner (asset t)) (Cancel_Transfer self) l = (Ok r, l') ->
      valid_amount (asset_type (asset t))
        (transfer_amount t
         + position (asset_type (asset t), owner (asset t)) l) = true).
  { intros r l' H. apply submit_Ok in H.
    destruct (position_cases l (asset_type (asset t), owner (asset t)) Hwf)
      as [(Hnone & _ & Hpos)|(cid & a0 & Hsome & Hcid & _ & _ & _ & Hpos)];
      rewrite Hpos.
    - rewrite (Cancel_Transfer_run_none l self t Hwf Hself Hnone) in H.
      destruct (in_decimal_range _) eqn:Hr; cbn [negb] in H; [|discriminate].
      destruct (ensure_Asset _) eqn:He; cbn [negb] in H; [|discriminate].
      exact (valid_amount_intro _ _ _ Hr He).
    - rewrite (Cancel_Transfer_run_some l self t cid a0 Hwf Hself Hsome Hcid)
        in H.
      destruct (in_decimal_range _) eqn:Hr; cbn [negb] in H; [|discriminate].
      destruct (ensure_Asset _) eqn:He; cbn [negb] in H; [|discriminate].
      exact (valid_amount_intro _ _ _ Hr He). }
  split.
  - split.
    + intros (r & l' & H). exact (Hvalid _ _ H).
    + intros Hv. destruct (Cancel_Transfer_spec l self t Hwf Hself Hv)
        as (l' & Hsub & _). eexists. eexists. exact Hsub.
  - intros r l' H.
    destruct (Cancel_Transfer_spec l self t Hwf Hself (Hvalid _ _ H))
      as (l'' & Hsub & _ & Hat & Hframe & Hgone & _).
    rewrite H in Hsub. apply pair_equal_spec in Hsub.
    destruct Hsub as [_ <-].
    split; [exact Hat|]. split; [exact Hframe|].
    unfold transfer_at. now rewrite Hgone.
Qed.

Lemma Cancel_Transfer_commits_iff_witness :
  exists r l',
    submit alice (Cancel_Transfer 6%nat) ledger_with_transfer = (Ok r, l').
Proof.
  apply (proj1 (Cancel_Transfer_commits_iff ledger_with_transfer 6%nat
                  (mkAssetTransfer (mkAsset alice_tkn alice (dec 15)) bob
                     (dec 5))
                  wf_ledger_with_transfer eq_refl)).
  vm_compute. reflexivity.
Defined.

Lemma asset_key_eq_dec (k k' : AssetType * Party) : k = k' \/ k <> k'.
Proof.
  destruct (Key_eqb (TAsset, k) (TAsset, k')) eqn:E.
  - left. apply Key_eqb_eq in E. congruence.
  - right. intros ->. rewrite Key_eqb_refl in E. discriminate.
Qed.

Lemma asset_eta a : mkAsset (asset_type a) (owner a) (amount a) = a.
Proof. now destruct a. Qed.

(** X9: on a well-formed ledger, a committed Create_Transfer followed by
    the sender's Cancel_Transfer of the transfer it created gives every key
    back the Assets it had: the sender again holds one Asset with the amount
    held before, whatever the asset type, and the transfer is gone. Both
    steps commit whenever the account holds an Asset [a0], [a <= a0.amount],
    and both the remainder and [a0.amount] are amounts an Asset of the type
    may carry. *)
Theorem Create_Transfer_Cancel_Transfer_restores :
  forall l self acc a0 a r,
    wf l ->
    lookup_cid self (active l) = Some (CAccount acc) ->
    assets_at (account_asset_type acc, account_owner acc) l = [a0] ->
    a <= amount a0 ->
    valid_amount (account_asset_type acc) (amount a0 - a) = true ->
    valid_amount (account_asset_type acc) (amount a0) = true ->
    exists tcid l1 rcid l2,
      submit (account_owner acc) (Create_Transfer self a r) l = (Ok tcid, l1)
      /\ submit (account_owner acc) (Cancel_Transfer tcid) l1 = (Ok rcid, l2)
      /\ (forall k, assets_at k l2 = assets_at k l)
      /\ transfer_at tcid l2 = None.
Proof.
  intros l self acc a0 a r Hwf Hself Has Hle Hres Hold.
  destruct (position_cases l (account_asset_type acc, account_owner acc) Hwf)
    as [(_ & Has' & _)|(cid & a0' & Hkey & Hcid & Hty & Hp & Has' & Hpos)];
    rewrite Has in Has'; [discriminate|]. injection Has' as <-.
  simpl in Hty, Hp.
  destruct (Create_Transfer_spec l self acc cid a0 a r Hwf Hself Hkey Hcid Hle)
    as (l1 & Hsub1 & Hwf1 & _ & Ht & _ & Hat1 & Hframe1).
  { exact (valid_amount_range _ _ Hres). }
  { rewrite Hty. exact (valid_amount_ensure _ _ _ Hres). }
  set (t := mkAssetTransfer a0 r a) in *.
  assert (Hpos1 : position (asset_type (asset t), owner (asset t)) l1
                  = amount a0 - a).
  { cbn [t asset]. rewrite Hty, Hp. unfold position. now rewrite Hat1. }
  destruct (Cancel_Transfer_spec l1 (S (next_cid l)) t Hwf1 Ht)
    as (l2 & Hsub2 & _ & Hat2 & Hframe2 & Hgone & _).
  { rewrite Hpos1. cbn [t asset transfer_amount]. rewrite Hty.
    now replace (a + (amount a0 - a)) with (amount a0) by lia. }
  rewrite Hpos1 in Hat2. cbn [t asset transfer_amount] in Hat2, Hframe2, Hsub2.
  replace (a + (amount a0 - a)) with (amount a0) in Hat2 by lia.
  rewrite asset_eta in Hat2. rewrite Hty, Hp in Hat2, Hframe2. rewrite Hp in Hsub2.
  exists (S (next_cid l)), l1, (next_cid l1), l2.
  split; [exact Hsub1|]. split; [exact Hsub2|]. split.
  - intros k.
    destruct (asset_key_eq_dec k (account_asset_type acc, account_owner acc))
      as [->|Hk].
    + now rewrite Hat2, Has.
    + now rewrite (Hframe2 _ Hk), (Hframe1 _ Hk).
  - unfold transfer_at. now rewrite Hgone.
Qed.

Lemma Create_Transfer_Cancel_Transfer_restores_witness :
  exists tcid l1 rcid l2,
    submit alice (Create_Transfer 0%nat (dec 5) bob) ledger_with_bob
    = (Ok tcid, l1)
    /\ submit alice (Cancel_Transfer tcid) l1 = (Ok rcid, l2)
    /\ (forall k, assets_at k l2 = assets_at k ledger_with_bob)
    /\ transfer_at tcid l2 = None.
Proof.
  assert (Hle : dec 5 <= dec 15) by (vm_compute; discriminate).
  exact (Create_Transfer_Cancel_Transfer_restores ledger_with_bob 0%nat
           alice_account (mkAsset alice_tkn alice (dec 15)) (dec 5) bob
           wf_ledger_with_bob eq_refl eq_refl Hle eq_refl eq_refl).
Defined.

(** ** A rejected transfer on its way back *)

Lemma after_reject_assets l self t k :
  wf l ->
  lookup_cid self (active l) = Some (CAssetTransfer t) ->
  assets_at k (after_reject l self t) = assets_at k l.
Proof.
  intros Hwf Hself. unfold assets_at, after_reject. cbn [active].
  rewrite assets_in_app.
  rewrite (assets_in_remove_other k self (CAssetTransfer t) _
             (wf_cids _ Hwf) Hself) by discriminate.
  simpl. now rewrite app_nil_r.
Qed.

Lemma Create_Transfer_then_Reject l self acc a0 a r :
  wf l ->
  lookup_cid self (active l) = Some (CAccount acc) ->
  assets_at (account_asset_type acc, account_owner acc) l = [a0] ->
  a <= amount a0 ->
  valid_amount (account_asset_type acc) (amount a0 - a) = true ->
  exists l1 l2,
    submit (account_owner acc) (Create_Transfer self a r) l
    = (Ok (S (next_cid l)), l1)
    /\ submit r (Reject_Transfer (S (next_cid l))) l1
       = (Ok (S (S (next_cid l))), l2)
    /\ wf l2
    /\ lookup_cid (S (S (next_cid l))) (active l2)
       = Some (CAssetTransfer (mkAssetTransfer a0 (owner a0) a))
    /\ asset_type a0 = account_asset_type acc
    /\ owner a0 = account_owner acc
    /\ assets_at (account_asset_type acc, account_owner acc) l2
       = [mkAsset (account_asset_type acc) (account_owner acc)
            (amount a0 - a)]
    /\ (forall k, k <> (account_asset_type acc, account_owner acc) ->
          assets_at k l1 = assets_at k l /\ assets_at k l2 = assets_at k l).
Proof.
  intros Hwf Hself Has Hle Hres.
  destruct (position_cases l (account_asset_type acc, account_owner acc) Hwf)
    as [(_ & Has' & _)|(cid & a0' & Hkey & Hcid & Hty & Hp & Has' & Hpos)];
    rewrite Has in Has'; [discriminate|]. injection Has' as <-.
  simpl in Hty, Hp.
  destruct (Create_Transfer_spec l self acc cid a0 a r Hwf Hself Hkey Hcid Hle)
    as (l1 & Hsub1 & Hwf1 & Hnext1 & Ht & _ & Hat1 & Hframe1).
  { exact (valid_amount_range _ _ Hres). }
  { rewrite Hty. exact (valid_amount_ensure _ _ _ Hres). }
  set (t := mkAssetTransfer a0 r a) in *.
  pose proof (Reject_Transfer_run l1 (S (next_cid l)) t Ht) as Hrun.
  destruct (reject_step l1 (S (next_cid l)) t Hwf1 Ht)
    as (Hwf2 & Hcid2 & _ & _).
  fold (after_reject l1 (S (next_cid l)) t) in Hrun.
  rewrite Hnext1 in Hrun, Hcid2.
  exists l1, (after_reject l1 (S (next_cid l)) t).
  split; [exact Hsub1|]. split; [exact Hrun|]. split; [exact Hwf2|].
  split; [exact Hcid2|]. split; [exact Hty|]. split; [exact Hp|].
  split.
  - now rewrite after_reject_assets.
  - intros k Hk. rewrite after_reject_assets by assumption.
    split; exact (Hframe1 _ Hk).
Qed.

(** X10: on a well-formed ledger and for a fungible asset type, a
    committed Create_Transfer, the recipient's Reject_Transfer and the
    sender's Accept_Transfer of the returned transfer all commit and give
    every key back the Assets it had before the transfer; between the steps
    only the sender's key differs from the start, so the rejecting party's
    holdings are never touched. *)
Theorem Create_Reject_Accept_restores :
  forall l self acc a0 a r,
    wf l ->
    lookup_cid self (active l) = Some (CAccount acc) ->
    assets_at (account_asset_type acc, account_owner acc) l = [a0] ->
    fungible (account_asset_type acc) = true ->
    a <= amount a0 ->
    valid_amount (account_asset_type acc) (amount a0 - a) = true ->
    valid_amount (account_asset_type acc) (amount a0) = true ->
    exists tcid l1 rcid l2 acid l3,
      submit (account_owner acc) (Create_Transfer self a r) l = (Ok tcid, l1)
      /\ submit r (Reject_Transfer tcid) l1 = (Ok rcid, l2)
      /\ submit (account_owner acc) (Accept_Transfer rcid) l2 = (Ok acid, l3)
      /\ (forall k, assets_at k l3 = assets_at k l)
      /\ (forall k, k <> (account_asset_type acc, account_owner acc) ->
            assets_at k l1 = assets_at k l /\ assets_at k l2 = assets_at k l)
      /\ transfer_at rcid l3 = None.
Proof.
  intros l self acc a0 a r Hwf Hself Has Hfun Hle Hres Hold.
  destruct (Create_Transfer_then_Reject l self acc a0 a r Hwf Hself Has Hle Hres)
    as (l1 & l2 & Hsub1 & Hsub2 & Hwf2 & Hcid2 & Hty & Hp & Hat2 & Hframe).
  set (t := mkAssetTransfer a0 (owner a0) a) in *.
  assert (Hpos2 : position (asset_type (asset t), recipient t) l2
                  = amount a0 - a).
  { cbn [t asset recipient]. rewrite Hty, Hp. unfold position.
    now rewrite Hat2. }
  destruct (Accept_Transfer_spec l2 (S (S (next_cid l))) t Hwf2 Hcid2)
    as (l3 & Hsub3 & _ & Hat3 & Hframe3 & Hgone & _).
  { left. cbn [t asset]. now rewrite Hty. }
  { rewrite Hpos2. cbn [t transfer_amount].
    replace (a + (amount a0 - a)) with (amount a0) by lia.
    exact (valid_amount_range _ _ Hold). }
  { rewrite Hpos2. cbn [t asset recipient transfer_amount].
    replace (a + (amount a0 - a)) with (amount a0) by lia.
    rewrite Hty. exact (valid_amount_ensure _ _ _ Hold). }
  rewrite Hpos2 in Hat3.
  cbn [t asset recipient transfer_amount] in Hat3, Hframe3, Hsub3.
  replace (a + (amount a0 - a)) with (amount a0) in Hat3 by lia.
  rewrite asset_eta in Hat3. rewrite Hty, Hp in Hat3, Hframe3.
  rewrite Hp in Hsub3.
  exists (S (next_cid l)), l1, (S (S (next_cid l))), l2, (next_cid l2), l3.
  split; [exact Hsub1|]. split; [exact Hsub2|]. split; [exact Hsub3|].
  split; [|split; [exact Hframe|]].
  - intros k.
    destruct (asset_key_eq_dec k (account_asset_type acc, account_owner acc))
      as [->|Hk].
    + now rewrite Hat3, Has.
    + rewrite (Hframe3 _ Hk). exact (proj2 (Hframe _ Hk)).
  - unfold transfer_at. now rewrite Hgone.
Qed.

Lemma Create_Reject_Accept_restores_witness :
  exists tcid l1 rcid l2 acid l3,
    submit alice (Create_Transfer 0%nat (dec 5) bob) ledger_with_bob
    = (Ok tcid, l1)
    /\ submit bob (Reject_Transfer tcid) l1 = (Ok rcid, l2)
    /\ submit alice (Accept_Transfer rcid) l2 = (Ok acid, l3)
    /\ (forall k, assets_at k l3 = assets_at k ledger_with_bob)
    /\ (forall k, k <> (alice_tkn, alice) ->
          assets_at k l1 = assets_at k ledger_with_bob
          /\ assets_at k l2 = assets_at k ledger_with_bob)
    /\ transfer_at rcid l3 = None.
Proof.
  assert (Hle : dec 5 <= dec 15) by (vm_compute; discriminate).
  exact (Create_Reject_Accept_restores ledger_with_bob 0%nat
           alice_account (mkAsset alice_tkn alice (dec 15)) (dec 5) bob
           wf_ledger_with_bob eq_refl eq_refl eq_refl Hle eq_refl eq_refl).
Defined.

(** X11: on a well-formed ledger and for a non-fungible asset type, after
    a committed Create_Transfer and the recipient's Reject_Transfer the
    sender cannot take the returned transfer with Accept_Transfer, because
    the remainder left at the sender's key counts as a holding: the choice
    fails with the assertion on non-fungible holdings and commits nothing.
    The sender's Cancel_Transfer of the returned transfer commits and gives
    every key back the Assets it had before the transfer. *)
Theorem Create_Reject_nonfungible_needs_Cancel :
  forall l self acc a0 a r,
    wf l ->
    lookup_cid self (active l) = Some (CAccount acc) ->
    assets_at (account_asset_type acc, account_owner acc) l = [a0] ->
    fungible (account_asset_type acc) = false ->
    a <= amount a0 ->
    valid_amount (account_asset_type acc) (amount a0 - a) = true ->
    valid_amount (account_asset_type acc) (amount a0) = true ->
    exists tcid l1 rcid l2,
      submit (account_owner acc) (Create_Transfer self a r) l = (Ok tcid, l1)
      /\ submit r (Reject_Transfer tcid) l1 = (Ok rcid, l2)
      /\ submit (account_owner acc) (Accept_Transfer rcid) l2
         = (Fail (AssertionFailed msg_accept_nonfungible), l2)
      /\ exists ccid l3,
           submit (account_owner acc) (Cancel_Transfer rcid) l2
           = (Ok ccid, l3)
           /\ (forall k, assets_at k l3 = assets_at k l).
Proof.
  intros l self acc a0 a r Hwf Hself Has Hfun Hle Hres Hold.
  destruct (Create_Transfer_then_Reject l self acc a0 a r Hwf Hself Has Hle Hres)
    as (l1 & l2 & Hsub1 & Hsub2 & Hwf2 & Hcid2 & Hty & Hp & Hat2 & Hframe).
  set (t := mkAssetTransfer a0 (owner a0) a) in *.
  exists (S (next_cid l)), l1, (S (S (next_cid l))), l2.
  split; [exact Hsub1|]. split; [exact Hsub2|]. split.
  - destruct (position_cases l2 (account_asset_type acc, account_owner acc)
                Hwf2)
      as [(_ & Has' & _)|(cid & a1 & Hkey & Hcid & _ & _ & _ & _)];
      [rewrite Hat2 in Has'; discriminate|].
    apply submit_fail.
    pose proof (Accept_Transfer_run_some l2 (S (S (next_cid l))) t cid a1
                  Hwf2 Hcid2) as Hrun.
    cbn [t asset recipient] in Hrun. rewrite Hty, Hp in Hrun.
    specialize (Hrun Hkey Hcid). rewrite Hfun in Hrun. exact Hrun.
  - assert (Hpos2 : position (asset_type (asset t), owner (asset t)) l2
                    = amount a0 - a).
    { cbn [t asset]. rewrite Hty, Hp. unfold position. now rewrite Hat2. }
    destruct (Cancel_Transfer_spec l2 (S (S (next_cid l))) t Hwf2 Hcid2)
      as (l3 & Hsub3 & _ & Hat3 & Hframe3 & _ & _).
    { rewrite Hpos2. cbn [t asset transfer_amount]. rewrite Hty.
      now replace (a + (amount a0 - a)) with (amount a0) by lia. }
    rewrite Hpos2 in Hat3.
    cbn [t asset transfer_amount] in Hat3, Hframe3, Hsub3.
    replace (a + (amount a0 - a)) with (amount a0) in Hat3 by lia.
    rewrite asset_eta in Hat3. rewrite Hty, Hp in Hat3, Hframe3.
    rewrite Hp in Hsub3.
    exists (next_cid l2), l3. split; [exact Hsub3|].
    intros k.
    destruct (asset_key_eq_dec k (account_asset_type acc, account_owner acc))
      as [->|Hk].
    + now rewrite Hat3, Has.
    + rewrite (Hframe3 _ Hk). exact (proj2 (Hframe _ Hk)).
Qed.

Lemma Create_Reject_nonfungible_needs_Cancel_witness :
  exists tcid l1 rcid l2,
    submit chris (Create_Transfer 0%nat (dec 1) dianne) ledger_nft
    = (Ok tcid, l1)
    /\ submit dianne (Reject_Transfer tcid) l1 = (Ok rcid, l2)
    /\ submit chris (Accept_Transfer rcid) l2
       = (Fail (AssertionFailed msg_accept_nonfungible), l2)
    /\ exists ccid l3,
         submit chris (Cancel_Transfer rcid) l2 = (Ok ccid, l3)
         /\ (forall k, assets_at k l3 = assets_at k ledger_nft).
Proof.
  assert (Hle : dec 1 <= dec 1) by (vm_compute; discriminate).
  exact (Create_Reject_nonfungible_needs_Cancel ledger_nft 0%nat
           chris_account (mkAsset chris_nft chris (dec 1)) (dec 1) dianne
           wf_ledger_nft eq_refl eq_refl eq_refl Hle eq_refl eq_refl).
Defined.

(** ** Invitations: AssetHoldingAccountProposal *)

Lemma lookup_key_snoc k s n x :
  lookup_key k (s ++ [(n, x)])
  = match lookup_key k s with
    | Some c => Some c
    | None => if has_key k x then Some n else None
    end.
Proof.
  induction s as [|[c0 x0] s IH]; simpl; [reflexivity|].
  destruct (has_key k x0); [reflexivity | exact IH].
Qed.

Lemma Invite_New_Asset_Holder_run l self acc r :
  lookup_cid self (active l) = Some (CAccount acc) ->
  Invite_New_Asset_Holder self r [inviter acc] l
  = Ok (next_cid l,
        mkLedger (S (next_cid l))
          (active l
           ++ [(next_cid l,
                CProposal (mkAssetHoldingAccountProposal acc r))])).
Proof.
  intros Hself. unfold Invite_New_Asset_Holder, exercise.
  rewrite Hself. simpl as_Account. cbv iota beta. fold (inviter acc).
  unfold create. simpl ensure. simpl key. simpl signatory.
  authority. reflexivity.
Qed.

Lemma Proposal_Accept_run l self p :
  wf l ->
  lookup_cid self (active l) = Some (CProposal p) ->
  AssetHoldingAccountProposal_Accept self [proposal_recipient p] l
  = match lookup_key
            (TAccount, (account_asset_type (account p), proposal_recipient p))
            (active l) with
    | Some _ => Fail DuplicateKey
    | None =>
        Ok (next_cid l,
            mkLedger (S (next_cid l))
              (remove_cid self (active l)
               ++ [(next_cid l,
                    CAccount
                      (mkAssetHoldingAccount
                         (account_asset_type (account p))
                         (proposal_recipient p)
                         (airdroppable (account p))
                         (resharable (account p))))]))
    end.
Proof.
  intros Hwf Hself.
  unfold AssetHoldingAccountProposal_Accept, exercise.
  rewrite Hself. simpl as_Proposal. cbv iota beta. authority.
  unfold create. simpl ensure. simpl key. simpl signatory. authority.
  cbn [negb active].
  rewrite (lookup_key_remove_other _ self (CProposal p) _
             (wf_cids _ Hwf) Hself) by discriminate.
  reflexivity.
Qed.

(** X12: on a well-formed ledger, AssetHoldingAccountProposal_Accept
    submitted by the recipient of an active proposal fails as a duplicate
    key, committing nothing, when the recipient already has an account for
    the asset type; otherwise it commits, archives the proposal and creates
    the account of the proposal with the recipient as owner, which is then
    the account at the recipient's key. *)
Theorem Proposal_Accept_result :
  forall l self p,
    wf l ->
    lookup_cid self (active l) = Some (CProposal p) ->
    (lookup_key
       (TAccount, (account_asset_type (account p), proposal_recipient p))
       (active l) <> None ->
     submit (proposal_recipient p) (AssetHoldingAccountProposal_Accept self) l
     = (Fail DuplicateKey, l))
    /\ (lookup_key
          (TAccount, (account_asset_type (account p), proposal_recipient p))
          (active l) = None ->
        exists l',
          submit (proposal_recipient p)
            (AssetHoldingAccountProposal_Accept self) l
          = (Ok (next_cid l), l')
          /\ lookup_cid (next_cid l) (active l')
             = Some (CAccount
                       (mkAssetHoldingAccount
                          (account_asset_type (account p))
                          (proposal_recipient p)
                          (airdroppable (account p))
                          (resharable (account p))))
          /\ lookup_key
               (TAccount,
                (account_asset_type (account p), proposal_recipient p))
               (active l') = Some (next_cid l)
          /\ lookup_cid self (active l') = None).
Proof.
  intros l self p Hwf Hself.
  pose proof (Proposal_Accept_run l self p Hwf Hself) as Hrun.
  assert (Hself_lt : (self < next_cid l)%nat).
  { apply lookup_cid_In in Hself. exact (wf_fresh _ Hwf _ _ Hself). }
  split.
  - intros Hk. apply submit_fail. rewrite Hrun.
    destruct (lookup_key _ (active l)); [reflexivity | contradiction].
  - intros Hk. rewrite Hk in Hrun. eexists.
    split; [apply submit_run; exact Hrun|]. cbn [active].
    split; [|split].
    + rewrite lookup_cid_app, lookup_cid_notin.
      * cbn [lookup_cid]. now rewrite Nat.eqb_refl.
      * intros Hin. apply (wf_fresh_cid _ Hwf).
        exact (cids_remove_cid _ _ _ Hin).
    + rewrite lookup_key_snoc.
      rewrite (lookup_key_remove_None _ self _ Hk).
      unfold has_key. cbn [key]. now rewrite Key_eqb_refl.
    + rewrite lookup_cid_app, lookup_cid_remove_same. cbn [lookup_cid].
      now rewrite (proj2 (Nat.eqb_neq (next_cid l) self)) by lia.
Qed.

Lemma Proposal_Accept_result_witness :
  submit bob (AssetHoldingAccountProposal_Accept 5%nat)
    (then_submit alice (ExeInvite_New_Asset_Holder 0%nat bob) ledger_with_bob)
  = (Fail DuplicateKey,
     then_submit alice (ExeInvite_New_Asset_Holder 0%nat bob) ledger_with_bob).
Proof.
  assert (Hwf : wf (then_submit alice (ExeInvite_New_Asset_Holder 0%nat bob)
                      ledger_with_bob)) by wf_by_computation.
  apply (proj1 (Proposal_Accept_result _ 5%nat
                  (mkAssetHoldingAccountProposal alice_account bob)
                  Hwf eq_refl)).
  vm_compute. discriminate.
Defined.

(** X13: on a well-formed ledger the invitation of a party by the
    account's inviter always commits; the invited party's acceptance then
    fails as a duplicate key if the party already had an account for the
    asset type when invited, and otherwise commits and gives the party an
    account of the same asset type, airdroppable and resharable exactly as
    the inviter's account is, at the party's key. *)
Theorem Invite_then_Accept :
  forall l self acc r,
    wf l ->
    lookup_cid self (active l) = Some (CAccount acc) ->
    exists l1,
      submit (inviter acc) (Invite_New_Asset_Holder self r) l
      = (Ok (next_cid l), l1)
      /\ (lookup_key (TAccount, (account_asset_type acc, r)) (active l)
          <> None ->
          submit r (AssetHoldingAccountProposal_Accept (next_cid l)) l1
          = (Fail DuplicateKey, l1))
      /\ (lookup_key (TAccount, (account_asset_type acc, r)) (active l)
          = None ->
          exists l2,
            submit r (AssetHoldingAccountProposal_Accept (next_cid l)) l1
            = (Ok (S (next_cid l)), l2)
            /\ lookup_cid (S (next_cid l)) (active l2)
               = Some (CAccount
                         (mkAssetHoldingAccount (account_asset_type acc) r
                            (airdroppable acc) (resharable acc)))
            /\ lookup_key (TAccount, (account_asset_type acc, r)) (active l2)
               = Some (S (next_cid l))
            /\ lookup_cid (next_cid l) (active l2) = None).
Proof.
  intros l self acc r Hwf Hself.
  set (p := mkAssetHoldingAccountProposal acc r).
  set (l1 := mkLedger (S (next_cid l)) (active l ++ [(next_cid l, CProposal p)])).
  assert (Hwf1 : wf l1) by (apply (wf_append l); [exact Hwf | exact I]).
  assert (Hp : lookup_cid (next_cid l) (active l1) = Some (CProposal p)).
  { cbn [l1 active]. rewrite lookup_cid_app, lookup_cid_notin.
    - cbn [lookup_cid]. now rewrite Nat.eqb_refl.
    - apply (wf_fresh_cid _ Hwf). }
  assert (Hk1 : lookup_key (TAccount, (account_asset_type acc, r)) (active l1)
                = lookup_key (TAccount, (account_asset_type acc, r))
                    (active l)).
  { cbn [l1 active]. rewrite lookup_key_snoc.
    destruct (lookup_key _ (active l)); reflexivity. }
  pose proof (Proposal_Accept_run l1 (next_cid l) p Hwf1 Hp) as Hrun.
  cbn [p account proposal_recipient] in Hrun. rewrite Hk1 in Hrun.
  exists l1. split.
  { apply submit_run. exact (Invite_New_Asset_Holder_run l self acc r Hself). }
  split.
  - intros Hk. apply submit_fail. rewrite Hrun.
    destruct (lookup_key _ (active l)); [reflexivity | contradiction].
  - intros Hk. rewrite Hk in Hrun. eexists.
    split; [apply submit_run; exact Hrun|]. cbn [l1 active next_cid].
    assert (Hrem : remove_cid (next_cid l)
                     (active l ++ [(next_cid l, CProposal p)]) = active l).
    { rewrite remove_cid_app, (remove_cid_notin _ _ (wf_fresh_cid _ Hwf)).
      cbn [remove_cid]. now rewrite Nat.eqb_refl, app_nil_r. }
    rewrite Hrem. split; [|split].
    + rewrite lookup_cid_app, lookup_cid_notin.
      * cbn [lookup_cid]. now rewrite Nat.eqb_refl.
      * intros Hin. apply in_map_iff in Hin.
        destruct Hin as ([c x] & Hc & Hin). cbn [fst] in Hc. subst c.
        apply (wf_fresh _ Hwf) in Hin. lia.
    + rewrite lookup_key_snoc, Hk.
      unfold has_key. cbn [key]. now rewrite Key_eqb_refl.
    + rewrite lookup_cid_app, (lookup_cid_notin _ _ (wf_fresh_cid _ Hwf)).
      cbn [lookup_cid].
      now rewrite (proj2 (Nat.eqb_neq (S (next_cid l)) (next_cid l))) by lia.
Qed.

Lemma Invite_then_Accept_witness :
  exists l1,
    submit alice (Invite_New_Asset_Holder 0%nat chris) ledger_with_bob
    = (Ok 5%nat, l1)
    /\ exists l2,
         submit chris (AssetHoldingAccountProposal_Accept 5%nat) l1
         = (Ok 6%nat, l2)
         /\ lookup_cid 6%nat (active l2)
            = Some (CAccount
                      (mkAssetHoldingAccount alice_tkn chris false true)).
Proof.
  destruct (Invite_then_Accept ledger_with_bob 0%nat alice_account chris
              wf_ledger_with_bob eq_refl)
    as (l1 & H1 & _ & Hok).
  exists l1. split; [exact H1|].
  destruct Hok as (l2 & H2 & Hacc & _); [vm_compute; reflexivity|].
  exists l2. split; [exact H2 | exact Hacc].
Defined.

(** X14: on a well-formed ledger, AssetHoldingAccountProposal_Reject
    submitted by the recipient of an active proposal commits, and all it
    does is take that proposal out of the active contracts: no account is
    created, and the proposal can no longer be accepted by anyone. *)
Theorem Proposal_Reject_only_archives :
  forall l self p,
    wf l ->
    lookup_cid self (active l) = Some (CProposal p) ->
    exists s1 s2,
      active l = s1 ++ (self, CProposal p) :: s2
      /\ submit (proposal_recipient p)
           (AssetHoldingAccountProposal_Reject self) l
         = (Ok tt, mkLedger (next_cid l) (s1 ++ s2))
      /\ forall q,
           submit q (AssetHoldingAccountProposal_Accept self)
             (mkLedger (next_cid l) (s1 ++ s2))
           = (Fail ContractNotFound, mkLedger (next_cid l) (s1 ++ s2)).
Proof.
  intros l self p Hwf Hself.
  destruct (remove_cid_split _ _ _ (wf_cids _ Hwf) Hself)
    as (s1 & s2 & Hs & Hr).
  exists s1, s2. split; [exact Hs|]. split.
  - apply submit_run. unfold AssetHoldingAccountProposal_Reject, exercise.
    rewrite Hself. simpl as_Proposal. cbv iota beta. authority.
    now rewrite Hr.
  - intros q. apply submit_fail.
    unfold AssetHoldingAccountProposal_Accept, exercise. cbn [active].
    now rewrite <- Hr, lookup_cid_remove_same.
Qed.

Lemma Proposal_Reject_only_archives_witness :
  fst (submit bob (AssetHoldingAccountProposal_Reject 5%nat)
         (then_submit alice (ExeInvite_New_Asset_Holder 0%nat bob)
            ledger_with_bob))
  = Ok tt.
Proof.
  assert (Hwf : wf (then_submit alice (ExeInvite_New_Asset_Holder 0%nat bob)
                      ledger_with_bob)) by wf_by_computation.
  destruct (Proposal_Reject_only_archives _ 5%nat
              (mkAssetHoldingAccountProposal alice_account bob) Hwf eq_refl)
    as (s1 & s2 & _ & H & _).
  exact (f_equal fst H).
Defined.

(** ** Only the controller exercises a choice *)

Lemma exercise_unauthorized {T R} (as_T : Contract -> option T) cid
    controller consuming (body : T -> Update R) p q l x this :
  lookup_cid cid (active l) = Some x ->
  as_T x = Some this ->
  controller this = [q] ->
  p <> q ->
  submit p (exercise as_T cid controller consuming body) l
  = (Fail AuthorizationFailed, l).
Proof.
  intros Hc Hx Hq Hne. apply submit_fail. unfold exercise.
  rewrite Hc, Hx, Hq. unfold subset, elem. cbn [forallb existsb].
  apply String.eqb_neq in Hne. rewrite String.eqb_sym in Hne.
  now rewrite Hne.
Qed.

(** X15: a choice submitted by a party other than its controller fails
    for lack of authority and commits nothing: Accept_Transfer and
    Reject_Transfer belong to the transfer's recipient, Cancel_Transfer to
    the owner in its asset snapshot, Airdrop to the issuer and
    Create_Transfer to the owner of the account, and the two proposal
    choices to the invited party. *)
Theorem only_the_controller_exercises :
  (forall l self t p,
     lookup_cid self (active l) = Some (CAssetTransfer t) ->
     (p <> recipient t ->
      submit p (Accept_Transfer self) l = (Fail AuthorizationFailed, l)
      /\ submit p (Reject_Transfer self) l = (Fail AuthorizationFailed, l))
     /\ (p <> owner (asset t) ->
         submit p (Cancel_Transfer self) l = (Fail AuthorizationFailed, l)))
  /\ (forall l self acc p a r,
        lookup_cid self (active l) = Some (CAccount acc) ->
        (p <> issuer (account_asset_type acc) ->
         submit p (Airdrop self a) l = (Fail AuthorizationFailed, l))
        /\ (p <> account_owner acc ->
            submit p (Create_Transfer self a r) l
            = (Fail AuthorizationFailed, l)))
  /\ (forall l self pr p,
        lookup_cid self (active l) = Some (CProposal pr) ->
        p <> proposal_recipient pr ->
        submit p (AssetHoldingAccountProposal_Accept self) l
        = (Fail AuthorizationFailed, l)
        /\ submit p (AssetHoldingAccountProposal_Reject self) l
           = (Fail AuthorizationFailed, l)).
Proof.
  split; [|split].
  - intros l self t p Hself. split; [intros Hne; split | intros Hne].
    + exact (exercise_unauthorized _ _ _ _ _ _ _ _ _ _ Hself eq_refl
               eq_refl Hne).
    + exact (exercise_unauthorized _ _ _ _ _ _ _ _ _ _ Hself eq_refl
               eq_refl Hne).
    + exact (exercise_unauthorized _ _ _ _ _ _ _ _ _ _ Hself eq_refl
               eq_refl Hne).
  - intros l self acc p a r Hself. split; intros Hne.
    + exact (exercise_unauthorized _ _ _ _ _ _ _ _ _ _ Hself eq_refl
               eq_refl Hne).
    + exact (exercise_unauthorized _ _ _ _ _ _ _ _ _ _ Hself eq_refl
               eq_refl Hne).
  - intros l self pr p Hself Hne. split.
    + exact (exercise_unauthorized _ _ _ _ _ _ _ _ _ _ Hself eq_refl
               eq_refl Hne).
    + exact (exercise_unauthorized _ _ _ _ _ _ _ _ _ _ Hself eq_refl
               eq_refl Hne).
Qed.

Lemma only_the_controller_exercises_witness :
  submit alice (Accept_Transfer 6%nat) ledger_with_transfer
  = (Fail AuthorizationFailed, ledger_with_transfer)
  /\ submit bob (Cancel_Transfer 6%nat) ledger_with_transfer
     = (Fail AuthorizationFailed, ledger_with_transfer)
  /\ submit bob (Airdrop 0%nat (dec 5)) ledger_with_transfer
     = (Fail AuthorizationFailed, ledger_with_transfer).
Proof.
  destruct only_the_controller_exercises as (Ht & Ha & _).
  destruct (Ht ledger_with_transfer 6%nat
              (mkAssetTransfer (mkAsset alice_tkn alice (dec 15)) bob (dec 5))
              alice eq_refl) as [Hacc _].
  destruct (Ht ledger_with_transfer 6%nat
              (mkAssetTransfer (mkAsset alice_tkn alice (dec 15)) bob (dec 5))
              bob eq_refl) as [_ Hcan].
  destruct (Ha ledger_with_transfer 0%nat alice_account bob (dec 5) bob
              eq_refl) as [Hair _].
  split; [|split].
  - apply Hacc. discriminate.
  - apply Hcan. discriminate.
  - apply Hair. discriminate.
Defined.

(** ** Archived contracts stay archived *)

Lemma nr_ret {A} (a : A) : never_revives (ret a).
Proof. intros auth l a' l' [= _ <-]. split; [lia | auto]. Qed.

Lemma nr_fail {A} e : never_revives (@fail A e).
Proof. intros auth l a l'. discriminate. Qed.

Lemma nr_bind {A B} (m : Update A) (k : A -> Update B) :
  never_revives m -> (forall a, never_revives (k a)) ->
  never_revives (bind m k).
Proof.
  intros Hm Hk auth l b l'' H. apply bind_Ok in H.
  destruct H as (a & l' & H1 & H2).
  destruct (Hm _ _ _ _ H1) as [Hn1 Hg1].
  destruct (Hk a _ _ _ _ H2) as [Hn2 Hg2].
  split; [lia|]. intros c Hc Hnone. apply Hg2; [lia|]. now apply Hg1.
Qed.

Lemma nr_assertMsg msg b : never_revives (assertMsg msg b).
Proof.
  unfold assertMsg. destruct b; [apply nr_ret | apply nr_fail].
Qed.

Lemma nr_fromSome {A} (o : option A) : never_revives (fromSome o).
Proof. destruct o; [apply nr_ret | apply nr_fail]. Qed.

Lemma nr_decimal x : never_revives (decimal x).
Proof.
  unfold decimal. destruct (in_decimal_range x); [apply nr_ret | apply nr_fail].
Qed.

Lemma nr_lookupByKey k : never_revives (lookupByKey k).
Proof.
  intros auth l o l' H. apply lookupByKey_Ok in H. destruct H as [_ ->].
  split; [lia | auto].
Qed.

Lemma nr_fetch_Asset cid : never_revives (fetch_Asset cid).
Proof.
  intros auth l a l' H. apply fetch_Asset_Ok in H. destruct H as [_ ->].
  split; [lia | auto].
Qed.

Lemma lookup_cid_remove_none c cid s :
  lookup_cid c s = None -> lookup_cid c (remove_cid cid s) = None.
Proof.
  intros H. destruct (Nat.eq_dec c cid) as [->|Hne].
  - apply lookup_cid_remove_same.
  - now rewrite lookup_cid_remove_other.
Qed.

Lemma nr_archive cid : never_revives (archive cid).
Proof.
  intros auth l u l' H. apply archive_Ok in H. subst l'. cbn [next_cid active].
  split; [lia|]. intros c _ Hnone. now apply lookup_cid_remove_none.
Qed.

Lemma nr_create x : never_revives (create x).
Proof.
  intros auth l r l' H. apply create_Ok in H. destruct H as (_ & _ & _ & ->).
  cbn [next_cid active]. split; [lia|]. intros c Hc Hnone.
  rewrite lookup_cid_app, Hnone. cbn [lookup_cid].
  now rewrite (proj2 (Nat.eqb_neq (next_cid l) c)) by lia.
Qed.

Lemma nr_exercise {T R} (as_T : Contract -> option T) cid controller
    consuming (body : T -> Update R) :
  (forall this, never_revives (body this)) ->
  never_revives (exercise as_T cid controller consuming body).
Proof.
  intros Hbody auth l r l' H. apply exercise_Ok in H.
  destruct H as (x & this & _ & _ & H).
  destruct (Hbody this _ _ _ _ H) as [Hn Hg]. destruct consuming.
  - cbn [next_cid active] in Hn, Hg. split; [exact Hn|].
    intros c Hc Hnone. apply Hg; [exact Hc|].
    now apply lookup_cid_remove_none.
  - split; assumption.
Qed.

Lemma nr_exerciseByKey {R} k (choice : ContractId -> Update R) :
  (forall cid, never_revives (choice cid)) ->
  never_revives (exerciseByKey k choice).
Proof.
  intros Hc auth l r l'. unfold exerciseByKey.
  destruct (lookup_key k (active l)) as [cid|]; [|discriminate].
  apply Hc.
Qed.

Ltac never_revives :=
  repeat first
    [ apply nr_create
    | apply nr_decimal
    | apply nr_lookupByKey
    | apply nr_fetch_Asset
    | apply nr_archive
    | apply nr_ret
    | apply nr_fromSome
    | apply nr_assertMsg
    | apply nr_exercise; intros ?
    | apply nr_bind; [|intros ?]
    | match goal with
      | |- never_revives (match ?o with _ => _ end) => destruct o
      end ].

Lemma nr_run_command cmd : never_revives (run_command cmd).
Proof.
  induction cmd as [x|cid|cid|cid|cid r|cid a|cid a r|cid|cid|cid|k choice IH];
    simpl run_command.
  - never_revives.
  - unfold Cancel_Transfer, lookupByKey_Asset. never_revives.
  - unfold Reject_Transfer. never_revives.
  - unfold Accept_Transfer, lookupByKey_Asset. never_revives.
  - unfold Invite_New_Asset_Holder. never_revives.
  - unfold Airdrop, lookupByKey_Asset. never_revives.
  - unfold Create_Transfer, lookupByKey_Asset. never_revives.
  - unfold AssetHoldingAccountProposal_Accept. never_revives.
  - unfold AssetHoldingAccountProposal_Reject. never_revives.
  - never_revives.
  - apply nr_exerciseByKey. exact IH.
Qed.

Lemma then_submit_never_revives p cmd l c :
  (c < next_cid l)%nat -> lookup_cid c (active l) = None ->
  (c < next_cid (then_submit p cmd l))%nat
  /\ lookup_cid c (active (then_submit p cmd l)) = None.
Proof.
  intros Hc Hnone. unfold then_submit, submit.
  destruct (run_command cmd [p] l) as [[u l']|e] eqn:E; cbn [snd]; [|auto].
  destruct (nr_run_command cmd _ _ _ _ E) as [Hn Hg].
  split; [lia | now apply Hg].
Qed.

Lemma run_script_never_revives script :
  forall l c,
    (c < next_cid l)%nat -> lookup_cid c (active l) = None ->
    lookup_cid c (active (run_script script l)) = None.
Proof.
  induction script as [|[p cmd] rest IH]; intros l c Hc Hnone; simpl.
  - exact Hnone.
  - destruct (then_submit_never_revives p cmd l c Hc Hnone) as [Hc' Hn'].
    now apply IH.
Qed.

Lemma exercise_consumed {T R} (as_T : Contract -> option T) cid controller
    (body : T -> Update R) auth l r l' :
  (forall this, never_revives (body this)) ->
  wf l ->
  exercise as_T cid controller true body auth l = Ok (r, l') ->
  (cid < next_cid l')%nat /\ lookup_cid cid (active l') = None.
Proof.
  intros Hbody Hwf H. apply exercise_Ok in H.
  destruct H as (x & this & Hc & _ & H).
  destruct (Hbody this _ _ _ _ H) as [Hn Hg].
  cbn [next_cid active] in Hn, Hg.
  assert (Hlt : (cid < next_cid l)%nat).
  { apply lookup_cid_In in Hc. exact (wf_fresh _ Hwf _ _ Hc). }
  split; [lia|]. apply Hg; [exact Hlt | apply lookup_cid_remove_same].
Qed.

Lemma exercise_not_found {T R} (as_T : Contract -> option T) cid controller
    consuming (body : T -> Update R) auth l :
  lookup_cid cid (active l) = None ->
  exercise as_T cid controller consuming body auth l = Fail ContractNotFound.
Proof. intros H. unfold exercise. now rewrite H. Qed.

Lemma archive_consumed cid auth l u l' :
  wf l ->
  archive cid auth l = Ok (u, l') ->
  (cid < next_cid l')%nat /\ lookup_cid cid (active l') = None.
Proof.
  intros Hwf H. pose proof (archive_Ok _ _ _ _ _ H) as ->.
  unfold archive in H.
  destruct (lookup_cid cid (active l)) as [x|] eqn:Hc; [|discriminate].
  cbn [next_cid active]. split.
  - apply lookup_cid_In in Hc. exact (wf_fresh _ Hwf _ _ Hc).
  - apply lookup_cid_remove_same.
Qed.

Lemma archive_not_found cid auth l :
  lookup_cid cid (active l) = None ->
  archive cid auth l = Fail ContractNotFound.
Proof. intros H. unfold archive. now rewrite H. Qed.

Lemma exercises_on_not_found c cmd q l :
  exercises_on c cmd ->
  lookup_cid c (active l) = None ->
  submit q (run_command cmd) l = (Fail ContractNotFound, l).
Proof.
  intros Hcmd Hnone. apply submit_fail.
  destruct Hcmd
    as [->|[->|[->|[[r ->]|[[a ->]|[(a & r & ->)|[->|[->| ->]]]]]]]];
    cbn [run_command]; unfold bind;
    unfold Cancel_Transfer, Reject_Transfer, Accept_Transfer,
      Invite_New_Asset_Holder, Airdrop, Create_Transfer,
      AssetHoldingAccountProposal_Accept, AssetHoldingAccountProposal_Reject;
    first [ now rewrite exercise_not_found | now apply archive_not_found ].
Qed.

(** X16: once a consuming choice on a contract has committed on a
    well-formed ledger (Cancel_Transfer, Reject_Transfer, Accept_Transfer,
    a proposal's Accept or Reject, or the built-in Archive), the contract
    is gone for good:
    whatever commands are submitted afterwards, every later attempt by
    anyone to exercise a choice on that contract id fails because the
    contract is not found, and commits nothing. A transfer is therefore
    accepted, cancelled or rejected at most once. *)
Theorem consumed_contract_stays_archived :
  forall l p cmd c,
    wf l ->
    consumes c cmd ->
    fst (submit p (run_command cmd) l) = Ok tt ->
    forall script q cmd',
      exercises_on c cmd' ->
      submit q (run_command cmd') (run_script script (then_submit p cmd l))
      = (Fail ContractNotFound, run_script script (then_submit p cmd l)).
Proof.
  intros l p cmd c Hwf Hcmd Hok script q cmd' Hcmd'.
  apply (exercises_on_not_found c); [exact Hcmd'|].
  assert (Hgone : (c < next_cid (then_submit p cmd l))%nat
                  /\ lookup_cid c (active (then_submit p cmd l)) = None).
  { unfold then_submit. unfold submit in Hok |- *.
    destruct (run_command cmd [p] l) as [[u l']|e] eqn:E; [|discriminate].
    cbn [snd]. clear Hok.
    destruct Hcmd as [->|[->|[->|[->|[->| ->]]]]]; cbn [run_command] in E.
    - apply bind_Ok in E. destruct E as (r & l1 & E & [= _ <-]).
      unfold Cancel_Transfer, lookupByKey_Asset in E.
      apply exercise_consumed in E; [exact E | intros ?; never_revives | exact Hwf].
    - apply bind_Ok in E. destruct E as (r & l1 & E & [= _ <-]).
      unfold Reject_Transfer in E.
      apply exercise_consumed in E; [exact E | intros ?; never_revives | exact Hwf].
    - apply bind_Ok in E. destruct E as (r & l1 & E & [= _ <-]).
      unfold Accept_Transfer, lookupByKey_Asset in E.
      apply exercise_consumed in E; [exact E | intros ?; never_revives | exact Hwf].
    - apply bind_Ok in E. destruct E as (r & l1 & E & [= _ <-]).
      unfold AssetHoldingAccountProposal_Accept in E.
      apply exercise_consumed in E; [exact E | intros ?; never_revives | exact Hwf].
    - unfold AssetHoldingAccountProposal_Reject in E.
      apply exercise_consumed in E; [exact E | intros ?; never_revives | exact Hwf].
    - exact (archive_consumed _ _ _ _ _ Hwf E). }
  destruct Hgone as [Hlt Hnone].
  now apply run_script_never_revives.
Qed.

Lemma consumed_contract_stays_archived_witness :
  submit bob (run_command (ExeAccept_Transfer 6%nat))
    (run_script [(alice, ExeAirdrop 0%nat (dec 5))]
       (then_submit bob (ExeAccept_Transfer 6%nat) ledger_with_transfer))
  = (Fail ContractNotFound,
     run_script [(alice, ExeAirdrop 0%nat (dec 5))]
       (then_submit bob (ExeAccept_Transfer 6%nat) ledger_with_transfer)).
Proof.
  apply (consumed_contract_stays_archived ledger_with_transfer bob
           (ExeAccept_Transfer 6%nat) 6%nat wf_ledger_with_transfer).
  - right. right. left. reflexivity.
  - vm_compute. reflexivity.
  - right. right. left. reflexivity.
Defined.

(** ** Accounts outlive the declared choices *)

Lemma kept_refl l : accounts_kept l l.
Proof. intros c acc H. exact H. Qed.

Lemma kept_trans l1 l2 l3 :
  accounts_kept l1 l2 -> accounts_kept l2 l3 -> accounts_kept l1 l3.
Proof. intros H12 H23 c acc H. apply H23, H12, H. Qed.

Lemma kept_remove l n cid x :
  lookup_cid cid (active l) = Some x ->
  as_Account x = None ->
  accounts_kept l (mkLedger n (remove_cid cid (active l))).
Proof.
  intros Hc Hx c acc H. cbn [active].
  rewrite lookup_cid_remove_other; [exact H|].
  intros ->. rewrite Hc in H. injection H as ->. discriminate.
Qed.

Lemma kept_append l m n x :
  accounts_kept l (mkLedger m (active l ++ [(n, x)])).
Proof. intros c acc H. cbn [active]. now rewrite lookup_cid_app, H. Qed.

Lemma kept_create x auth l r l' :
  create x auth l = Ok (r, l') -> accounts_kept l l'.
Proof.
  intros H. apply create_Ok in H. destruct H as (_ & _ & _ & ->).
  apply kept_append.
Qed.

Lemma kept_exercise {T R} (as_T : Contract -> option T) cid controller
    consuming (body : T -> Update R) auth l r l' :
  (forall x this, as_T x = Some this -> as_Account x = None) ->
  (forall this auth0 l0, body this auth0 l0 = Ok (r, l') ->
                         accounts_kept l0 l') ->
  exercise as_T cid controller consuming body auth l = Ok (r, l') ->
  accounts_kept l l'.
Proof.
  intros HT Hbody H. apply exercise_Ok in H.
  destruct H as (x & this & Hc & Hx & H). apply Hbody in H.
  destruct consuming; [|exact H].
  eapply kept_trans; [|exact H].
  apply (kept_remove l _ cid x Hc). exact (HT _ _ Hx).
Qed.

Lemma as_AssetTransfer_not_account x t :
  as_AssetTransfer x = Some t -> as_Account x = None.
Proof. destruct x; simpl; congruence. Qed.

Lemma as_Proposal_not_account x p :
  as_Proposal x = Some p -> as_Account x = None.
Proof. destruct x; simpl; congruence. Qed.

(** Closes [accounts_kept l0 l1] from the run of the block that fetches
    and archives the Asset at a key (or finds none). *)
Ltac kept_block Hblock :=
  first
    [ invert_run Hblock;
      match goal with
      | Hf : lookup_cid ?cid (active ?l0) = Some (CAsset ?a),
        Hr : ret _ _ _ = Ok (_, ?l1) |- accounts_kept ?l0 ?l1 =>
          injection Hr as _ <-;
          exact (kept_remove l0 _ cid (CAsset a) Hf eq_refl)
      end
    | injection Hblock as _ <-; apply kept_refl ].

Lemma kept_Accept_Transfer self auth l r l' :
  Accept_Transfer self auth l = Ok (r, l') -> accounts_kept l l'.
Proof.
  unfold Accept_Transfer. apply kept_exercise.
  - exact as_AssetTransfer_not_account.
  - intros this auth0 l0 H. unfold lookupByKey_Asset in H. invert_run H.
    apply kept_create in H. eapply kept_trans; [|exact H].
    destruct (lookup_key _ (active l0)) as [cid|]; kept_block Hstep.
Qed.

Lemma kept_Cancel_Transfer self auth l r l' :
  Cancel_Transfer self auth l = Ok (r, l') -> accounts_kept l l'.
Proof.
  unfold Cancel_Transfer. apply kept_exercise.
  - exact as_AssetTransfer_not_account.
  - intros this auth0 l0 H. unfold lookupByKey_Asset in H. invert_run H.
    apply kept_create in H. eapply kept_trans; [|exact H].
    destruct (lookup_key _ (active l0)) as [cid|]; kept_block Hstep.
Qed.

Lemma kept_Reject_Transfer self auth l r l' :
  Reject_Transfer self auth l = Ok (r, l') -> accounts_kept l l'.
Proof.
  unfold Reject_Transfer. apply kept_exercise.
  - exact as_AssetTransfer_not_account.
  - intros this auth0 l0 H. exact (kept_create _ _ _ _ _ H).
Qed.

Lemma kept_Invite_New_Asset_Holder self rc auth l r l' :
  Invite_New_Asset_Holder self rc auth l = Ok (r, l') -> accounts_kept l l'.
Proof.
  unfold Invite_New_Asset_Holder. intros H. apply exercise_Ok in H.
  destruct H as (x & this & _ & _ & H). exact (kept_create _ _ _ _ _ H).
Qed.

Lemma kept_Airdrop self a auth l r l' :
  Airdrop self a auth l = Ok (r, l') -> accounts_kept l l'.
Proof.
  intros H. apply Airdrop_Ok in H.
  destruct H as (acc & _ & _ & [(_ & ->)|(cid & a0 & _ & Hcid & ->)]).
  - apply kept_append.
  - eapply kept_trans; [exact (kept_remove l (next_cid l) cid _ Hcid eq_refl)|].
    apply (kept_append (mkLedger (next_cid l) (remove_cid cid (active l)))).
Qed.

Lemma kept_Create_Transfer self a rc auth l r l' :
  Create_Transfer self a rc auth l = Ok (r, l') -> accounts_kept l l'.
Proof.
  unfold Create_Transfer. intros H. apply exercise_Ok in H.
  destruct H as (x & this & _ & _ & H). cbv iota in H.
  unfold lookupByKey_Asset in H. invert_run H.
  apply kept_create in H. eapply kept_trans; [|exact H].
  destruct (lookup_key _ (active l)) as [cid|]; [|discriminate].
  injection Hstep0 as <- <-. destruct Hstep4 as (_ & _ & _ & ->).
  eapply kept_trans;
    [exact (kept_remove l (next_cid l) _ _ Hstep1 eq_refl)|].
  apply (kept_append (mkLedger (next_cid l) (remove_cid cid (active l)))).
Qed.

Lemma kept_Proposal_Accept self auth l r l' :
  AssetHoldingAccountProposal_Accept self auth l = Ok (r, l') ->
  accounts_kept l l'.
Proof.
  unfold AssetHoldingAccountProposal_Accept. apply kept_exercise.
  - exact as_Proposal_not_account.
  - intros this auth0 l0 H. exact (kept_create _ _ _ _ _ H).
Qed.

Lemma kept_Proposal_Reject self auth l r l' :
  AssetHoldingAccountProposal_Reject self auth l = Ok (r, l') ->
  accounts_kept l l'.
Proof.
  unfold AssetHoldingAccountProposal_Reject. apply kept_exercise.
  - exact as_Proposal_not_account.
  - intros this auth0 l0 [= _ <-]. apply kept_refl.
Qed.

Lemma kept_run_command cmd :
  declared cmd ->
  forall auth l u l', run_command cmd auth l = Ok (u, l') -> accounts_kept l l'.
Proof.
  induction cmd as [x|cid|cid|cid|cid r|cid a|cid a r|cid|cid|cid|k choice IH];
    intros Hd auth l u l' H; cbn [declared] in Hd; cbn [run_command] in H;
    try (apply bind_Ok in H; destruct H as (v & l1 & H & [= _ <-])).
  - exact (kept_create _ _ _ _ _ H).
  - exact (kept_Cancel_Transfer _ _ _ _ _ H).
  - exact (kept_Reject_Transfer _ _ _ _ _ H).
  - exact (kept_Accept_Transfer _ _ _ _ _ H).
  - exact (kept_Invite_New_Asset_Holder _ _ _ _ _ _ H).
  - exact (kept_Airdrop _ _ _ _ _ _ H).
  - exact (kept_Create_Transfer _ _ _ _ _ _ _ H).
  - exact (kept_Proposal_Accept _ _ _ _ _ H).
  - exact (kept_Proposal_Reject _ _ _ _ _ H).
  - contradiction.
  - unfold exerciseByKey in H.
    destruct (lookup_key k (active l)) as [cid|]; [|discriminate].
    exact (IH cid (Hd cid) _ _ _ _ H).
Qed.

Lemma archive_account_run c acc auth l :
  lookup_cid c (active l) = Some (CAccount acc) ->
  archive c auth l
  = if elem (issuer (account_asset_type acc)) auth
       && elem (account_owner acc) auth
    then Ok (tt, mkLedger (next_cid l) (remove_cid c (active l)))
    else Fail AuthorizationFailed.
Proof.
  intros H. unfold archive. rewrite H.
  cbn [signatory subset forallb]. now rewrite andb_true_r.
Qed.

(** X17: no create and none of the eight declared choices archives an
    AssetHoldingAccount: an account that is active stays active, with the
    same asset type, owner and flags, under every sequence of submitted
    commands, by contract id or by key, committed or failed, that
    exercises no built-in Archive. The built-in Archive is the only way
    out: on an active account it commits exactly when it is authorized
    by both signatories, the issuer of the asset type and the owner, and
    then the account is gone; submitted by a single party, it commits
    only for an account that the issuer holds. *)
Theorem accounts_outlive_declared_choices :
  (forall script l c acc,
     Forall (fun pc => declared (snd pc)) script ->
     lookup_cid c (active l) = Some (CAccount acc) ->
     lookup_cid c (active (run_script script l)) = Some (CAccount acc))
  /\ (forall l c acc auth,
        lookup_cid c (active l) = Some (CAccount acc) ->
        ((exists l', run_command (ExeArchive c) auth l = Ok (tt, l'))
         <-> elem (issuer (account_asset_type acc)) auth = true
             /\ elem (account_owner acc) auth = true)
        /\ (forall l', run_command (ExeArchive c) auth l = Ok (tt, l') ->
                       lookup_cid c (active l') = None
                       /\ forall c', c' <> c ->
                            lookup_cid c' (active l')
                            = lookup_cid c' (active l)))
  /\ (forall l c acc p,
        lookup_cid c (active l) = Some (CAccount acc) ->
        fst (submit p (run_command (ExeArchive c)) l) = Ok tt ->
        issuer (account_asset_type acc) = p /\ account_owner acc = p).
Proof.
  split; [|split].
  - induction script as [|[p cmd] rest IH]; intros l c acc Hd H; simpl;
      [exact H|].
    inversion Hd as [|? ? Hcmd Hrest]; subst.
    apply IH; [exact Hrest|]. unfold then_submit, submit.
    destruct (run_command cmd [p] l) as [[u l']|e] eqn:E; cbn [snd];
      [|exact H].
    exact (kept_run_command cmd Hcmd _ _ _ _ E c acc H).
  - intros l c acc auth H. cbn [run_command].
    rewrite (archive_account_run c acc auth l H). split.
    + split.
      * intros (l' & E).
        destruct (elem (issuer _) auth); [|discriminate].
        destruct (elem (account_owner acc) auth); [|discriminate].
        now split.
      * intros [-> ->]. cbn [andb]. eexists. reflexivity.
    + intros l' E.
      destruct (_ && _); [|discriminate]. injection E as <-.
      cbn [active]. split.
      * apply lookup_cid_remove_same.
      * intros c' Hne. now apply lookup_cid_remove_other.
  - intros l c acc p H Hok. unfold submit in Hok. cbn [run_command] in Hok.
    rewrite (archive_account_run c acc [p] l H) in Hok.
    unfold elem in Hok. cbn [existsb] in Hok. rewrite !orb_false_r in Hok.
    destruct (String.eqb _ p) eqn:E1; [|discriminate].
    destruct (String.eqb (account_owner acc) p) eqn:E2; [|discriminate].
    apply String.eqb_eq in E1, E2. now split.
Qed.

Lemma accounts_outlive_declared_choices_witness :
  lookup_cid 0%nat
    (active (run_script
               [(alice, ExeCreate_Transfer 0%nat (dec 5) bob);
                (bob, ExeAccept_Transfer 6%nat);
                (alice, ExeAirdrop 0%nat (dec 1))]
               ledger_with_bob))
  = Some (CAccount alice_account)
  /\ (exists l', run_command (ExeArchive 0%nat) [alice] ledger_with_bob
                 = Ok (tt, l'))
  /\ ~ (exists l', run_command (ExeArchive 4%nat) [bob] ledger_with_bob
                   = Ok (tt, l')).
Proof.
  destruct accounts_outlive_declared_choices as (Hkeep & Harch & _).
  split; [|split].
  - apply (Hkeep _ ledger_with_bob 0%nat alice_account);
      [repeat constructor | reflexivity].
  - apply (proj1 (Harch ledger_with_bob 0%nat alice_account [alice]
                    eq_refl)).
    split; reflexivity.
  - intros H.
    apply (proj1 (Harch ledger_with_bob 4%nat
                    (mkAssetHoldingAccount alice_tkn bob false true) [bob]
                    eq_refl)) in H.
    destruct H as [H _]. vm_compute in H. discriminate.
Defined.

(** ** Accept_Transfer: when it commits *)

(** X18: on a well-formed ledger, Accept_Transfer submitted by the
    recipient of an active transfer commits exactly when the asset type is
    fungible or the recipient holds no Asset of it, and the transferred
    amount plus the recipient's position is an amount an Asset of the type
    may carry. Nothing else is required of the recipient: in particular no
    AssetHoldingAccount. *)
Theorem Accept_Transfer_commits_iff :
  forall l self t,
    wf l ->
    lookup_cid self (active l) = Some (CAssetTransfer t) ->
    (exists r l',
       submit (recipient t) (Accept_Transfer self) l = (Ok r, l'))
    <-> (fungible (asset_type (asset t)) = true
         \/ assets_at (asset_type (asset t), recipient t) l = [])
        /\ valid_amount (asset_type (asset t))
             (transfer_amount t
              + position (asset_type (asset t), recipient t) l) = true.
Proof.
  intros l self t Hwf Hself. split.
  - intros (r & l' & H). apply submit_Ok in H.
    destruct (position_cases l (asset_type (asset t), recipient t) Hwf)
      as [(Hnone & Has & Hpos)|(cid & a0 & Hsome & Hcid & _ & _ & Has & Hpos)];
      rewrite Hpos.
    + rewrite (Accept_Transfer_run_none l self t Hwf Hself Hnone) in H.
      destruct (in_decimal_range _) eqn:Hr; cbn [negb] in H; [|discriminate].
      destruct (ensure_Asset _) eqn:He; cbn [negb] in H; [|discriminate].
      split; [now right | exact (valid_amount_intro _ _ _ Hr He)].
    + rewrite (Accept_Transfer_run_some l self t cid a0 Hwf Hself Hsome Hcid)
        in H.
      destruct (fungible (asset_type (asset t))); cbn [negb] in H;
        [|discriminate].
      destruct (in_decimal_range _) eqn:Hr; cbn [negb] in H; [|discriminate].
      destruct (ensure_Asset _) eqn:He; cbn [negb] in H; [|discriminate].
      split; [now left | exact (valid_amount_intro _ _ _ Hr He)].
  - intros (Hfun & Hv).
    destruct (Accept_Transfer_spec l self t Hwf Hself Hfun
                (valid_amount_range _ _ Hv) (valid_amount_ensure _ _ _ Hv))
      as (l' & Hsub & _).
    eexists. eexists. exact Hsub.
Qed.

Lemma Accept_Transfer_commits_iff_witness :
  lookup_key (TAccount, (alice_tkn, chris)) (active ledger_transfer_to_chris)
  = None
  /\ exists r l',
       submit chris (Accept_Transfer 6%nat) ledger_transfer_to_chris
       = (Ok r, l').
Proof.
  split; [vm_compute; reflexivity|].
  assert (Hwf : wf ledger_transfer_to_chris) by wf_by_computation.
  apply (proj2 (Accept_Transfer_commits_iff ledger_transfer_to_chris 6%nat
                  (mkAssetTransfer (mkAsset alice_tkn alice (dec 15)) chris
                     (dec 5))
                  Hwf eq_refl)).
  split; [left; reflexivity | vm_compute; reflexivity].
Defined.

(** ** The supply of an asset type *)

Lemma supply_in_app ty s t :
  supply_in ty (s ++ t) = supply_in ty s + supply_in ty t.
Proof.
  induction s as [|[c x] s IH]; simpl; [reflexivity|]. rewrite IH. lia.
Qed.

Lemma supply_in_remove ty c x s :
  NoDup (map fst s) -> lookup_cid c s = Some x ->
  supply_in ty (remove_cid c s) = supply_in ty s - value_of ty x.
Proof.
  intros Hnd Hc.
  destruct (remove_cid_split _ _ _ Hnd Hc) as (s1 & s2 & -> & ->).
  rewrite !supply_in_app. simpl. lia.
Qed.





(** Rewrites the supply of a ledger built by removals and one or two
    appended contracts into the supply of the ledger it was built from. *)
Ltac supply_step Hwf :=
  unfold supply; cbn [active];
  repeat rewrite supply_in_app;
  cbn [supply_in value_of asset_type amount asset transfer_amount reversed].









Lemma run_script_reachable script :
  forall l, reachable l -> reachable (run_script script l).
Proof.
  induction script as [|[p cmd] rest IH]; intros l Hl; simpl; [exact Hl|].
  apply IH. now apply reach_submit.
Qed.



(** X20: Airdrop is what mints. A committed Airdrop of amount [a] on an
    account, on a well-formed ledger, raises the supply of the account's
    asset type by exactly [a] and leaves the supply of every other asset
    type as it was. *)
Theorem Airdrop_mints :
  forall l self acc a p r l' ty,
    wf l ->
    lookup_cid self (active l) = Some (CAccount acc) ->
    submit p (Airdrop self a) l = (Ok r, l') ->
    supply ty l'
    = supply ty l
      + (if AssetType_eqb (account_asset_type acc) ty then a else 0).
Proof.
  intros l self acc a p r l' ty Hwf Hself H.
  apply submit_Ok, Airdrop_Ok in H.
  destruct H as (acc' & Hself' & _ & Hcases).
  rewrite Hself in Hself'. injection Hself' as <-.
  destruct Hcases as [(_ & ->)|(cid & a0 & Hkey & Hcid & ->)];
    supply_step Hwf.
  - change (dec 0) with 0.
    destruct (AssetType_eqb (account_asset_type acc) ty); lia.
  - destruct (lookup_key_asset_fields _ _ _ _ _ Hwf Hkey Hcid) as [Hty _].
    rewrite (supply_in_remove ty cid _ _ (wf_cids _ Hwf) Hcid).
    cbn [value_of]. rewrite Hty.
    destruct (AssetType_eqb (account_asset_type acc) ty); lia.
Qed.

Lemma Airdrop_mints_witness :
  supply alice_tkn ledger_airdrop_10 = dec 10
  /\ supply alice_tkn
       (snd (submit alice (Airdrop 0%nat (dec 5)) ledger_airdrop_10))
     = dec 15.
Proof.
  split; [vm_compute; reflexivity|].
  assert (Hrun : submit alice (Airdrop 0%nat (dec 5)) ledger_airdrop_10
                 = (Ok 2%nat,
                    snd (submit alice (Airdrop 0%nat (dec 5))
                           ledger_airdrop_10)))
    by (vm_compute; reflexivity).
  rewrite (Airdrop_mints ledger_airdrop_10 0%nat alice_account (dec 5) alice
             2%nat _ alice_tkn wf_ledger_airdrop_10 eq_refl Hrun).
  vm_compute. reflexivity.
Defined.
